(** * The audio session and playback controller of [index.tsx]

    A shallow embedding of the parts of [src/index.tsx] that own the audio
    pipeline: the [throttle] utility, the [SettingsController] element and the
    [PromptDj] element (session callbacks, prompt and configuration dispatch,
    playback state machine); and of what surrounds them: the listeners of
    the dashboard that call into the element, the colour palette, the
    weight slider, and the context and musical agents.

    Conventions of the embedding.
    - A JavaScript number is an exact rational ([Q]) where the program
      computes it in one step and stores it or passes it on; [NaN] is a
      separate constructor where the code can produce it.  The cursor of
      the audio, to which the program adds a duration for every chunk and
      which it compares with the clock, is also given as the double it is
      ([Doubles]).  The counter of the prompt ids is an integer rounded to
      a double.  [Date.now()] is an integer number of milliseconds ([Z]).
    - A handler is a function from the fields of the element to the new
      fields and the list of effects it performed, in program order.
    - Every value a handler obtains from outside (the clock, the outcome of
      an awaited call, a random choice) is an argument of the handler.  An
      [async] handler is run to completion: the outcome of the awaited call
      is known when it starts, and no other handler runs in between. *)

From Stdlib Require Import QArith Qround ZArith Lia Lqa String List Bool.
From Stdlib Require Import Floats.
From stdpp Require Import gmap strings list pretty.
Import ListNotations.

Local Open Scope string_scope.
Local Open Scope list_scope.

(** ** JavaScript values *)

(** [x < y] on numbers. *)
Definition Qltb (x y : Q) : bool := negb (Qle_bool y x).

(** The values that flow through the settings form:
    [string | number | boolean | undefined]. *)
Inductive Value :=
| VUndefined
| VNumber (q : Q)
| VNaN
| VBoolean (b : bool)
| VString (s : string).

(** [a ?? b] *)
Definition nullish (a b : Value) : Value :=
  match a with VUndefined => b | _ => a end.

(** [Boolean(v)] *)
Definition Boolean (v : Value) : bool :=
  match v with
  | VUndefined => false
  | VNumber q => negb (Qeq_bool q 0)
  | VNaN => false
  | VBoolean b => b
  | VString s => negb (String.eqb s "")
  end.

(** ** [throttle] *)

Module Throttle.
Section Closure.
(** [St] holds the program state, [Eff] the effects, [A] the arguments of
    the wrapped function.  The variable [lastCall] captured by the closure
    is a cell of the state, reached through [getLastCall]/[setLastCall]. *)
Context {St Eff A : Type}.
Variable getLastCall : St -> Z.
Variable setLastCall : Z -> St -> St.
Variable func : A -> St -> St * list Eff.
Variable delay : Z.

(** One call of the closure returned by [throttle(func, delay)];
    [now] is [Date.now()]. *)
Definition throttle (now : Z) (args : A) (s : St) : St * list Eff :=
  let timeSinceLastCall := (now - getLastCall s)%Z in
  if (delay <=? timeSinceLastCall)%Z then
    let '(s1, eff) := func args s in
    (setLastCall now s1, eff)
  else (s, []).

(** A sequence of calls, each with its own clock reading. *)
Fixpoint calls (l : list (Z * A)) (s : St) : St * list Eff :=
  match l with
  | [] => (s, [])
  | (now, args) :: l' =>
      let '(s1, eff1) := throttle now args s in
      let '(s2, eff2) := calls l' s1 in
      (s2, eff1 ++ eff2)
  end.

(** All the calls of [l] fall less than [delay] after time [t0]. *)
Definition within_window (t0 : Z) (l : list (Z * A)) : Prop :=
  Forall (fun c => (t0 <= fst c < t0 + delay)%Z) l.
End Closure.
End Throttle.

(** ** [SettingsController] *)

Module Settings.

(** A [LiveMusicGenerationConfig] is used as a bag of optional fields,
    copied with spreads and written through computed keys: a finite map from
    field name to value.  A field may be present with the value
    [undefined]; reading an absent field gives [undefined] too. *)
Abbreviation Config := (gmap string Value).

(** [cfg.key] *)
Definition get (cfg : Config) (key : string) : Value :=
  default VUndefined (cfg !! key).

(** [v !== undefined] *)
Definition defined (v : Value) : bool :=
  match v with VUndefined => false | _ => true end.

Record SettingsController := mkSettings {
  config : Config;
  showAdvanced : bool;
  autoDensity : bool;
  lastDefinedDensity : Value;
  autoBrightness : bool;
  lastDefinedBrightness : Value
}.

Definition set_config (v : Config) (c : SettingsController) :=
  mkSettings v (showAdvanced c) (autoDensity c) (lastDefinedDensity c)
    (autoBrightness c) (lastDefinedBrightness c).
Definition set_autoDensity (v : bool) (c : SettingsController) :=
  mkSettings (config c) (showAdvanced c) v (lastDefinedDensity c)
    (autoBrightness c) (lastDefinedBrightness c).
Definition set_lastDefinedDensity (v : Value) (c : SettingsController) :=
  mkSettings (config c) (showAdvanced c) (autoDensity c) v
    (autoBrightness c) (lastDefinedBrightness c).
Definition set_autoBrightness (v : bool) (c : SettingsController) :=
  mkSettings (config c) (showAdvanced c) (autoDensity c) (lastDefinedDensity c)
    v (lastDefinedBrightness c).
Definition set_lastDefinedBrightness (v : Value) (c : SettingsController) :=
  mkSettings (config c) (showAdvanced c) (autoDensity c) (lastDefinedDensity c)
    (autoBrightness c) v.

Definition defaultConfig : Config :=
  <["temperature" := VNumber (11 # 10)]>
    (<["topK" := VNumber 40]> (<["guidance" := VNumber 4]> ∅)).

(** The field initialisers of the class. *)
Definition initial : SettingsController :=
  {| config := defaultConfig;
     showAdvanced := false;
     autoDensity := true;
     lastDefinedDensity := VUndefined;
     autoBrightness := true;
     lastDefinedBrightness := VUndefined |}.

(** [dispatchSettingsChange]: the [detail] of the ['settings-changed']
    event. *)
Definition dispatchSettingsChange (c : SettingsController) : Config :=
  let configToSend := config c in
  let configToSend :=
    if autoDensity c then <["density" := VUndefined]> configToSend
    else configToSend in
  let configToSend :=
    if autoBrightness c then <["brightness" := VUndefined]> configToSend
    else configToSend in
  configToSend.

(** [resetToDefaults]: the new fields and the dispatched [detail]. *)
Definition resetToDefaults (c : SettingsController)
  : SettingsController * Config :=
  let c := set_config defaultConfig c in
  let c := set_autoDensity true c in
  let c := set_lastDefinedDensity VUndefined c in
  let c := set_autoBrightness true c in
  let c := set_lastDefinedBrightness VUndefined c in
  (c, dispatchSettingsChange c).

(** [setConfig]: [{...this.config, ...newConfig}] keeps the fields of
    [newConfig] where both have one. *)
Definition setConfig (newConfig : Config) (c : SettingsController)
  : SettingsController :=
  let updatedConfig := newConfig ∪ config c in
  let c :=
    if defined (get newConfig "density") then
      set_lastDefinedDensity (get newConfig "density") (set_autoDensity false c)
    else c in
  let c :=
    if defined (get newConfig "brightness") then
      set_lastDefinedBrightness (get newConfig "brightness")
        (set_autoBrightness false c)
    else c in
  set_config updatedConfig c.

Definition connectedCallback (c : SettingsController) : SettingsController :=
  let c :=
    if defined (get (config c) "density") then
      set_autoDensity false (set_lastDefinedDensity (get (config c) "density") c)
    else c in
  if defined (get (config c) "brightness") then
    set_autoBrightness false
      (set_lastDefinedBrightness (get (config c) "brightness") c)
  else c.

(** The part of the event target that [handleInputChange] reads.
    [selectedOptionDisabled] is
    [options[selectedIndex]?.disabled] of a select element. *)
Record HTMLInputElement := {
  id : string;
  type : string;
  value : string;
  checked : bool;
  selectedOptionDisabled : bool
}.

Section Form.
(** [Number(s)] on a string is the platform's: it gives a number or
    [NaN]. *)
Variable NumberOfString : string -> Value.

(** [Number(v)] *)
Definition Number (v : Value) : Value :=
  match v with
  | VUndefined => VNaN
  | VNumber q => VNumber q
  | VNaN => VNaN
  | VBoolean b => VNumber (if b then 1 else 0)
  | VString s => NumberOfString s
  end.

(** [handleInputChange]: the new fields and the dispatched [detail].
    ([updateSliderBackground] only restyles the slider.) *)
Definition handleInputChange (target : HTMLInputElement)
    (c : SettingsController) : SettingsController * Config :=
  let key := id target in
  let value :=
    if String.eqb (type target) "number" || String.eqb (type target) "range"
    then
      if String.eqb (value target) "" then VUndefined
      else NumberOfString (value target)
    else if String.eqb (type target) "checkbox" then VBoolean (checked target)
    else if String.eqb (type target) "select-one" then
      if selectedOptionDisabled target then VUndefined
      else VString (value target)
    else VString (value target) in
  let newConfig := config c in
  let c :=
    if String.eqb key "auto-density" then
      let c := set_autoDensity (Boolean value) c in
      set_config
        (<["density" :=
             if autoDensity c then VUndefined
             else nullish (lastDefinedDensity c) (VNumber (1 # 2))]> newConfig)
        c
    else if String.eqb key "auto-brightness" then
      let c := set_autoBrightness (Boolean value) c in
      set_config
        (<["brightness" :=
             if autoBrightness c then VUndefined
             else nullish (lastDefinedBrightness c) (VNumber (1 # 2))]>
           newConfig)
        c
    else if String.eqb key "density" then
      let c :=
        if defined value then set_lastDefinedDensity (Number value) c
        else c in
      set_config
        (if negb (autoDensity c) then <["density" := Number value]> newConfig
         else newConfig)
        c
    else if String.eqb key "brightness" then
      let c :=
        if defined value then set_lastDefinedBrightness (Number value) c
        else c in
      set_config
        (if negb (autoBrightness c)
         then <["brightness" := Number value]> newConfig
         else newConfig)
        c
    else set_config (<[key := value]> newConfig) c in
  (c, dispatchSettingsChange c).
End Form.

(** The inputs of the form that stand for the two auto fields: the
    checkbox [auto-<field>] and the slider [<field>]. *)
Definition checkbox (id : string) (checked : bool) : HTMLInputElement :=
  {| id := id; type := "checkbox"; value := "on"; checked := checked;
     selectedOptionDisabled := false |}.

Definition slider (id : string) (value : string) : HTMLInputElement :=
  {| id := id; type := "range"; value := value; checked := false;
     selectedOptionDisabled := false |}.

(** The configuration [cfg] carries no value for a field that the element
    [c] has in auto mode. *)
Definition omits_auto_fields (c : SettingsController) (cfg : Config) : Prop :=
  (autoDensity c = true -> get cfg "density" = VUndefined) /\
  (autoBrightness c = true -> get cfg "brightness" = VUndefined).

End Settings.

(** ** [PromptDj] *)

Module Dj.
Import Settings.

Inductive PlaybackState := stopped | playing | loading | paused.

Record WeightedPrompt := { wp_text : string; wp_weight : Q }.

Record Prompt := {
  promptId : string;
  color : string;
  text : string;
  weight : Q;
  isTextEditable : option bool
}.

Record MCPPromptAndConfig := {
  weightedPrompts : list WeightedPrompt;
  mcp_config : option Config
}.

(** An [AudioBuffer] of the Web Audio API: [frames] is its [length] in
    sample frames, at [sampleRate] frames per second ([createBuffer] refuses
    an empty buffer); [duration] is their quotient. *)
Record AudioBuffer := { frames : positive; sampleRate : positive }.

Definition duration (b : AudioBuffer) : Q := Zpos (frames b) # sampleRate b.

(** The inbound message, as far as [onmessage] reads it; [audioChunks] is
    [e.serverContent?.audioChunks]. *)
Record FilteredPrompt := { fp_text : string; filteredReason : string }.
Record AudioChunk := { data : string }.
Record LiveMusicServerMessage := {
  setupComplete : bool;
  filteredPrompt : option FilteredPrompt;
  audioChunks : option (list AudioChunk)
}.

(** The callbacks handed to [setTimeout]. *)
Inductive Timer :=
| LoadingToPlaying   (* if (playbackState === 'loading') playbackState = 'playing' *)
| ResumeAfterReset.  (* if (!connectionError) internalLoadAudio() *)

Inductive Effect :=
| ConsoleLog (msg : string)
| ConsoleError (msg : string)
| ShowToast (message : string)                  (* dispatchToast *)
| Connect                                       (* lyriaAI.live.music.connect *)
| SessionPlay
| SessionPause
| SessionStop
| SessionResetContext
| SetWeightedPrompts (prompts : list WeightedPrompt)
| SetMusicGenerationConfig (cfg : Config)
| SourceStart (buffer : AudioBuffer) (when : Q) (* source.start(when), into outputNode *)
| GainRamp (target : Q) (from_ to_ : Q)         (* setValueAtTime(gain.value, from); linearRampToValueAtTime(target, to) *)
| ContextResume                                 (* audioContext.resume() *)
| SetTimeout (callback : Timer) (ms : Q)
| StoreUserPrompts (entries : list (string * Prompt))
| UserLyriaConfigOverride (detail : Config)     (* 'user-lyria-config-override' *)
| ResetMcpMusicalDefaults                       (* 'reset-mcp-musical-defaults' *)
| Throws (what : string).                       (* an exception leaves the handler uncaught *)

(** The outcome of an awaited call to the service. *)
Inductive Settled := Resolved | RejectedWith (message : string).

(** What one handler invocation reads from outside the element. *)
Record Env := {
  dateNow : Z;                           (* Date.now() *)
  currentTime : Q;                       (* audioContext.currentTime *)
  connect : Settled;                     (* lyriaAI.live.music.connect(...) *)
  setWeightedPrompts : Settled;          (* session.setWeightedPrompts(...) *)
  setMusicGenerationConfig : Settled;    (* session.setMusicGenerationConfig(...) *)
  mcp : option MCPPromptAndConfig        (* this.mcp.lyria_output.current_prompt, None without this.mcp *)
}.

(** The fields of the element.  [session] tells whether [this.session] has
    been assigned; the two [lastCall] fields are the variables captured by
    the two [throttle] closures. *)
Record PromptDj := mkDj {
  userPrompts : list (string * Prompt);
  nextUserPromptId : Z;
  session : bool;
  nextStartTime : Q;
  playbackState : PlaybackState;
  filteredPrompts : gset string;
  connectionError : bool;
  settingsController : option SettingsController;
  currentLyriaPrompts : list WeightedPrompt;
  setSessionPrompts_lastCall : Z;
  updateLyriaConfig_lastCall : Z
}.

Definition set_userPrompts v (s : PromptDj) :=
  mkDj v (nextUserPromptId s) (session s) (nextStartTime s) (playbackState s)
    (filteredPrompts s) (connectionError s) (settingsController s)
    (currentLyriaPrompts s) (setSessionPrompts_lastCall s)
    (updateLyriaConfig_lastCall s).
Definition set_nextUserPromptId v (s : PromptDj) :=
  mkDj (userPrompts s) v (session s) (nextStartTime s) (playbackState s)
    (filteredPrompts s) (connectionError s) (settingsController s)
    (currentLyriaPrompts s) (setSessionPrompts_lastCall s)
    (updateLyriaConfig_lastCall s).
Definition set_session v (s : PromptDj) :=
  mkDj (userPrompts s) (nextUserPromptId s) v (nextStartTime s)
    (playbackState s) (filteredPrompts s) (connectionError s)
    (settingsController s) (currentLyriaPrompts s)
    (setSessionPrompts_lastCall s) (updateLyriaConfig_lastCall s).
Definition set_nextStartTime v (s : PromptDj) :=
  mkDj (userPrompts s) (nextUserPromptId s) (session s) v (playbackState s)
    (filteredPrompts s) (connectionError s) (settingsController s)
    (currentLyriaPrompts s) (setSessionPrompts_lastCall s)
    (updateLyriaConfig_lastCall s).
Definition set_playbackState v (s : PromptDj) :=
  mkDj (userPrompts s) (nextUserPromptId s) (session s) (nextStartTime s) v
    (filteredPrompts s) (connectionError s) (settingsController s)
    (currentLyriaPrompts s) (setSessionPrompts_lastCall s)
    (updateLyriaConfig_lastCall s).
Definition set_filteredPrompts v (s : PromptDj) :=
  mkDj (userPrompts s) (nextUserPromptId s) (session s) (nextStartTime s)
    (playbackState s) v (connectionError s) (settingsController s)
    (currentLyriaPrompts s) (setSessionPrompts_lastCall s)
    (updateLyriaConfig_lastCall s).
Definition set_connectionError v (s : PromptDj) :=
  mkDj (userPrompts s) (nextUserPromptId s) (session s) (nextStartTime s)
    (playbackState s) (filteredPrompts s) v (settingsController s)
    (currentLyriaPrompts s) (setSessionPrompts_lastCall s)
    (updateLyriaConfig_lastCall s).
Definition set_settingsController v (s : PromptDj) :=
  mkDj (userPrompts s) (nextUserPromptId s) (session s) (nextStartTime s)
    (playbackState s) (filteredPrompts s) (connectionError s) v
    (currentLyriaPrompts s) (setSessionPrompts_lastCall s)
    (updateLyriaConfig_lastCall s).
Definition set_currentLyriaPrompts v (s : PromptDj) :=
  mkDj (userPrompts s) (nextUserPromptId s) (session s) (nextStartTime s)
    (playbackState s) (filteredPrompts s) (connectionError s)
    (settingsController s) v (setSessionPrompts_lastCall s)
    (updateLyriaConfig_lastCall s).
Definition set_setSessionPrompts_lastCall v (s : PromptDj) :=
  mkDj (userPrompts s) (nextUserPromptId s) (session s) (nextStartTime s)
    (playbackState s) (filteredPrompts s) (connectionError s)
    (settingsController s) (currentLyriaPrompts s) v
    (updateLyriaConfig_lastCall s).
Definition set_updateLyriaConfig_lastCall v (s : PromptDj) :=
  mkDj (userPrompts s) (nextUserPromptId s) (session s) (nextStartTime s)
    (playbackState s) (filteredPrompts s) (connectionError s)
    (settingsController s) (currentLyriaPrompts s)
    (setSessionPrompts_lastCall s) v.

(** *** Handlers as state transformers with effects *)

Definition Act := PromptDj -> PromptDj * list Effect.

Definition skip : Act := fun s => (s, []).
Definition emit (e : Effect) : Act := fun s => (s, [e]).
Definition modify (f : PromptDj -> PromptDj) : Act := fun s => (f s, []).
Definition andThen (f g : Act) : Act := fun s =>
  let '(s1, e1) := f s in
  let '(s2, e2) := g s1 in
  (s2, e1 ++ e2).

Notation "f >>> g" := (andThen f g) (at level 62, right associativity).

(** *** The [Map] of user prompts, in insertion order *)

Fixpoint map_get {V} (k : string) (m : list (string * V)) : option V :=
  match m with
  | [] => None
  | (k', v) :: m' => if String.eqb k k' then Some v else map_get k m'
  end.

(** [m.set(k, v)]: an existing key keeps its place, a new one goes last. *)
Fixpoint map_set {V} (k : string) (v : V) (m : list (string * V))
  : list (string * V) :=
  match m with
  | [] => [(k, v)]
  | (k', v') :: m' =>
      if String.eqb k k' then (k, v) :: m' else (k', v') :: map_set k v m'
  end.

Fixpoint map_delete {V} (k : string) (m : list (string * V))
  : list (string * V) :=
  match m with
  | [] => []
  | (k', v') :: m' =>
      if String.eqb k k' then m' else (k', v') :: map_delete k m'
  end.

Definition map_values {V} (m : list (string * V)) : list V := map snd m.

(** *** Constants and field initialisers *)

Definition bufferTime : Q := 2.

Definition PROMPT_TEXT_PRESETS : list string :=
  [ "Bossa Nova"; "Minimal Techno"; "Drum and Bass"; "Post Punk"; "Shoegaze";
    "Funk"; "Chiptune"; "Lush Strings"; "Sparkling Arpeggios";
    "Staccato Rhythms"; "Punchy Kick"; "Dubstep"; "K Pop"; "Neo Soul";
    "Trip Hop"; "Thrash" ].

(** The element after its constructor: [stored] is what
    [getStoredUserPrompts] read and [nextId] the id computed from its
    keys. *)
Definition initial (stored : list (string * Prompt)) (nextId : Z) : PromptDj :=
  {| userPrompts := stored;
     nextUserPromptId := nextId;
     session := false;
     nextStartTime := 0;
     playbackState := stopped;
     filteredPrompts := ∅;
     connectionError := true;
     settingsController := None;
     currentLyriaPrompts := [];
     setSessionPrompts_lastCall := 0;
     updateLyriaConfig_lastCall := 0 |}.

(** *** Transport *)

Definition dispatchToast (message : string) : Act := emit (ShowToast message).

Definition internalPauseAudio (env : Env) : Act := fun s =>
  if negb (session s) || connectionError s then skip s
  else
    (emit SessionPause >>>
     modify (set_playbackState paused) >>>
     emit (GainRamp 0 (currentTime env) (currentTime env + (1 # 10))) >>>
     modify (set_nextStartTime 0)) s.

Definition internalLoadAudio (env : Env) : Act := fun s =>
  if negb (session s) || connectionError s then
    (modify (set_playbackState stopped) >>>
     dispatchToast "Cannot play: Lyria session not available.") s
  else
    (emit ContextResume >>>
     emit SessionPlay >>>
     modify (set_playbackState loading) >>>
     emit (GainRamp 1 (currentTime env) (currentTime env + (1 # 10)))) s.

Definition internalStopAudio : Act := fun s =>
  if negb (session s) then skip s
  else
    (emit SessionStop >>>
     modify (set_playbackState stopped) >>>
     modify (set_nextStartTime 0)) s.

(** *** Session callbacks *)

(** [onmessage], from [source.buffer = audioBuffer] on: prime the cursor
    if it is at its sentinel, then either report the underrun or start the
    buffer at the cursor and advance it. *)
Definition scheduleChunk (env : Env) (audioBuffer : AudioBuffer) : Act :=
  (fun s =>
     if Qeq_bool (nextStartTime s) 0 then
       (modify (set_nextStartTime (currentTime env + bufferTime)) >>>
        emit (SetTimeout LoadingToPlaying (bufferTime * 1000))) s
     else skip s) >>>
  (fun s =>
     if Qltb (nextStartTime s) (currentTime env) then
       (emit (ConsoleLog "Lyria audio under-run") >>>
        modify (set_playbackState loading) >>>
        modify (set_nextStartTime 0)) s
     else
       (emit (SourceStart audioBuffer (nextStartTime s)) >>>
        modify (set_nextStartTime (nextStartTime s + duration audioBuffer)))
         s).

(** [onmessage].  [decodeAudioData d] stands for
    [await decodeAudioData(decode(d), this.audioContext, 48000, 2)] of
    [./utils]: the decoded buffer, or [None] when [decode] throws or the
    promise is rejected.  Nothing in the callback catches that. *)
Definition onmessage (decodeAudioData : string -> option AudioBuffer)
    (env : Env) (e : LiveMusicServerMessage) : Act :=
  (if setupComplete e then modify (set_connectionError false) else skip) >>>
  (match filteredPrompt e with
   | Some fp =>
       modify (fun s =>
                 set_filteredPrompts (filteredPrompts s ∪ {[fp_text fp]}) s) >>>
       dispatchToast
         ("Filtered: " ++ substring 0 50 (filteredReason fp))%string
   | None => skip
   end) >>>
  match audioChunks e with
  | None => skip
  | Some chunks => fun s =>
      match playbackState s with
      | paused | stopped => skip s
      | playing | loading =>
          match chunks with
          | [] => emit (Throws "audioChunks[0] is undefined") s
          | chunk :: _ =>
              match decodeAudioData (data chunk) with
              | None => emit (Throws "decodeAudioData failed") s
              | Some audioBuffer => scheduleChunk env audioBuffer s
              end
          end
      end
  end.

Definition onerror : Act :=
  emit (ConsoleError "Lyria connection error:") >>>
  modify (set_connectionError true) >>>
  internalStopAudio >>>
  dispatchToast "Lyria connection error. Please restart.".

Definition onclose (wasClean : bool) : Act :=
  emit (ConsoleLog "Lyria connection closed.") >>>
  if negb wasClean then
    modify (set_connectionError true) >>>
    internalStopAudio >>>
    dispatchToast "Lyria connection closed unexpectedly."
  else skip.

(** [connectToSession]: the three callbacks above are registered with the
    call. *)
Definition connectToSession (env : Env) : Act :=
  emit Connect >>>
  match connect env with
  | Resolved => modify (set_session true)
  | RejectedWith message =>
      emit (ConsoleError "Failed to connect to Lyria session:") >>>
      dispatchToast
        ("Failed to connect to Lyria: " ++ substring 0 100 message)%string >>>
      modify (set_connectionError true) >>>
      modify (set_playbackState stopped)
  end.

(** The callbacks given to [setTimeout]. *)
Definition timeout (env : Env) (t : Timer) : Act := fun s =>
  match t with
  | LoadingToPlaying =>
      match playbackState s with
      | loading => modify (set_playbackState playing) s
      | _ => skip s
      end
  | ResumeAfterReset =>
      if negb (connectionError s) then internalLoadAudio env s else skip s
  end.

(** *** Control plane *)

(** The user prompts that are forwarded. *)
Definition userWPs (s : PromptDj) : list WeightedPrompt :=
  map (fun p => {| wp_text := text p; wp_weight := weight p |})
    (List.filter
       (fun p => Qltb 0 (weight p) &&
                 negb (bool_decide (text p ∈ filteredPrompts s)))
       (map_values (userPrompts s))).

Definition silence : WeightedPrompt :=
  {| wp_text := "silence"; wp_weight := 1 # 100 |}.

(** The list handed to [session.setWeightedPrompts]. *)
Definition allPrompts (prompts : list WeightedPrompt) (s : PromptDj)
  : list WeightedPrompt :=
  let allPrompts := prompts ++ userWPs s in
  if Nat.eqb (length allPrompts) 0 then allPrompts ++ [silence]
  else allPrompts.

(** The function wrapped by the [setSessionPrompts] throttle.  The call
    to the session is made when the function is called; the [catch] runs
    when the rejection is delivered, after the handler that made the call
    has run to its end (or to its next [await]).  Here its effects are
    recorded at the call: the fields a handler ends with are those of the
    program, while in the program's trace the notice and the pause of a
    rejected send come after the handler's remaining effects. *)
Definition setSessionPrompts_func (args : Env * list WeightedPrompt) : Act :=
  fun s =>
  let '(env, prompts) := args in
  if negb (session s) || connectionError s then skip s
  else
    (emit (SetWeightedPrompts (allPrompts prompts s)) >>>
     match setWeightedPrompts env with
     | Resolved => skip
     | RejectedWith message =>
         dispatchToast
           ("Error setting prompts: " ++ substring 0 100 message)%string >>>
         internalPauseAudio env
     end) s.

Definition setSessionPrompts (env : Env) (prompts : list WeightedPrompt)
  : Act :=
  Throttle.throttle setSessionPrompts_lastCall set_setSessionPrompts_lastCall
    setSessionPrompts_func 200 (dateNow env) (env, prompts).

(** The function wrapped by the [updateLyriaConfig] throttle.  As for
    [setSessionPrompts_func], the notice of the [catch] is recorded at the
    call; in the program it is shown after the handler that made the call
    has run to its end. *)
Definition updateLyriaConfig_func (args : Env * Config) : Act := fun s =>
  let '(env, config) := args in
  if negb (session s) || connectionError s then skip s
  else
    (emit (SetMusicGenerationConfig config) >>>
     match setMusicGenerationConfig env with
     | Resolved => skip
     | RejectedWith message =>
         dispatchToast
           ("Error setting Lyria config: " ++ substring 0 100 message)%string
     end) s.

Definition updateLyriaConfig (env : Env) (config : Config) : Act :=
  Throttle.throttle updateLyriaConfig_lastCall set_updateLyriaConfig_lastCall
    updateLyriaConfig_func 200 (dateNow env) (env, config).

Definition updateLyriaPrompts (env : Env) (promptAndConfig : MCPPromptAndConfig)
  : Act :=
  modify (set_currentLyriaPrompts (weightedPrompts promptAndConfig)) >>>
  setSessionPrompts env (weightedPrompts promptAndConfig) >>>
  fun s =>
    match settingsController s, mcp_config promptAndConfig with
    | Some sc, Some config =>
        (modify (set_settingsController (Some (setConfig config sc))) >>>
         updateLyriaConfig env config) s
    | _, _ => skip s
    end.

Definition handleSettingsChanged (env : Env) (detail : Config) : Act :=
  updateLyriaConfig env detail >>>
  emit (UserLyriaConfigOverride detail).

(** *** User actions *)

Definition storeUserPrompts : Act := fun s =>
  emit (StoreUserPrompts (userPrompts s)) s.

(** [detail] is [e.detail]. *)
Definition handleUserPromptChanged (env : Env) (detail : Prompt) : Act :=
  fun s =>
  match map_get (promptId detail) (userPrompts s) with
  | None => skip s
  | Some prompt =>
      let updatedPrompt :=
        {| promptId := promptId prompt;
           color := color detail;
           text := text detail;
           weight := weight detail;
           isTextEditable := isTextEditable detail |} in
      (modify (set_userPrompts
                 (map_set (promptId detail) updatedPrompt (userPrompts s))) >>>
       (fun s => setSessionPrompts env (currentLyriaPrompts s) s) >>>
       storeUserPrompts) s
  end.

(** The integer [z] rounded to a double: to 53 significant bits, a tie
    going to the even one.  An integer up to 2^53 in absolute value is
    kept; beyond, not every integer is a double.  (The largest double is
    out of reach of the counter.) *)
Definition double (z : Z) : Z :=
  let a := Z.abs z in
  let e := (Z.log2 a - 52)%Z in
  if (e <=? 0)%Z then z
  else
    let ulp := (2 ^ e)%Z in
    let q := (a / ulp)%Z in
    let r := (a mod ulp)%Z in
    let q :=
      if (2 * r <? ulp)%Z then q
      else if (ulp <? 2 * r)%Z then (q + 1)%Z
      else if Z.even q then q else (q + 1)%Z in
    (Z.sgn z * (q * ulp))%Z.

(** [r] is [Math.floor(Math.random() * PROMPT_TEXT_PRESETS.length)] and
    [newColor] what [getUnusedRandomColor] returned.  The counter is a
    double that holds an integer: [this.nextUserPromptId++] stores the
    rounded sum, which from 2^53 on is the counter itself.  The digits of
    the id are those of the counter. *)
Definition handleAddUserPrompt (env : Env) (r : nat) (newColor : string)
  : Act := fun s =>
  let newPromptId := ("userprompt-" ++ pretty (nextUserPromptId s))%string in
  let newPrompt :=
    {| promptId := newPromptId;
       color := newColor;
       text := nth r PROMPT_TEXT_PRESETS "";
       weight := 0;
       isTextEditable := Some true |} in
  (modify (set_nextUserPromptId (double (nextUserPromptId s + 1))) >>>
   modify (fun s =>
             set_userPrompts (map_set newPromptId newPrompt (userPrompts s))
               s) >>>
   (fun s => setSessionPrompts env (currentLyriaPrompts s) s) >>>
   storeUserPrompts) s.

Definition handleUserPromptRemoved (env : Env) (promptIdToRemove : string)
  : Act := fun s =>
  match map_get promptIdToRemove (userPrompts s) with
  | Some _ =>
      (modify (set_userPrompts (map_delete promptIdToRemove (userPrompts s))) >>>
       (fun s => setSessionPrompts env (currentLyriaPrompts s) s) >>>
       storeUserPrompts) s
  | None => skip s
  end.

Definition handlePlayPause (env : Env) : Act := fun s =>
  match playbackState s with
  | playing => internalPauseAudio env s
  | paused | stopped =>
      if connectionError s then
        (connectToSession env >>>
         fun s =>
           if negb (connectionError s) then
             ((match mcp env with
               | Some current_prompt => updateLyriaPrompts env current_prompt
               | None => setSessionPrompts env []
               end) >>>
              internalLoadAudio env) s
           else skip s) s
      else internalLoadAudio env s
  | loading => internalStopAudio s
  end.

Definition playAudio (env : Env) : Act := fun s =>
  match playbackState s with
  | playing | loading => skip s
  | _ => handlePlayPause env s
  end.

Definition pauseAudio (env : Env) : Act := fun s =>
  match playbackState s with
  | playing | loading => internalPauseAudio env s
  | _ => skip s
  end.

(** [handleReset], from [this.internalPauseAudio()] on.  [resetToDefaults]
    dispatches ['settings-changed'], which the element handles with
    [handleSettingsChanged] before the call returns. *)
Definition handleReset_rest (env : Env) : Act :=
  internalPauseAudio env >>>
  fun s =>
    if negb (session s) then emit (Throws "this.session is undefined") s
    else
      (emit SessionResetContext >>>
       fun s =>
         match settingsController s with
         | None => emit (Throws "this.settingsController is null") s
         | Some sc =>
             let '(sc, detail) := resetToDefaults sc in
             (modify (set_settingsController (Some sc)) >>>
              handleSettingsChanged env detail >>>
              emit ResetMcpMusicalDefaults >>>
              emit (SetTimeout ResumeAfterReset 100)) s
         end) s.

Definition handleReset (env : Env) : Act := fun s =>
  if connectionError s then
    (connectToSession env >>>
     fun s =>
       if connectionError s then
         dispatchToast "Cannot reset: Lyria connection failed." s
       else handleReset_rest env s) s
  else handleReset_rest env s.

Definition firstUpdated (env : Env) : Act :=
  connectToSession env >>>
  match mcp env with
  | Some current_prompt => updateLyriaPrompts env current_prompt
  | None => skip
  end.

(** The first render creates the [settings-controller] element that
    [this.settingsController] queries. *)
Definition firstRender : Act := fun s =>
  match settingsController s with
  | None =>
      modify (set_settingsController
                (Some (connectedCallback Settings.initial))) s
  | Some _ => skip s
  end.

(** An edit in the settings form: [handleInputChange] of the inner element,
    whose event the outer element handles with [handleSettingsChanged]. *)
Definition settingsInput (NumberOfString : string -> Value) (env : Env)
    (target : HTMLInputElement) : Act := fun s =>
  match settingsController s with
  | None => skip s
  | Some sc =>
      let '(sc, detail) := handleInputChange NumberOfString target sc in
      (modify (set_settingsController (Some sc)) >>>
       handleSettingsChanged env detail) s
  end.

(** *** The element as a state machine *)

Inductive Event :=
| FirstRender
| FirstUpdated
| Message (e : LiveMusicServerMessage)
| Error
| Close (wasClean : bool)
| Timeout (t : Timer)
| UpdateLyriaPrompts (promptAndConfig : MCPPromptAndConfig)
| PlayAudio
| PauseAudio
| PlayPause
| Reset
| UserPromptChanged (detail : Prompt)
| AddUserPrompt (r : nat) (newColor : string)
| UserPromptRemoved (promptIdToRemove : string)
| SettingsInput (target : HTMLInputElement).

Section Machine.
Variable decodeAudioData : string -> option AudioBuffer.
Variable NumberOfString : string -> Value.

Definition handle (env : Env) (ev : Event) : Act :=
  match ev with
  | FirstRender => firstRender
  | FirstUpdated => firstUpdated env
  | Message e => onmessage decodeAudioData env e
  | Error => onerror
  | Close wasClean => onclose wasClean
  | Timeout t => timeout env t
  | UpdateLyriaPrompts promptAndConfig => updateLyriaPrompts env promptAndConfig
  | PlayAudio => playAudio env
  | PauseAudio => pauseAudio env
  | PlayPause => handlePlayPause env
  | Reset => handleReset env
  | UserPromptChanged detail => handleUserPromptChanged env detail
  | AddUserPrompt r newColor => handleAddUserPrompt env r newColor
  | UserPromptRemoved promptIdToRemove =>
      handleUserPromptRemoved env promptIdToRemove
  | SettingsInput target => settingsInput NumberOfString env target
  end.

(** A run: each event with what its handler reads from outside. *)
Fixpoint run (l : list (Env * Event)) : Act :=
  match l with
  | [] => skip
  | (env, ev) :: l' => handle env ev >>> run l'
  end.

(** The states the element can be in. *)
Inductive reachable : PromptDj -> Prop :=
| reachable_initial stored nextId : reachable (initial stored nextId)
| reachable_step s env ev :
    reachable s -> reachable (fst (handle env ev s)).
End Machine.

(** *** Streams of audio messages *)

(** A message stripped of its audio. *)
Definition withoutAudio (e : LiveMusicServerMessage) : LiveMusicServerMessage :=
  {| setupComplete := setupComplete e;
     filteredPrompt := filteredPrompt e;
     audioChunks := None |}.

(** The cursor a chunk handled at time [now] is measured against. *)
Definition primed (now : Q) (s : PromptDj) : Q :=
  if Qeq_bool (nextStartTime s) 0 then (now + bufferTime)%Q
  else nextStartTime s.

(** *** Bursts of calls on the two throttled channels *)

Fixpoint setSessionPrompts_calls (l : list (Env * list WeightedPrompt)) : Act :=
  match l with
  | [] => skip
  | (env, prompts) :: l' =>
      setSessionPrompts env prompts >>> setSessionPrompts_calls l'
  end.

Fixpoint updateLyriaConfig_calls (l : list (Env * Config)) : Act :=
  match l with
  | [] => skip
  | (env, config) :: l' =>
      updateLyriaConfig env config >>> updateLyriaConfig_calls l'
  end.

(** Every call of the burst reads a clock in the 200 ms that start at
    [t0]. *)
Definition in_window {A} (t0 : Z) (l : list (Env * A)) : Prop :=
  Forall (fun c => (t0 <= dateNow (fst c) < t0 + 200)%Z) l.

(** *** Reading a trace *)

(** The buffers handed to the output, with their start times. *)
Fixpoint scheduled (t : list Effect) : list (AudioBuffer * Q) :=
  match t with
  | [] => []
  | SourceStart buffer when :: t' => (buffer, when) :: scheduled t'
  | _ :: t' => scheduled t'
  end.

(** The prompt sets sent to the service. *)
Fixpoint sentPrompts (t : list Effect) : list (list WeightedPrompt) :=
  match t with
  | [] => []
  | SetWeightedPrompts prompts :: t' => prompts :: sentPrompts t'
  | _ :: t' => sentPrompts t'
  end.

(** The configurations sent to the service. *)
Fixpoint sentConfigs (t : list Effect) : list Config :=
  match t with
  | [] => []
  | SetMusicGenerationConfig cfg :: t' => cfg :: sentConfigs t'
  | _ :: t' => sentConfigs t'
  end.

(** The notices shown to the user. *)
Fixpoint toasts (t : list Effect) : list string :=
  match t with
  | [] => []
  | ShowToast message :: t' => message :: toasts t'
  | _ :: t' => toasts t'
  end.

(** The exceptions that left a handler. *)
Fixpoint thrown (t : list Effect) : list string :=
  match t with
  | [] => []
  | Throws what :: t' => what :: thrown t'
  | _ :: t' => thrown t'
  end.

(** *** Invariants of handlers *)

(** The handler [a] keeps the invariant [I] of the fields and performs only
    effects that satisfy [E]. *)
Definition keeps (I : PromptDj -> Prop) (E : Effect -> Prop) (a : Act) : Prop :=
  forall s, I s -> I (fst (a s)) /\ Forall E (snd (a s)).

(** Before a session has ever been stored, nothing has been played: the
    element is stopped and the cursor is at its sentinel. *)
Definition idle_without_session (s : PromptDj) : Prop :=
  session s = false -> playbackState s = stopped /\ nextStartTime s = 0%Q.


(** The handler leaves the settings element alone and sends no
    configuration other than [cfg]. *)
Definition sends_only (cfg : Config) (a : Act) : Prop :=
  forall s,
    settingsController (fst (a s)) = settingsController s /\
    forall c, In c (sentConfigs (snd (a s))) -> c = cfg.

(** The handler leaves the settings element alone and sends no
    configuration. *)
Definition quiet (a : Act) : Prop :=
  forall s,
    settingsController (fst (a s)) = settingsController s /\
    sentConfigs (snd (a s)) = [].

(** Every configuration the handler sends omits the fields that the
    settings element has in auto mode when the handler is done. *)
Definition respects_auto (a : Act) : Prop :=
  forall s cfg sc,
    In cfg (sentConfigs (snd (a s))) ->
    settingsController (fst (a s)) = Some sc ->
    omits_auto_fields sc cfg.

(** A connection that is flagged as failed is not played into: the element
    is stopped (and idle before any session has been stored). *)
Definition stopped_on_error (s : PromptDj) : Prop :=
  (connectionError s = true -> playbackState s = stopped) /\
  idle_without_session s.

(** The session can be used: it has been stored and is not flagged. *)
Definition usable (s : PromptDj) : Prop :=
  session s = true /\ connectionError s = false.

(** Every prompt set sent to the service satisfies [P]. *)
Definition sends (P : list WeightedPrompt -> Prop) (e : Effect) : Prop :=
  match e with
  | SetWeightedPrompts prompts => P prompts
  | _ => True
  end.

(** What an event brings from the agent: the prompts of
    [updateLyriaPrompts], and those of [this.mcp] where a handler reads
    it. *)
Definition agentPrompts (env : Env) (ev : Event) : list WeightedPrompt :=
  match ev with
  | UpdateLyriaPrompts promptAndConfig => weightedPrompts promptAndConfig
  | FirstUpdated | PlayAudio | PlayPause =>
      match mcp env with
      | Some current_prompt => weightedPrompts current_prompt
      | None => []
      end
  | _ => []
  end.

(** The counter is ahead of every numbered key: no key of the map is the
    id of a prompt yet to be added. *)
Definition fresh_ids (s : PromptDj) : Prop :=
  forall n, (nextUserPromptId s <= n)%Z ->
    map_get ("userprompt-" ++ pretty n)%string (userPrompts s) = None.

(** A [Map] holds a key once. *)
Definition unique_keys (m : list (string * Prompt)) : Prop :=
  List.NoDup (map fst m).

(** The invariant of the map and its counter, which stands at [n]. *)
Definition numbered (n : Z) (s : PromptDj) : Prop :=
  fresh_ids s /\ unique_keys (userPrompts s) /\ nextUserPromptId s = n.

(** The event adds a prompt. *)
Definition is_add (ev : Event) : bool :=
  match ev with AddUserPrompt _ _ => true | _ => false end.

(** The number of prompts a run adds. *)
Fixpoint adds (l : list (Env * Event)) : Z :=
  match l with
  | [] => 0
  | (_, ev) :: l' => ((if is_add ev then 1 else 0) + adds l')%Z
  end.


(** What a configuration send that fails adds to the trace. *)
Definition configNotice (env : Env) : list Effect :=
  match setMusicGenerationConfig env with
  | Resolved => []
  | RejectedWith message =>
      [ ShowToast
          ("Error setting Lyria config: " ++ substring 0 100 message)%string ]
  end.

(** The effect is not one of the requests that are only made of a
    connection that is in working order: a prompt set, a configuration,
    play, pause or a reset of the context. *)
Definition held_back (e : Effect) : Prop :=
  match e with
  | SetWeightedPrompts _ | SetMusicGenerationConfig _
  | SessionPlay | SessionPause | SessionResetContext => False
  | _ => True
  end.

(** The connection is flagged as failed. *)
Definition flagged (s : PromptDj) : Prop := connectionError s = true.

(** The event is not the message that confirms the setup. *)
Definition before_setup (ev : Event) : Prop :=
  match ev with
  | Message e => setupComplete e = false
  | _ => True
  end.

End Dj.

(** ** The scheduling cursor in double precision *)

(** [Dj] keeps the cursor of the audio and the clock as exact rationals.
    The program keeps them as IEEE 754 doubles and adds a duration to the
    cursor for every chunk, rounding each sum.  This module redoes the
    message callback with the numbers of the program: primitive binary64
    floats, their addition and their comparisons.  It has the fields the
    callback reads and writes, and the effects it performs. *)
Module Doubles.
Import Dj.

(** The decoded buffer, as far as the callback reads it: [duration], which
    the browser computes as [length / sampleRate]. *)
Record AudioBuffer := { duration : float }.

Inductive Effect :=
| ShowToast (message : string)
| SetTimeout (callback : Timer) (ms : float)
| ConsoleLog (msg : string)
| SourceStart (buffer : AudioBuffer) (when : float)
| Throws (what : string).

Record Fields := mkFields {
  connectionError : bool;
  filteredPrompts : gset string;
  playbackState : PlaybackState;
  nextStartTime : float
}.

Definition bufferTime : float := 2.

(** [onmessage], from [source.buffer = audioBuffer] on; [currentTime] is
    [this.audioContext.currentTime]. *)
Definition scheduleChunk (currentTime : float) (audioBuffer : AudioBuffer)
    (s : Fields) : Fields * list Effect :=
  let '(s, primes) :=
    if PrimFloat.eqb (nextStartTime s) 0 then
      (mkFields (connectionError s) (filteredPrompts s) (playbackState s)
         (currentTime + bufferTime),
       [SetTimeout LoadingToPlaying (bufferTime * 1000)])
    else (s, []) in
  if PrimFloat.ltb (nextStartTime s) currentTime then
    (mkFields (connectionError s) (filteredPrompts s) loading 0,
     primes ++ [ConsoleLog "Lyria audio under-run"])
  else
    (mkFields (connectionError s) (filteredPrompts s) (playbackState s)
       (nextStartTime s + duration audioBuffer),
     primes ++ [SourceStart audioBuffer (nextStartTime s)]).

(** [onmessage]; [decodeAudioData d] is [None] when the decoding throws or
    is rejected. *)
Definition onmessage (decodeAudioData : string -> option AudioBuffer)
    (currentTime : float) (e : LiveMusicServerMessage) (s : Fields)
  : Fields * list Effect :=
  let s :=
    if setupComplete e then
      mkFields false (filteredPrompts s) (playbackState s) (nextStartTime s)
    else s in
  let '(s, notices) :=
    match filteredPrompt e with
    | Some fp =>
        (mkFields (connectionError s) (filteredPrompts s ∪ {[fp_text fp]})
           (playbackState s) (nextStartTime s),
         [ShowToast ("Filtered: " ++ substring 0 50 (filteredReason fp))%string])
    | None => (s, [])
    end in
  match audioChunks e with
  | None => (s, notices)
  | Some chunks =>
      match playbackState s with
      | paused | stopped => (s, notices)
      | playing | loading =>
          match chunks with
          | [] => (s, notices ++ [Throws "audioChunks[0] is undefined"])
          | chunk :: _ =>
              match decodeAudioData (data chunk) with
              | None => (s, notices ++ [Throws "decodeAudioData failed"])
              | Some audioBuffer =>
                  let '(s, effects) := scheduleChunk currentTime audioBuffer s in
                  (s, notices ++ effects)
              end
          end
      end
  end.


(** The buffers handed to the output, with their start times. *)
Fixpoint scheduled (t : list Effect) : list (AudioBuffer * float) :=
  match t with
  | [] => []
  | SourceStart buffer when :: t' => (buffer, when) :: scheduled t'
  | _ :: t' => scheduled t'
  end.

(** The cursor a chunk handled at time [now] is measured against. *)
Definition primed (now : float) (s : Fields) : float :=
  if PrimFloat.eqb (nextStartTime s) 0 then now + bufferTime
  else nextStartTime s.





(** The number a double stands for ([None] for an infinity or NaN). *)
Definition value (x : float) : option Q :=
  match Prim2SF x with
  | S754_zero _ => Some 0%Q
  | S754_finite s m e =>
      Some ((if s then -1 else 1) * (inject_Z (Zpos m) * Qpower 2 e))%Q
  | _ => None
  end.

(** [x] stands for the number [q]. *)
Definition stands_for (x : float) (q : Q) : Prop :=
  exists q', value x = Some q' /\ (q' == q)%Q.

(** No sum of the plan is rounded: the cursor after a buffer stands for
    the cursor before it plus the duration, and the durations are
    positive. *)
Fixpoint exact (cursor : float) (buffers : list AudioBuffer) : Prop :=
  match buffers with
  | [] => True
  | b :: buffers' =>
      (exists c d,
         stands_for cursor c /\ stands_for (duration b) d /\ (0 < d)%Q /\
         stands_for (cursor + duration b) (c + d)%Q) /\
      exact (cursor + duration b) buffers'
  end.


End Doubles.

(** ** [MultiAgentSystemDashboard]: what it asks of [PromptDj] *)

Module Dashboard.
Import Dj.

(** The prompt that [handleResetMcpMusicalDefaults] installs. *)
Definition resetDefaults : MCPPromptAndConfig :=
  {| weightedPrompts :=
       [ {| wp_text := "ambient gentle reset"; wp_weight := 1 |} ];
     mcp_config :=
       Some (<["temperature" := VNumber (8 # 10)]>
               (<["topK" := VNumber 40]>
                  (<["guidance" := VNumber 3]>
                     (<["density" := VNumber (3 # 10)]>
                        (<["brightness" := VNumber (5 # 10)]> ∅))))) |}.

(** [handleResetMcpMusicalDefaults], the listener of
    ['reset-mcp-musical-defaults'], with its toast and prompt-dj components
    in place: the toast is shown, then the prompt is handed to the
    element. *)
Definition handleResetMcpMusicalDefaults (env : Env) : Act :=
  emit (ShowToast "MCP musical defaults were notionally reset.") >>>
  updateLyriaPrompts env resetDefaults.

(** [handleUserLyriaConfigOverride], the listener of
    ['user-lyria-config-override']: the new
    [this.mcp.lyria_output.current_prompt].  In [{...config, ...detail}] a
    field of [detail] wins, also one that is present with the value
    [undefined]. *)
Definition handleUserLyriaConfigOverride (detail : Settings.Config)
    (current_prompt : MCPPromptAndConfig) : MCPPromptAndConfig :=
  {| weightedPrompts := weightedPrompts current_prompt;
     mcp_config :=
       Some (detail ∪ default ∅ (mcp_config current_prompt)) |}.

(** [PromptDj.handleReset] from [this.internalPauseAudio()] on, as it runs
    inside the dashboard: the listener of ['reset-mcp-musical-defaults']
    runs when the event is dispatched, before the timer is set. *)
Definition handleReset_rest (env : Env) : Act :=
  internalPauseAudio env >>>
  fun s =>
    if negb (session s) then emit (Throws "this.session is undefined") s
    else
      (emit SessionResetContext >>>
       fun s =>
         match settingsController s with
         | None => emit (Throws "this.settingsController is null") s
         | Some sc =>
             let '(sc, detail) := Settings.resetToDefaults sc in
             (modify (set_settingsController (Some sc)) >>>
              handleSettingsChanged env detail >>>
              emit ResetMcpMusicalDefaults >>>
              handleResetMcpMusicalDefaults env >>>
              emit (SetTimeout ResumeAfterReset 100)) s
         end) s.

Definition handleReset (env : Env) : Act := fun s =>
  if connectionError s then
    (connectToSession env >>>
     fun s =>
       if connectionError s then
         dispatchToast "Cannot reset: Lyria connection failed." s
       else handleReset_rest env s) s
  else handleReset_rest env s.

End Dashboard.

(** ** Numbers of the dashboard *)

(** [Math.round(x)]: the nearest integer, a tie going up. *)
Definition Math_round (x : Q) : Q := inject_Z (Qfloor (x + (1 # 2))).

(** [+x.toFixed(2)] of the number whose exact value is [x]: the nearest
    multiple of 0.01, a tie going away from zero.  (A rational that is a
    tie need not be one as the double the program holds.) *)
Definition toFixed2 (x : Q) : Q :=
  if Qltb x 0 then - (Qfloor (- x * 100 + (1 # 2)) # 100)
  else Qfloor (x * 100 + (1 # 2)) # 100.

Definition Math_max (x y : Q) : Q := if Qltb x y then y else x.
Definition Math_min (x y : Q) : Q := if Qltb y x then y else x.

(** [l.includes(x)] on strings. *)
Definition includes (l : list string) (x : string) : bool :=
  existsb (String.eqb x) l.

(** ** [getUnusedRandomColor] *)

Module Palette.

Definition COLORS : list string :=
  [ "#9900ff"; "#5200ff"; "#ff25f6"; "#2af6de"; "#ffdd28";
    "#3dffab"; "#d8ff3e"; "#d9b2ff" ].

(** [l[Math.floor(random * l.length)]], where [random] is what
    [Math.random()] returned, a number of [[0, 1)]; an index outside the
    list, which such a number never gives, reads [undefined], here the
    empty string. *)
Definition pick (random : Q) (l : list string) : string :=
  nth (Z.to_nat (Qfloor (random * inject_Z (Z.of_nat (length l))))) l "".

Definition getUnusedRandomColor (random : Q) (usedColors : list string)
  : string :=
  let availableColors :=
    List.filter (fun c => negb (includes usedColors c)) COLORS in
  if Nat.eqb (length availableColors) 0 then pick random COLORS
  else pick random availableColors.

(** [usedColors] of [PromptDj.handleAddUserPrompt]. *)
Definition usedColors (s : Dj.PromptDj) : list string :=
  map Dj.color (Dj.map_values (Dj.userPrompts s)).

End Palette.

(** ** The agents of [MultiAgentSystemDashboard] *)

Module Agents.
Import Dj.

Inductive WorkoutPhase := warmup | main | cooldown | idle.
Inductive EnergyLevel := low | moderate | high.

Record MCPProcessedMetrics := {
  heart_rate_bpm : Q;
  hr_zone : Q;
  cadence_spm : Q;
  user_fatigue_score : Q;
  session_minute : Q;
  current_mood : string;
  trend_direction : string
}.

Record MCPContextAnalysis := {
  workout_phase : WorkoutPhase;
  energy_level : EnergyLevel;
  adaptation_needed : bool;
  risk_factors : list string;
  opportunities : list string
}.

Record ContextAgentInput := {
  ca_processed_metrics : MCPProcessedMetrics;
  fatigue_threshold : Q;
  simulation_running : bool
}.

Record MusicalAgentInput := {
  context_analysis : MCPContextAnalysis;
  processed_metrics : MCPProcessedMetrics;
  style_preferences : list string;
  total_cycles : nat
}.

(** [executeContextAgent]: the [context_analysis] of its result. *)
Definition executeContextAgent (input : ContextAgentInput)
  : MCPContextAnalysis :=
  let processed_metrics := ca_processed_metrics input in
  let phase :=
    if simulation_running input then
      if Qltb (session_minute processed_metrics) 2 then warmup
      else if Qltb 15 (session_minute processed_metrics) then cooldown
      else main
    else idle in
  let energy :=
    if Qltb 3 (hr_zone processed_metrics) then high
    else if Qltb 1 (hr_zone processed_metrics) then moderate
    else low in
  let risks :=
    if Qltb (fatigue_threshold input) (user_fatigue_score processed_metrics)
    then ["high_fatigue"] else [] in
  let risks :=
    if Qltb 4 (hr_zone processed_metrics) &&
       match phase with main => true | _ => false end
    then risks ++ ["overexertion_risk"] else risks in
  let opportunities :=
    if String.eqb (current_mood processed_metrics) "energetic" &&
       match energy with moderate => true | _ => false end
    then ["increase_intensity"] else [] in
  {| workout_phase := phase;
     energy_level := energy;
     adaptation_needed :=
       Nat.ltb 0 (length risks) || Nat.ltb 0 (length opportunities);
     risk_factors := risks;
     opportunities := opportunities |}.

(** [executeMusicalAgent]: the [lyria_prompt] of its result.  The sums and
    differences of [density] and [brightness] go through [toFixed(2)]
    before they are returned, which rounds them to the two decimals of
    the exact result. *)
Definition executeMusicalAgent (input : MusicalAgentInput)
  : MCPPromptAndConfig :=
  let ctx := context_analysis input in
  let procMetrics := processed_metrics input in
  let basePrompt := "ambient flow" in
  let targetBpm := (heart_rate_bpm procMetrics * (9 # 10))%Q in
  let density : Q := 4 # 10 in
  let brightness : Q := 5 # 10 in
  let '(basePrompt, targetBpm, density, brightness) :=
    match workout_phase ctx with
    | warmup => ("gentle evolving pads", 100%Q, (3 # 10)%Q, brightness)
    | main =>
        (if String.eqb (current_mood procMetrics) "energetic"
         then "driving electronic beat" else "focused rhythmic pulse",
         if Qltb 3 (hr_zone procMetrics) then 140%Q else 120%Q,
         if Qltb 2 (hr_zone procMetrics) then (6 # 10)%Q else (4 # 10)%Q,
         if Qltb 2 (hr_zone procMetrics) then (7 # 10)%Q else (5 # 10)%Q)
    | cooldown => ("calming soundscape", 90%Q, (2 # 10)%Q, brightness)
    | idle => (basePrompt, targetBpm, density, brightness)
    end in
  let '(basePrompt, density) :=
    if includes (opportunities ctx) "increase_intensity"
    then ((basePrompt ++ ", energetic arps")%string,
          Math_min (8 # 10) (density + (2 # 10)))
    else (basePrompt, density) in
  let '(basePrompt, density, brightness) :=
    if includes (risk_factors ctx) "high_fatigue"
    then ((basePrompt ++ ", minimalist")%string,
          Math_max (1 # 10) (density - (2 # 10)),
          Math_max (2 # 10) (brightness - (2 # 10)))
    else (basePrompt, density, brightness) in
  let newWeightedPrompts :=
    [ {| wp_text :=
           (basePrompt ++ ", " ++ current_mood procMetrics ++ " mood")%string;
         wp_weight := 1 |} ] in
  let newWeightedPrompts :=
    if Nat.ltb 0 (length (style_preferences input)) then
      let style :=
        nth (total_cycles input mod length (style_preferences input))
          (style_preferences input) "" in
      newWeightedPrompts ++ [ {| wp_text := style; wp_weight := 7 # 10 |} ]
    else newWeightedPrompts in
  {| weightedPrompts := newWeightedPrompts;
     mcp_config :=
       Some (<["bpm" := VNumber (Math_round targetBpm)]>
               (<["density" := VNumber (toFixed2 density)]>
                  (<["brightness" := VNumber (toFixed2 brightness)]>
                     (<["temperature" := VNumber 1]>
                        (<["guidance" := VNumber (35 # 10)]>
                           (<["topK" := VNumber 50]>
                              (<["muteDrums" :=
                                   VBoolean
                                     (includes (risk_factors ctx)
                                        "high_fatigue")]> ∅))))))) |}.

End Agents.

(** ** [WeightSlider] *)

Module Slider.

(** A number of the slider: [NaN] can come out of a division. *)
Inductive JSNumber := Finite (q : Q) | NaN.

(** [handleWheel]: the new [value], which is also the detail of the
    ['input'] event. *)
Definition handleWheel (deltaY : Q) (value : JSNumber) : JSNumber :=
  match value with
  | Finite value =>
      let value := (value + deltaY * (- (5 # 1000)))%Q in
      Finite (Math_max 0 (Math_min 2 value))
  | NaN => NaN
  end.

(** The part of the [DOMRect] that is read. *)
Record DOMRect := { top : Q; height : Q }.

(** [updateValueFromPosition]: the new [value] and the detail of the
    ['input'] event when one is dispatched.  With a track of height 0 the
    quotient is 0 / 0. *)
Definition updateValueFromPosition (clientY : Q)
    (containerBounds : option DOMRect) (value : JSNumber)
  : JSNumber * option JSNumber :=
  match containerBounds with
  | None => (value, None)
  | Some containerBounds =>
      let trackHeight := height containerBounds in
      let relativeY := (clientY - top containerBounds)%Q in
      if Qeq_bool trackHeight 0 then (NaN, Some NaN)
      else
        let normalizedValue :=
          (1 - Math_max 0 (Math_min trackHeight relativeY) / trackHeight)%Q in
        let value := (normalizedValue * 2)%Q in
        (Finite value, Some (Finite value))
  end.

End Slider.

(** ** Sample states and inputs *)

Module Samples.
Import Dj.

Definition envAt (ms : Z) (t : Q) : Env :=
  {| dateNow := ms;
     currentTime := t;
     connect := Resolved;
     setWeightedPrompts := Resolved;
     setMusicGenerationConfig := Resolved;
     mcp := None |}.

(** A session has been opened and the service has confirmed the setup. *)
Definition connected : PromptDj :=
  set_connectionError false (set_session true (initial [] 0)).

Definition techno : WeightedPrompt :=
  {| wp_text := "Minimal Techno"; wp_weight := 1 |}.
Definition ambient : WeightedPrompt :=
  {| wp_text := "ambient startup"; wp_weight := 1 |}.

Definition playingAt (cursor : Q) : PromptDj :=
  set_nextStartTime cursor (set_playbackState playing connected).

(** A decoder that rejects one payload and turns any other into 0.2 s of
    audio. *)
Definition decodeAudioData (d : string) : option AudioBuffer :=
  if String.eqb d "%%%" then None
  else Some {| frames := 9600; sampleRate := 48000 |}.

Definition audioMessage (d : string) : LiveMusicServerMessage :=
  {| setupComplete := false;
     filteredPrompt := None;
     audioChunks := Some [ {| data := d |} ] |}.

Definition NumberOfString (s : string) : Value :=
  if String.eqb s "0.8" then VNumber (4 # 5) else VNaN.

Definition buffer02 : AudioBuffer := {| frames := 9600; sampleRate := 48000 |}.

(** Two user prompts, one at weight 0 and one the service has filtered,
    and nothing from the agent. *)
Definition muted : PromptDj :=
  set_filteredPrompts {[ "Dubstep" ]}
    (set_userPrompts
       [ ("userprompt-0",
          {| promptId := "userprompt-0"; color := "#9900ff"; text := "Funk";
             weight := 0; isTextEditable := Some true |});
         ("userprompt-1",
          {| promptId := "userprompt-1"; color := "#5200ff"; text := "Dubstep";
             weight := 1; isTextEditable := Some true |}) ]
       connected).

Definition funk : Prompt :=
  {| promptId := "userprompt-0"; color := "#9900ff"; text := "Funk";
     weight := 1; isTextEditable := Some true |}.

(** A usable session, one user prompt at weight 1, the settings rendered,
    playing. *)
Definition jamming : PromptDj :=
  set_settingsController (Some Settings.initial)
    (set_nextUserPromptId 1
       (set_userPrompts [("userprompt-0", funk)] (playingAt 7))).

End Samples.

(** * Properties *)

Import Dj.

(** ** Numbers *)

Lemma Qltb_lt x y : Qltb x y = true <-> (x < y)%Q.
Proof.
  unfold Qltb. rewrite negb_true_iff, <- not_true_iff_false, Qle_bool_iff.
  split; intro H; [ apply Qnot_le_lt | apply Qlt_not_le ]; exact H.
Qed.

Lemma Qltb_ge x y : Qltb x y = false <-> (y <= x)%Q.
Proof. unfold Qltb. rewrite negb_false_iff. apply Qle_bool_iff. Qed.

Lemma duration_pos b : (0 < duration b)%Q.
Proof. unfold duration, Qlt. simpl. lia. Qed.

Lemma bufferTime_pos : (0 < bufferTime)%Q.
Proof. reflexivity. Qed.

(** ** The throttle lets the leading call through and drops the rest *)

Section ThrottleFacts.
Context {St Eff A : Type}.
Variable getLastCall : St -> Z.
Variable setLastCall : Z -> St -> St.
Variable func : A -> St -> St * list Eff.
Variable delay : Z.
Hypothesis get_set : forall v s, getLastCall (setLastCall v s) = v.

Local Abbreviation throttle := (Throttle.throttle getLastCall setLastCall func delay).
Local Abbreviation calls := (Throttle.calls getLastCall setLastCall func delay).

Lemma throttle_dropped now args s :
  (now - getLastCall s < delay)%Z -> throttle now args s = (s, []).
Proof.
  intros H. unfold Throttle.throttle.
  destruct (Z.leb_spec delay (now - getLastCall s)); [lia | reflexivity].
Qed.

Lemma throttle_fired now args s :
  (delay <= now - getLastCall s)%Z ->
  throttle now args s =
    (setLastCall now (fst (func args s)), snd (func args s)).
Proof.
  intros H. unfold Throttle.throttle.
  destruct (Z.leb_spec delay (now - getLastCall s)); [| lia].
  destruct (func args s); reflexivity.
Qed.

(** Calls inside the window opened at [getLastCall s] do nothing at all. *)
Lemma calls_dropped l : forall s,
  Throttle.within_window delay (getLastCall s) l -> calls l s = (s, []).
Proof.
  induction l as [| [now args] l IH]; intros s Hw; [reflexivity |].
  inversion Hw as [| c l' Hc Hl]; subst; simpl in Hc.
  cbn [Throttle.calls]. rewrite throttle_dropped by lia.
  rewrite IH by exact Hl. reflexivity.
Qed.

(** When the first call of a burst is let through, it is the only one that
    runs [func], and it runs it on its own arguments. *)
Lemma calls_leading t1 a1 rest s :
  (delay <= t1 - getLastCall s)%Z ->
  Throttle.within_window delay t1 rest ->
  calls ((t1, a1) :: rest) s =
    (setLastCall t1 (fst (func a1 s)), snd (func a1 s)).
Proof.
  intros Hfire Hw. cbn [Throttle.calls]. rewrite throttle_fired by exact Hfire.
  rewrite calls_dropped by (rewrite get_set; exact Hw).
  rewrite app_nil_r. reflexivity.
Qed.
End ThrottleFacts.

(** ** The two throttled channels *)

Lemma in_window_within {A} t0 (l : list (Env * A)) :
  in_window t0 l ->
  Throttle.within_window 200 t0 (map (fun c => (dateNow (fst c), c)) l).
Proof.
  unfold in_window, Throttle.within_window. rewrite Forall_map.
  intros H. eapply Forall_impl; [exact H |]. intros c Hc. exact Hc.
Qed.

Lemma setSessionPrompts_calls_throttle l : forall s,
  setSessionPrompts_calls l s =
    Throttle.calls setSessionPrompts_lastCall set_setSessionPrompts_lastCall
      setSessionPrompts_func 200 (map (fun c => (dateNow (fst c), c)) l) s.
Proof.
  induction l as [| [env prompts] l IH]; intros s; [reflexivity |].
  cbn [setSessionPrompts_calls map Throttle.calls fst]. unfold andThen.
  unfold setSessionPrompts at 1.
  destruct (Throttle.throttle _ _ _ _ _ _ s) as [s1 e1].
  rewrite IH. reflexivity.
Qed.

Lemma updateLyriaConfig_calls_throttle l : forall s,
  updateLyriaConfig_calls l s =
    Throttle.calls updateLyriaConfig_lastCall set_updateLyriaConfig_lastCall
      updateLyriaConfig_func 200 (map (fun c => (dateNow (fst c), c)) l) s.
Proof.
  induction l as [| [env config] l IH]; intros s; [reflexivity |].
  cbn [updateLyriaConfig_calls map Throttle.calls fst]. unfold andThen.
  unfold updateLyriaConfig at 1.
  destruct (Throttle.throttle _ _ _ _ _ _ s) as [s1 e1].
  rewrite IH. reflexivity.
Qed.

(** A burst on the prompt channel runs the wrapped function once, on the
    arguments of its first call. *)
Lemma setSessionPrompts_burst env1 prompts1 rest s :
  (200 <= dateNow env1 - setSessionPrompts_lastCall s)%Z ->
  in_window (dateNow env1) rest ->
  setSessionPrompts_calls ((env1, prompts1) :: rest) s =
    (set_setSessionPrompts_lastCall (dateNow env1)
       (fst (setSessionPrompts_func (env1, prompts1) s)),
     snd (setSessionPrompts_func (env1, prompts1) s)).
Proof.
  intros Hfire Hw. rewrite setSessionPrompts_calls_throttle. cbn [map fst].
  apply calls_leading; [reflexivity | exact Hfire |].
  apply in_window_within, Hw.
Qed.

Lemma updateLyriaConfig_burst env1 config1 rest s :
  (200 <= dateNow env1 - updateLyriaConfig_lastCall s)%Z ->
  in_window (dateNow env1) rest ->
  updateLyriaConfig_calls ((env1, config1) :: rest) s =
    (set_updateLyriaConfig_lastCall (dateNow env1)
       (fst (updateLyriaConfig_func (env1, config1) s)),
     snd (updateLyriaConfig_func (env1, config1) s)).
Proof.
  intros Hfire Hw. rewrite updateLyriaConfig_calls_throttle. cbn [map fst].
  apply calls_leading; [reflexivity | exact Hfire |].
  apply in_window_within, Hw.
Qed.

(** What the wrapped functions send when the session is usable. *)
Lemma setSessionPrompts_func_sent env prompts s :
  session s = true -> connectionError s = false ->
  sentPrompts (snd (setSessionPrompts_func (env, prompts) s)) =
    [allPrompts prompts s].
Proof.
  intros Hs Hc. unfold setSessionPrompts_func. rewrite Hs, Hc. cbn [negb orb].
  unfold andThen, emit, skip, dispatchToast, internalPauseAudio.
  destruct (setWeightedPrompts env); cbn; [reflexivity |].
  rewrite Hs, Hc. reflexivity.
Qed.

Lemma updateLyriaConfig_func_sent env config s :
  session s = true -> connectionError s = false ->
  sentConfigs (snd (updateLyriaConfig_func (env, config) s)) = [config].
Proof.
  intros Hs Hc. unfold updateLyriaConfig_func. rewrite Hs, Hc. cbn [negb orb].
  unfold andThen, emit, skip, dispatchToast.
  destruct (setMusicGenerationConfig env); reflexivity.
Qed.

(** C3, as the code has it.  On either throttled channel, a burst of calls
    that all read the clock within 200 ms of the first one, the first one
    being let through, sends to a usable session exactly once, and what it
    sends is computed from the arguments of the FIRST call; every later
    call of the burst is dropped, its arguments with it. *)
Theorem throttle_sends_first_of_burst s :
  session s = true -> connectionError s = false ->
  (forall env1 prompts1 rest,
      (200 <= dateNow env1 - setSessionPrompts_lastCall s)%Z ->
      in_window (dateNow env1) rest ->
      sentPrompts (snd (setSessionPrompts_calls ((env1, prompts1) :: rest) s))
      = [allPrompts prompts1 s]) /\
  (forall env1 config1 rest,
      (200 <= dateNow env1 - updateLyriaConfig_lastCall s)%Z ->
      in_window (dateNow env1) rest ->
      sentConfigs (snd (updateLyriaConfig_calls ((env1, config1) :: rest) s))
      = [config1]).
Proof.
  intros Hs Hc. split.
  - intros env1 prompts1 rest Hfire Hw.
    rewrite setSessionPrompts_burst by assumption. cbn [snd].
    apply setSessionPrompts_func_sent; assumption.
  - intros env1 config1 rest Hfire Hw.
    rewrite updateLyriaConfig_burst by assumption. cbn [snd].
    apply updateLyriaConfig_func_sent; assumption.
Qed.

Lemma throttle_sends_first_of_burst_witness :
  sentPrompts
    (snd (setSessionPrompts_calls
            [ (Samples.envAt 1000 0, [Samples.techno]);
              (Samples.envAt 1100 0, [Samples.ambient]) ] Samples.connected))
  = [allPrompts [Samples.techno] Samples.connected].
Proof.
  apply (throttle_sends_first_of_burst Samples.connected);
    [ reflexivity | reflexivity | simpl; lia | ].
  repeat constructor; simpl; lia.
Defined.

(** C3, as the spec states it, fails: of two calls 100 ms apart the service
    receives the prompts of the first, and never those of the last. *)
Lemma throttle_last_of_burst_is_lost :
  let burst := [ (Samples.envAt 1000 0, [Samples.techno]);
                 (Samples.envAt 1100 0, [Samples.ambient]) ] in
  in_window 1000 burst /\
  sentPrompts (snd (setSessionPrompts_calls burst Samples.connected))
    = [[Samples.techno]] /\
  sentPrompts (snd (setSessionPrompts_calls burst Samples.connected))
    <> [allPrompts [Samples.ambient] Samples.connected].
Proof.
  split; [| split].
  - repeat constructor; simpl; lia.
  - vm_compute. reflexivity.
  - vm_compute. intros H. discriminate H.
Qed.

(** ** Composing invariants *)

Section Keeps.
Variable I : PromptDj -> Prop.
Variable E : Effect -> Prop.

Lemma keeps_skip : keeps I E skip.
Proof. intros s H. split; [exact H | constructor]. Qed.

Lemma keeps_emit e : E e -> keeps I E (emit e).
Proof. intros He s H. split; [exact H | repeat constructor; exact He]. Qed.

Lemma keeps_modify f : (forall s, I s -> I (f s)) -> keeps I E (modify f).
Proof. intros Hf s H. split; [apply Hf, H | constructor]. Qed.

Lemma keeps_andThen a b : keeps I E a -> keeps I E b -> keeps I E (a >>> b).
Proof.
  intros Ha Hb s H. unfold andThen.
  destruct (Ha s H) as [H1 E1]. destruct (a s) as [s1 e1]. cbn [fst snd] in *.
  destruct (Hb s1 H1) as [H2 E2]. destruct (b s1) as [s2 e2].
  cbn [fst snd] in *. split; [exact H2 |]. apply Forall_app; split; assumption.
Qed.

(** A handler that first looks at the fields. *)
Lemma keeps_fun (a : PromptDj -> Act) :
  (forall s0, I s0 -> keeps I E (a s0)) -> keeps I E (fun s => a s s).
Proof. intros Ha s H. exact (Ha s H s H). Qed.

Lemma keeps_throttle {A} get set (func : A -> Act) delay now args :
  (forall v s, I s -> I (set v s)) ->
  keeps I E (func args) ->
  keeps I E (Throttle.throttle get set func delay now args).
Proof.
  intros Hset Hf s H. unfold Throttle.throttle.
  destruct (delay <=? now - get s)%Z; [| split; [exact H | constructor]].
  destruct (Hf s H) as [H1 E1]. destruct (func args s) as [s1 e1].
  cbn [fst snd] in *. split; [apply Hset, H1 | exact E1].
Qed.
End Keeps.

Lemma keeps_run decodeAudioData NumberOfString I E l :
  (forall env ev, In (env, ev) l ->
                  keeps I E (handle decodeAudioData NumberOfString env ev)) ->
  keeps I E (run decodeAudioData NumberOfString l).
Proof.
  induction l as [| [env ev] l IH]; intros H; cbn [run].
  - apply keeps_skip.
  - apply keeps_andThen.
    + apply H. left. reflexivity.
    + apply IH. intros env' ev' Hin. apply H. right. exact Hin.
Qed.

(** ** Invariants that every handler keeps *)

(** Goals of handlers that first look at the fields are closed, after the
    case analysis, by the lemma of the branch taken. *)
Ltac keeps_branch s H :=
  match goal with
  | |- ?I (fst (?a s)) /\ Forall ?E (snd (?a s)) =>
      let K := fresh "K" in
      assert (K : keeps I E a); [| exact (K s H)]
  end.

Section HandlerInvariant.
Variable decodeAudioData : string -> option AudioBuffer.
Variable NumberOfString : string -> Value.
(** [I] is the invariant, [P] what holds of every prompt set sent, [C] what
    is asked of the prompt lists that come from the agent. *)
Variable I : PromptDj -> Prop.
Variable P C : list WeightedPrompt -> Prop.

Hypothesis frame_userPrompts : forall v s, I s -> I (set_userPrompts v s).
Hypothesis frame_nextUserPromptId :
  forall v s, I s -> I (set_nextUserPromptId v s).
Hypothesis frame_settingsController :
  forall v s, I s -> I (set_settingsController v s).
Hypothesis frame_setSessionPrompts_lastCall :
  forall v s, I s -> I (set_setSessionPrompts_lastCall v s).
Hypothesis frame_updateLyriaConfig_lastCall :
  forall v s, I s -> I (set_updateLyriaConfig_lastCall v s).
Hypothesis frame_connectionError :
  forall v s, I s -> I (set_connectionError v s).
Hypothesis C_nil : C [].
Hypothesis C_current : forall s, I s -> C (currentLyriaPrompts s).
Hypothesis set_current :
  forall v s, C v -> I s -> I (set_currentLyriaPrompts v s).
Hypothesis P_allPrompts :
  forall prompts s, C prompts -> I s -> P (allPrompts prompts s).
Hypothesis I_internalPauseAudio :
  forall env, keeps I (sends P) (internalPauseAudio env).
Hypothesis I_internalLoadAudio :
  forall env, keeps I (sends P) (internalLoadAudio env).
Hypothesis I_internalStopAudio : keeps I (sends P) internalStopAudio.
Hypothesis I_connectToSession :
  forall env, keeps I (sends P) (connectToSession env).
Hypothesis I_onmessage :
  forall env e, keeps I (sends P) (onmessage decodeAudioData env e).
Hypothesis I_loadingToPlaying :
  forall env, keeps I (sends P) (timeout env LoadingToPlaying).

Ltac frame_step :=
  lazymatch goal with
  | |- keeps _ _ (_ >>> _) => apply keeps_andThen
  | |- keeps _ _ skip => apply keeps_skip
  | |- keeps _ _ (emit _) => apply keeps_emit; exact Logic.I
  | |- keeps _ _ (dispatchToast _) => apply keeps_emit; exact Logic.I
  | |- keeps _ _ (internalPauseAudio _) => apply I_internalPauseAudio
  | |- keeps _ _ (internalLoadAudio _) => apply I_internalLoadAudio
  | |- keeps _ _ internalStopAudio => apply I_internalStopAudio
  | |- keeps _ _ (connectToSession _) => apply I_connectToSession
  | |- keeps _ _ (modify _) =>
      apply keeps_modify; first
        [ apply frame_userPrompts | apply frame_nextUserPromptId
        | apply frame_settingsController | apply frame_connectionError ]
  end.
Ltac frame := repeat frame_step.

Lemma I_storeUserPrompts : keeps I (sends P) storeUserPrompts.
Proof.
  intros s H. unfold storeUserPrompts. keeps_branch s H. frame.
Qed.

Lemma I_setSessionPrompts_func env prompts :
  C prompts -> keeps I (sends P) (setSessionPrompts_func (env, prompts)).
Proof.
  intros HC s H. unfold setSessionPrompts_func.
  destruct (negb (session s) || connectionError s); keeps_branch s H; [frame |].
  apply keeps_andThen.
  - apply keeps_emit. cbn. apply P_allPrompts; assumption.
  - destruct (setWeightedPrompts env); frame.
Qed.

Lemma I_setSessionPrompts env prompts :
  C prompts -> keeps I (sends P) (setSessionPrompts env prompts).
Proof.
  intros HC. apply keeps_throttle; [apply frame_setSessionPrompts_lastCall |].
  apply I_setSessionPrompts_func, HC.
Qed.

Lemma I_resendPrompts env :
  keeps I (sends P) (fun s => setSessionPrompts env (currentLyriaPrompts s) s).
Proof. intros s H. exact (I_setSessionPrompts env _ (C_current s H) s H). Qed.

Lemma I_updateLyriaConfig env config :
  keeps I (sends P) (updateLyriaConfig env config).
Proof.
  apply keeps_throttle; [apply frame_updateLyriaConfig_lastCall |].
  intros s H. unfold updateLyriaConfig_func.
  destruct (negb (session s) || connectionError s); keeps_branch s H; [frame |].
  destruct (setMusicGenerationConfig env); frame.
Qed.

Lemma I_handleSettingsChanged env detail :
  keeps I (sends P) (handleSettingsChanged env detail).
Proof.
  unfold handleSettingsChanged. apply keeps_andThen;
    [apply I_updateLyriaConfig | frame].
Qed.

Lemma I_updateLyriaPrompts env promptAndConfig :
  C (weightedPrompts promptAndConfig) ->
  keeps I (sends P) (updateLyriaPrompts env promptAndConfig).
Proof.
  intros HC. unfold updateLyriaPrompts. apply keeps_andThen; [| apply keeps_andThen].
  - apply keeps_modify. intros s H. apply set_current; assumption.
  - apply I_setSessionPrompts, HC.
  - intros s H.
    destruct (settingsController s), (mcp_config promptAndConfig);
      keeps_branch s H; frame.
    apply I_updateLyriaConfig.
Qed.

Lemma I_handleUserPromptChanged env detail :
  keeps I (sends P) (handleUserPromptChanged env detail).
Proof.
  intros s H. unfold handleUserPromptChanged.
  destruct (map_get (promptId detail) (userPrompts s)); keeps_branch s H;
    frame; [apply I_resendPrompts | apply I_storeUserPrompts].
Qed.

Lemma I_handleAddUserPrompt env r newColor :
  keeps I (sends P) (handleAddUserPrompt env r newColor).
Proof.
  intros s H. unfold handleAddUserPrompt. keeps_branch s H. frame.
  - apply keeps_modify. intros s' H'. apply frame_userPrompts, H'.
  - apply I_resendPrompts.
  - apply I_storeUserPrompts.
Qed.

Lemma I_handleUserPromptRemoved env promptIdToRemove :
  keeps I (sends P) (handleUserPromptRemoved env promptIdToRemove).
Proof.
  intros s H. unfold handleUserPromptRemoved.
  destruct (map_get promptIdToRemove (userPrompts s)); keeps_branch s H;
    frame; [apply I_resendPrompts | apply I_storeUserPrompts].
Qed.

Lemma I_handlePlayPause env :
  C (agentPrompts env PlayPause) -> keeps I (sends P) (handlePlayPause env).
Proof.
  cbn [agentPrompts]. intros HC s H. unfold handlePlayPause.
  destruct (playbackState s); try destruct (connectionError s);
    keeps_branch s H; frame.
  all: intros s1 H1; destruct (negb (connectionError s1));
    keeps_branch s1 H1; frame.
  all: destruct (mcp env);
    [apply I_updateLyriaPrompts, HC | apply I_setSessionPrompts, C_nil].
Qed.

Lemma I_playAudio env :
  C (agentPrompts env PlayAudio) -> keeps I (sends P) (playAudio env).
Proof.
  intros HC s H. unfold playAudio.
  destruct (playbackState s); keeps_branch s H; frame;
    apply I_handlePlayPause, HC.
Qed.

Lemma I_pauseAudio env : keeps I (sends P) (pauseAudio env).
Proof.
  intros s H. unfold pauseAudio.
  destruct (playbackState s); keeps_branch s H; frame.
Qed.

Lemma I_handleReset_rest env : keeps I (sends P) (handleReset_rest env).
Proof.
  unfold handleReset_rest. frame.
  intros s H. destruct (negb (session s)); keeps_branch s H; frame.
  intros s1 H1. destruct (settingsController s1) as [sc |];
    [destruct (Settings.resetToDefaults sc) as [sc' detail] |];
    keeps_branch s1 H1; frame.
  apply I_handleSettingsChanged.
Qed.

Lemma I_handleReset env : keeps I (sends P) (handleReset env).
Proof.
  intros s H. unfold handleReset.
  destruct (connectionError s); keeps_branch s H;
    [| apply I_handleReset_rest].
  frame. intros s1 H1.
  destruct (connectionError s1); keeps_branch s1 H1;
    [frame | apply I_handleReset_rest].
Qed.

Lemma I_firstUpdated env :
  C (agentPrompts env FirstUpdated) -> keeps I (sends P) (firstUpdated env).
Proof.
  cbn [agentPrompts]. intros HC. unfold firstUpdated. frame.
  destruct (mcp env); [apply I_updateLyriaPrompts, HC | frame].
Qed.

Lemma I_firstRender : keeps I (sends P) firstRender.
Proof.
  intros s H. unfold firstRender.
  destruct (settingsController s); keeps_branch s H; frame.
Qed.

Lemma I_settingsInput env target :
  keeps I (sends P) (settingsInput NumberOfString env target).
Proof.
  intros s H. unfold settingsInput.
  destruct (settingsController s) as [sc |];
    [destruct (Settings.handleInputChange NumberOfString target sc) as [sc' detail] |];
    keeps_branch s H; frame.
  apply I_handleSettingsChanged.
Qed.

Lemma I_timeout env t : keeps I (sends P) (timeout env t).
Proof.
  destruct t; [apply I_loadingToPlaying |].
  intros s H. unfold timeout.
  destruct (negb (connectionError s)); keeps_branch s H; frame.
Qed.

(** Every handler keeps [I] and sends only prompt sets that satisfy [P],
    as long as the agent's prompt lists satisfy [C]. *)
Lemma I_handle env ev :
  C (agentPrompts env ev) ->
  keeps I (sends P) (handle decodeAudioData NumberOfString env ev).
Proof.
  destruct ev; cbn [handle]; intros HC.
  - apply I_firstRender.
  - apply I_firstUpdated, HC.
  - apply I_onmessage.
  - unfold onerror. frame.
  - unfold onclose. destruct wasClean; cbn [negb]; frame.
  - apply I_timeout.
  - apply I_updateLyriaPrompts, HC.
  - apply I_playAudio, HC.
  - apply I_pauseAudio.
  - apply I_handlePlayPause, HC.
  - apply I_handleReset.
  - apply I_handleUserPromptChanged.
  - apply I_handleAddUserPrompt.
  - apply I_handleUserPromptRemoved.
  - apply I_settingsInput.
Qed.

Lemma I_run l :
  Forall (fun c => C (agentPrompts (fst c) (snd c))) l ->
  keeps I (sends P) (run decodeAudioData NumberOfString l).
Proof.
  intros HC. apply keeps_run. intros env ev Hin.
  apply I_handle. rewrite List.Forall_forall in HC. exact (HC _ Hin).
Qed.
End HandlerInvariant.

(** ** No session, no playback *)

Lemma Forall_sends_True (l : list Effect) : Forall (sends (fun _ => True)) l.
Proof. apply List.Forall_forall. intros [] _; exact Logic.I. Qed.

Ltac idle_direct :=
  let s := fresh "s" in
  let H := fresh "H" in
  intros s H; split; [| apply Forall_sends_True];
  unfold idle_without_session in *;
  destruct s as [? ? ses nst st ? ce ? ? ? ?];
  destruct ses, ce, st; cbn in *;
  repeat match goal with
         | |- context [if ?c then _ else _] => destruct c; cbn in *
         end;
  try match goal with
      | H : ?x = ?x -> _ |- _ => specialize (H eq_refl)
      end;
  intuition congruence.

Lemma idle_internalPauseAudio env :
  keeps idle_without_session (sends (fun _ => True)) (internalPauseAudio env).
Proof. unfold internalPauseAudio, andThen, emit, modify, skip. idle_direct. Qed.

Lemma idle_internalLoadAudio env :
  keeps idle_without_session (sends (fun _ => True)) (internalLoadAudio env).
Proof.
  unfold internalLoadAudio, andThen, emit, modify, skip, dispatchToast, emit.
  idle_direct.
Qed.

Lemma idle_internalStopAudio :
  keeps idle_without_session (sends (fun _ => True)) internalStopAudio.
Proof. unfold internalStopAudio, andThen, emit, modify, skip. idle_direct. Qed.

Lemma idle_connectToSession env :
  keeps idle_without_session (sends (fun _ => True)) (connectToSession env).
Proof.
  unfold connectToSession, andThen, emit, modify, skip, dispatchToast, emit.
  destruct (connect env); idle_direct.
Qed.

(** A chunk is only scheduled while loading or playing, which needs a
    session. *)
Lemma idle_onmessage decodeAudioData env e :
  keeps idle_without_session (sends (fun _ => True))
    (onmessage decodeAudioData env e).
Proof.
  unfold onmessage, scheduleChunk, andThen, emit, modify, skip, dispatchToast,
    emit.
  destruct (setupComplete e), (filteredPrompt e),
    (audioChunks e) as [[| chunk chunks] |];
    try destruct (decodeAudioData (data chunk)); idle_direct.
Qed.

Lemma idle_loadingToPlaying env :
  keeps idle_without_session (sends (fun _ => True))
    (timeout env LoadingToPlaying).
Proof. unfold timeout, modify, skip. idle_direct. Qed.

Lemma idle_handle decodeAudioData NumberOfString env ev :
  keeps idle_without_session (sends (fun _ => True))
    (handle decodeAudioData NumberOfString env ev).
Proof.
  apply I_handle with (C := fun _ => True);
    try (intros; exact Logic.I); try (intros ? ? H; exact H).
  - intros ? ? _ H; exact H.
  - apply idle_internalPauseAudio.
  - apply idle_internalLoadAudio.
  - apply idle_internalStopAudio.
  - apply idle_connectToSession.
  - apply idle_onmessage.
  - apply idle_loadingToPlaying.
Qed.

Lemma reachable_idle decodeAudioData NumberOfString s :
  reachable decodeAudioData NumberOfString s -> idle_without_session s.
Proof.
  induction 1 as [stored nextId | s env ev _ IH].
  - intros _. split; reflexivity.
  - apply idle_handle, IH.
Qed.

Lemma reachable_run decodeAudioData NumberOfString l : forall s,
  reachable decodeAudioData NumberOfString s ->
  reachable decodeAudioData NumberOfString
    (fst (run decodeAudioData NumberOfString l s)).
Proof.
  induction l as [| [env ev] l IH]; intros s H; [exact H |].
  cbn [run]. unfold andThen.
  pose proof (reachable_step _ _ s env ev H) as H1.
  destruct (handle decodeAudioData NumberOfString env ev s) as [s1 e1].
  specialize (IH s1 H1).
  destruct (run decodeAudioData NumberOfString l s1) as [s2 e2]. exact IH.
Qed.

(** ** The message callback *)

Section OnMessage.
Variable decodeAudioData : string -> option AudioBuffer.

(** The control part of a message leaves the transport alone. *)
Lemma onmessage_withoutAudio env e s :
  let r := onmessage decodeAudioData env (withoutAudio e) s in
  playbackState (fst r) = playbackState s /\
  nextStartTime (fst r) = nextStartTime s /\
  scheduled (snd r) = [] /\
  thrown (snd r) = [] /\
  toasts (snd r) =
    match filteredPrompt e with
    | Some fp => [("Filtered: " ++ substring 0 50 (filteredReason fp))%string]
    | None => []
    end.
Proof.
  destruct e as [sc fp ac]. unfold onmessage, withoutAudio.
  destruct sc, fp; cbn; repeat split; reflexivity.
Qed.

Lemma onmessage_gated env e s :
  playbackState s = paused \/ playbackState s = stopped ->
  onmessage decodeAudioData env e s =
    onmessage decodeAudioData env (withoutAudio e) s.
Proof.
  destruct e as [sc fp ac]. unfold onmessage, withoutAudio.
  intros [H | H]; destruct sc, fp, ac; cbn; rewrite ?H; reflexivity.
Qed.

Lemma onmessage_decoded env e chunk chunks audioBuffer s :
  playbackState s = playing \/ playbackState s = loading ->
  audioChunks e = Some (chunk :: chunks) ->
  decodeAudioData (data chunk) = Some audioBuffer ->
  onmessage decodeAudioData env e s =
    (onmessage decodeAudioData env (withoutAudio e) >>>
     scheduleChunk env audioBuffer) s.
Proof.
  destruct e as [sc fp ac]. cbn [audioChunks]. intros Hst -> Hd.
  unfold onmessage, withoutAudio. cbn [setupComplete filteredPrompt audioChunks].
  destruct sc, fp; cbn -[scheduleChunk]; rewrite Hd;
    destruct Hst as [-> | ->]; destruct (scheduleChunk _ _ _);
    rewrite ?app_nil_r; reflexivity.
Qed.

Lemma onmessage_undecodable env e chunk chunks s :
  playbackState s = playing \/ playbackState s = loading ->
  audioChunks e = Some (chunk :: chunks) ->
  decodeAudioData (data chunk) = None ->
  onmessage decodeAudioData env e s =
    (onmessage decodeAudioData env (withoutAudio e) >>>
     emit (Throws "decodeAudioData failed")) s.
Proof.
  destruct e as [sc fp ac]. cbn [audioChunks]. intros Hst -> Hd.
  unfold onmessage, withoutAudio. cbn [setupComplete filteredPrompt audioChunks].
  destruct sc, fp; cbn; rewrite Hd;
    destruct Hst as [-> | ->]; reflexivity.
Qed.

Lemma scheduleChunk_underrun env audioBuffer s :
  ~ (nextStartTime s == 0)%Q ->
  (nextStartTime s < currentTime env)%Q ->
  scheduleChunk env audioBuffer s =
    (set_nextStartTime 0 (set_playbackState loading s),
     [ConsoleLog "Lyria audio under-run"]).
Proof.
  intros Hz Hlt. unfold scheduleChunk, andThen.
  destruct (Qeq_bool (nextStartTime s) 0) eqn:E;
    [apply Qeq_bool_iff in E; contradiction |].
  cbn. apply Qltb_lt in Hlt. rewrite Hlt. reflexivity.
Qed.

Lemma scheduleChunk_on_time env audioBuffer s :
  (currentTime env <= primed (currentTime env) s)%Q ->
  scheduleChunk env audioBuffer s =
    (set_nextStartTime (primed (currentTime env) s + duration audioBuffer) s,
     (if Qeq_bool (nextStartTime s) 0
      then [SetTimeout LoadingToPlaying (bufferTime * 1000)] else []) ++
     [SourceStart audioBuffer (primed (currentTime env) s)]).
Proof.
  unfold primed, scheduleChunk, andThen. intros Hle.
  destruct (Qeq_bool (nextStartTime s) 0) eqn:E; cbn -[Qplus Qmult bufferTime];
    apply Qltb_ge in Hle; rewrite Hle; reflexivity.
Qed.

Lemma primed_at_sentinel now s :
  nextStartTime s = 0%Q -> primed now s = (now + bufferTime)%Q.
Proof. intros H. unfold primed. rewrite H. reflexivity. Qed.
End OnMessage.

(** ** Reading traces of composed handlers *)

Lemma scheduled_app t1 t2 : scheduled (t1 ++ t2) = scheduled t1 ++ scheduled t2.
Proof.
  induction t1 as [| e t1 IH]; [reflexivity |].
  destruct e; cbn; rewrite ?IH; reflexivity.
Qed.

Lemma toasts_app t1 t2 : toasts (t1 ++ t2) = toasts t1 ++ toasts t2.
Proof.
  induction t1 as [| e t1 IH]; [reflexivity |].
  destruct e; cbn; rewrite ?IH; reflexivity.
Qed.

Lemma thrown_app t1 t2 : thrown (t1 ++ t2) = thrown t1 ++ thrown t2.
Proof.
  induction t1 as [| e t1 IH]; [reflexivity |].
  destruct e; cbn; rewrite ?IH; reflexivity.
Qed.

Lemma sentPrompts_app t1 t2 :
  sentPrompts (t1 ++ t2) = sentPrompts t1 ++ sentPrompts t2.
Proof.
  induction t1 as [| e t1 IH]; [reflexivity |].
  destruct e; cbn; rewrite ?IH; reflexivity.
Qed.

Lemma andThen_fst (a b : Act) s : fst ((a >>> b) s) = fst (b (fst (a s))).
Proof.
  unfold andThen. destruct (a s) as [s1 e1]. cbn [fst].
  destruct (b s1); reflexivity.
Qed.

Lemma andThen_snd (a b : Act) s :
  snd ((a >>> b) s) = snd (a s) ++ snd (b (fst (a s))).
Proof.
  unfold andThen. destruct (a s) as [s1 e1]. cbn [fst snd].
  destruct (b s1); reflexivity.
Qed.

(** ** A chunk that arrives on time *)

Section Stream.
Variable decodeAudioData : string -> option AudioBuffer.

(** One chunk that is on time: it is started at the cursor, and the cursor
    moves on by its duration. *)
Lemma onmessage_on_time env e chunk chunks audioBuffer s :
  playbackState s = playing \/ playbackState s = loading ->
  audioChunks e = Some (chunk :: chunks) ->
  decodeAudioData (data chunk) = Some audioBuffer ->
  (currentTime env <= primed (currentTime env) s)%Q ->
  let r := onmessage decodeAudioData env e s in
  scheduled (snd r) = [(audioBuffer, primed (currentTime env) s)] /\
  nextStartTime (fst r) =
    (primed (currentTime env) s + duration audioBuffer)%Q /\
  playbackState (fst r) = playbackState s.
Proof.
  intros Hst Hc Hd Hle r. subst r.
  rewrite (onmessage_decoded _ env e chunk chunks audioBuffer s Hst Hc Hd).
  rewrite andThen_fst, andThen_snd.
  destruct (onmessage_withoutAudio decodeAudioData env e s)
    as (Hp & Hn & Hsch & _ & _).
  set (s0 := fst (onmessage decodeAudioData env (withoutAudio e) s)) in *.
  assert (Hprimed : primed (currentTime env) s0 = primed (currentTime env) s)
    by (unfold primed; rewrite Hn; reflexivity).
  rewrite scheduleChunk_on_time by (rewrite Hprimed; exact Hle).
  cbn [fst snd]. rewrite scheduled_app, Hsch, scheduled_app, Hprimed.
  repeat split.
  - destruct (Qeq_bool (nextStartTime s0) 0); reflexivity.
  - exact Hp.
Qed.

End Stream.

(** ** The claims about the message callback *)

Section Playback.
Variable decodeAudioData : string -> option AudioBuffer.

(** C1.  A chunk handled while the element is neither paused nor stopped,
    if the cursor computed before is strictly less than the output clock,
    is not scheduled, the cursor is reset to 0 and the state becomes
    [loading]; the chunk handled next is started at the clock plus
    [bufferTime], the cursor being primed again (and the timer of the
    lookahead set again). *)
Theorem underrun_recovery env e chunk chunks audioBuffer s :
  playbackState s <> paused -> playbackState s <> stopped ->
  audioChunks e = Some (chunk :: chunks) ->
  decodeAudioData (data chunk) = Some audioBuffer ->
  ~ (nextStartTime s == 0)%Q ->
  (nextStartTime s < currentTime env)%Q ->
  let r := onmessage decodeAudioData env e s in
  scheduled (snd r) = [] /\
  nextStartTime (fst r) = 0%Q /\
  playbackState (fst r) = loading /\
  forall env' e' chunk' chunks' audioBuffer',
    audioChunks e' = Some (chunk' :: chunks') ->
    decodeAudioData (data chunk') = Some audioBuffer' ->
    let r' := onmessage decodeAudioData env' e' (fst r) in
    scheduled (snd r') = [(audioBuffer', (currentTime env' + bufferTime)%Q)] /\
    nextStartTime (fst r') =
      (currentTime env' + bufferTime + duration audioBuffer')%Q /\
    In (SetTimeout LoadingToPlaying (bufferTime * 1000)) (snd r').
Proof.
  intros Hp Hs Hc Hd Hz Hlt r.
  assert (Hst : playbackState s = playing \/ playbackState s = loading)
    by (destruct (playbackState s); [contradiction | auto | auto | contradiction]).
  subst r. rewrite (onmessage_decoded _ env e chunk chunks audioBuffer s Hst Hc Hd).
  rewrite andThen_fst, andThen_snd.
  destruct (onmessage_withoutAudio decodeAudioData env e s)
    as (Hp0 & Hn0 & Hsch0 & _ & _).
  set (s0 := fst (onmessage decodeAudioData env (withoutAudio e) s)) in *.
  rewrite scheduleChunk_underrun by (rewrite Hn0; assumption).
  cbn [fst snd]. rewrite scheduled_app, Hsch0.
  split; [reflexivity |]. split; [reflexivity |]. split; [reflexivity |].
  intros env' e' chunk' chunks' audioBuffer' Hc' Hd'.
  set (s1 := set_nextStartTime 0 (set_playbackState loading s0)).
  assert (Hst1 : playbackState s1 = playing \/ playbackState s1 = loading)
    by (right; reflexivity).
  assert (Hpr : primed (currentTime env') s1 = (currentTime env' + bufferTime)%Q)
    by (apply primed_at_sentinel; reflexivity).
  destruct (onmessage_on_time decodeAudioData env' e' chunk' chunks'
              audioBuffer' s1 Hst1 Hc' Hd') as (Hsch & Hn & _).
  { rewrite Hpr. pose proof bufferTime_pos. lra. }
  rewrite Hpr in Hsch, Hn. split; [exact Hsch |]. split; [exact Hn |].
  rewrite (onmessage_decoded _ env' e' chunk' chunks' audioBuffer' s1 Hst1 Hc' Hd').
  rewrite andThen_snd. apply in_or_app. right.
  destruct (onmessage_withoutAudio decodeAudioData env' e' s1)
    as (_ & Hn1 & _).
  rewrite scheduleChunk_on_time.
  - cbn [snd]. apply in_or_app. left.
    replace (Qeq_bool (nextStartTime (fst (onmessage decodeAudioData env'
               (withoutAudio e') s1))) 0) with true
      by (rewrite Hn1; reflexivity).
    left. reflexivity.
  - rewrite primed_at_sentinel by (rewrite Hn1; reflexivity).
    pose proof bufferTime_pos. lra.
Qed.

(** C10.  Of the chunks of one message only the first is decoded and
    scheduled.  What the callback does depends on the first chunk alone:
    it is the same whatever chunks follow it (none, for instance) and
    whatever the decoder would make of them; at most one buffer is
    started; and when the element is playing or loading, the first chunk
    decodes and it is on time, the buffer started is the one decoded from
    the first chunk, at the cursor, which moves on by its duration, and
    nothing is thrown. *)
Theorem only_first_chunk_is_played env sc fp chunk chunks s :
  let e := {| setupComplete := sc; filteredPrompt := fp;
              audioChunks := Some (chunk :: chunks) |} in
  let r := onmessage decodeAudioData env e s in
  (forall decode' chunks',
     decode' (data chunk) = decodeAudioData (data chunk) ->
     onmessage decode' env
       {| setupComplete := sc; filteredPrompt := fp;
          audioChunks := Some (chunk :: chunks') |} s = r) /\
  (length (scheduled (snd r)) <= 1)%nat /\
  (forall audioBuffer,
     playbackState s = playing \/ playbackState s = loading ->
     decodeAudioData (data chunk) = Some audioBuffer ->
     (currentTime env <= primed (currentTime env) s)%Q ->
     scheduled (snd r) = [(audioBuffer, primed (currentTime env) s)] /\
     nextStartTime (fst r) =
       (primed (currentTime env) s + duration audioBuffer)%Q /\
     thrown (snd r) = []).
Proof.
  intros e r. split; [| split].
  - intros decode' chunks' Hd. subst r e. unfold onmessage.
    cbn [audioChunks setupComplete filteredPrompt]. rewrite Hd. reflexivity.
  - subst r e. unfold onmessage, scheduleChunk, andThen, emit, modify, skip,
      dispatchToast, emit.
    destruct s as [? ? ses nst st ? ce ? ? ? ?].
    destruct sc, fp, st; cbn;
      repeat match goal with
             | |- context [if ?c then _ else _] => destruct c; cbn
             | |- context [decodeAudioData ?d] =>
                 destruct (decodeAudioData d); cbn
             end; lia.
  - intros audioBuffer Hst Hd Hle. subst r.
    destruct (onmessage_on_time decodeAudioData env e chunk chunks audioBuffer
                s Hst eq_refl Hd Hle) as (H1 & H2 & _).
    split; [exact H1 |]. split; [exact H2 |].
    rewrite (onmessage_decoded _ env e chunk chunks audioBuffer s Hst eq_refl Hd).
    rewrite andThen_snd, thrown_app.
    destruct (onmessage_withoutAudio decodeAudioData env e s)
      as (_ & _ & _ & Hth & _).
    rewrite Hth. unfold scheduleChunk, andThen, emit, modify, skip.
    repeat match goal with
           | |- context [if ?c then _ else _] => destruct c; cbn
           end; reflexivity.
Qed.

(** C9, as the code has it.  When the first chunk of a message does not
    decode, the exception leaves the callback (nothing catches it); the
    chunk is not scheduled, the decode failure shows no notice, and the
    fields are those the message would have left without its audio, so
    that playback state and cursor are untouched. *)
Theorem decode_failure_drops_chunk env e chunk chunks s :
  playbackState s <> paused -> playbackState s <> stopped ->
  audioChunks e = Some (chunk :: chunks) ->
  decodeAudioData (data chunk) = None ->
  let r := onmessage decodeAudioData env e s in
  thrown (snd r) = ["decodeAudioData failed"] /\
  scheduled (snd r) = [] /\
  toasts (snd r) =
    toasts (snd (onmessage decodeAudioData env (withoutAudio e) s)) /\
  fst r = fst (onmessage decodeAudioData env (withoutAudio e) s) /\
  playbackState (fst r) = playbackState s /\
  nextStartTime (fst r) = nextStartTime s.
Proof.
  intros Hp Hs Hc Hd r.
  assert (Hst : playbackState s = playing \/ playbackState s = loading)
    by (destruct (playbackState s); [contradiction | auto | auto | contradiction]).
  subst r. rewrite (onmessage_undecodable _ env e chunk chunks s Hst Hc Hd).
  rewrite andThen_fst, andThen_snd.
  destruct (onmessage_withoutAudio decodeAudioData env e s)
    as (Hp0 & Hn0 & Hsch0 & Hth0 & _).
  cbn [emit fst snd]. rewrite thrown_app, scheduled_app, toasts_app, Hth0, Hsch0.
  cbn [thrown scheduled toasts app]. rewrite app_nil_r. repeat split; assumption.
Qed.

End Playback.


(** ** The cursor in double precision *)

Section Rounded.
Variable decodeAudioData : string -> option Doubles.AudioBuffer.









End Rounded.

(** *** Instances *)

Lemma underrun_recovery_witness :
  let r := onmessage Samples.decodeAudioData (Samples.envAt 0 5)
             (Samples.audioMessage "AAAA") (Samples.playingAt 3) in
  let r' := onmessage Samples.decodeAudioData (Samples.envAt 0 6)
              (Samples.audioMessage "BBBB") (fst r) in
  scheduled (snd r) = [] /\
  nextStartTime (fst r) = 0%Q /\
  playbackState (fst r) = loading /\
  scheduled (snd r') = [(Samples.buffer02, (6 + bufferTime)%Q)] /\
  nextStartTime (fst r') = (6 + bufferTime + duration Samples.buffer02)%Q.
Proof.
  destruct (underrun_recovery Samples.decodeAudioData (Samples.envAt 0 5)
              (Samples.audioMessage "AAAA") {| data := "AAAA" |} []
              Samples.buffer02 (Samples.playingAt 3))
    as (H1 & H2 & H3 & H4);
    [ discriminate | discriminate | reflexivity | reflexivity
    | intros H; discriminate H | reflexivity | ].
  destruct (H4 (Samples.envAt 0 6) (Samples.audioMessage "BBBB")
              {| data := "BBBB" |} [] Samples.buffer02 eq_refl eq_refl)
    as (H5 & H6 & _).
  repeat split; assumption.
Defined.

Lemma decode_failure_drops_chunk_witness :
  let s := Samples.playingAt 7 in
  let r := onmessage Samples.decodeAudioData (Samples.envAt 0 5)
             (Samples.audioMessage "%%%") s in
  thrown (snd r) = ["decodeAudioData failed"] /\
  scheduled (snd r) = [] /\
  toasts (snd r) = [] /\
  fst r = s /\
  playbackState (fst r) = playing /\
  nextStartTime (fst r) = 7%Q.
Proof.
  exact (decode_failure_drops_chunk Samples.decodeAudioData (Samples.envAt 0 5)
           (Samples.audioMessage "%%%") {| data := "%%%" |} []
           (Samples.playingAt 7)
           ltac:(discriminate) ltac:(discriminate) eq_refl eq_refl).
Defined.

Lemma only_first_chunk_is_played_witness :
  let e := {| setupComplete := false; filteredPrompt := None;
              audioChunks := Some [ {| data := "AAAA" |};
                                    {| data := "%%%" |};
                                    {| data := "BBBB" |} ] |} in
  let r := onmessage Samples.decodeAudioData (Samples.envAt 0 5) e
             (Samples.playingAt 7) in
  r = onmessage Samples.decodeAudioData (Samples.envAt 0 5)
        (Samples.audioMessage "AAAA") (Samples.playingAt 7) /\
  scheduled (snd r) = [(Samples.buffer02, 7%Q)] /\
  nextStartTime (fst r) = (7 + duration Samples.buffer02)%Q /\
  thrown (snd r) = [].
Proof.
  intros e r.
  destruct (only_first_chunk_is_played Samples.decodeAudioData
              (Samples.envAt 0 5) false None {| data := "AAAA" |}
              [ {| data := "%%%" |}; {| data := "BBBB" |} ]
              (Samples.playingAt 7)) as (H1 & _ & H3).
  split; [symmetry; exact (H1 Samples.decodeAudioData [] eq_refl) |].
  apply (H3 Samples.buffer02); [left; reflexivity | reflexivity |].
  vm_compute. discriminate.
Defined.

(** C9, as the spec states it, fails: the exception of a chunk that does not
    decode leaves the callback; nothing handles it. *)
Lemma decode_failure_is_not_caught :
  thrown (snd (onmessage Samples.decodeAudioData (Samples.envAt 0 5)
                 (Samples.audioMessage "%%%") (Samples.playingAt 7)))
  = ["decodeAudioData failed"].
Proof. reflexivity. Qed.




(** ** Loss of the connection *)

Lemma onclose_clean s : onclose true s = (s, [ConsoleLog "Lyria connection closed."]).
Proof. reflexivity. Qed.

Lemma drop_connection_stops (notice : string) s :
  idle_without_session s ->
  let r := (modify (set_connectionError true) >>>
            internalStopAudio >>> dispatchToast notice) s in
  connectionError (fst r) = true /\
  playbackState (fst r) = stopped /\
  nextStartTime (fst r) = 0%Q /\
  toasts (snd r) = [notice] /\
  ~ In SessionPause (snd r) /\
  (session s = true -> In SessionStop (snd r)).
Proof.
  intros Hidle. unfold idle_without_session in Hidle.
  destruct s as [? ? ses nst st ? ce ? ? ? ?]. cbn in Hidle.
  destruct ses; cbn.
  - repeat split; try reflexivity; [| intros _; left; reflexivity].
    intros [H | [H | []]]; discriminate H.
  - destruct (Hidle eq_refl) as [-> ->].
    repeat split; try reflexivity; [| intros H; discriminate H].
    intros [H | []]; discriminate H.
Qed.

(** C7.  In every state the element can reach, an error event, and a close
    event that is not clean, set the connectivity-error flag, leave the
    playback state [stopped] with the cursor at 0 (a stop is sent to the
    session, never a pause) and show a notice; a clean close changes no
    field and shows no notice. *)
Theorem connection_loss_forces_stop decodeAudioData NumberOfString s :
  reachable decodeAudioData NumberOfString s ->
  (connectionError (fst (onerror s)) = true /\
   playbackState (fst (onerror s)) = stopped /\
   nextStartTime (fst (onerror s)) = 0%Q /\
   toasts (snd (onerror s)) = ["Lyria connection error. Please restart."] /\
   ~ In SessionPause (snd (onerror s)) /\
   (session s = true -> In SessionStop (snd (onerror s)))) /\
  (connectionError (fst (onclose false s)) = true /\
   playbackState (fst (onclose false s)) = stopped /\
   nextStartTime (fst (onclose false s)) = 0%Q /\
   toasts (snd (onclose false s)) = ["Lyria connection closed unexpectedly."] /\
   ~ In SessionPause (snd (onclose false s)) /\
   (session s = true -> In SessionStop (snd (onclose false s)))) /\
  (fst (onclose true s) = s /\ toasts (snd (onclose true s)) = []).
Proof.
  intros Hreach. apply reachable_idle in Hreach.
  split; [| split].
  - pose proof (drop_connection_stops "Lyria connection error. Please restart."
                  s Hreach) as H.
    unfold onerror. rewrite andThen_fst, andThen_snd. cbn [emit fst snd].
    cbv zeta in H. destruct H as (H1 & H2 & H3 & H4 & H5 & H6).
    repeat split; try assumption.
    + intros [H | H]; [discriminate H | exact (H5 H)].
    + intros Hs. right. exact (H6 Hs).
  - pose proof (drop_connection_stops "Lyria connection closed unexpectedly."
                  s Hreach) as H.
    unfold onclose. cbn [negb]. rewrite andThen_fst, andThen_snd.
    cbn [emit fst snd].
    cbv zeta in H. destruct H as (H1 & H2 & H3 & H4 & H5 & H6).
    repeat split; try assumption.
    + intros [H | H]; [discriminate H | exact (H5 H)].
    + intros Hs. right. exact (H6 Hs).
  - rewrite onclose_clean. split; reflexivity.
Qed.

Lemma connection_loss_forces_stop_witness :
  let env := Samples.envAt 1000 0 in
  let s := fst (run Samples.decodeAudioData Samples.NumberOfString
                  [ (env, FirstRender); (env, FirstUpdated);
                    (env, Message {| setupComplete := true;
                                     filteredPrompt := None;
                                     audioChunks := None |});
                    (env, PlayPause);
                    (env, Message (Samples.audioMessage "AAAA")) ]
                  (initial [] 0)) in
  playbackState s = loading /\
  playbackState (fst (onerror s)) = stopped /\
  nextStartTime (fst (onerror s)) = 0%Q /\
  connectionError (fst (onerror s)) = true /\
  toasts (snd (onerror s)) = ["Lyria connection error. Please restart."].
Proof.
  intros env s.
  destruct (connection_loss_forces_stop Samples.decodeAudioData
              Samples.NumberOfString s) as ((H1 & H2 & H3 & H4 & _) & _).
  - apply reachable_run, reachable_initial.
  - split; [reflexivity |]. repeat split; assumption.
Defined.

(** ** The prompt set sent to the service *)

Lemma in_userWPs wp s :
  In wp (userWPs s) ->
  exists p, In p (map_values (userPrompts s)) /\
            wp = {| wp_text := text p; wp_weight := weight p |} /\
            (0 < weight p)%Q /\ text p ∉ filteredPrompts s.
Proof.
  unfold userWPs. rewrite in_map_iff. intros (p & <- & Hin).
  apply filter_In in Hin as [Hin Hkeep].
  apply andb_true_iff in Hkeep as [Hw Hf].
  exists p. repeat split; [exact Hin | apply Qltb_lt, Hw |].
  apply negb_true_iff, bool_decide_eq_false in Hf. exact Hf.
Qed.

Lemma userWPs_nil s :
  (forall p, In p (map_values (userPrompts s)) ->
             (weight p == 0)%Q \/ text p ∈ filteredPrompts s) ->
  userWPs s = [].
Proof.
  intros H. destruct (userWPs s) as [| wp l] eqn:E; [reflexivity |].
  destruct (in_userWPs wp s) as (p & Hin & _ & Hw & Hf);
    [rewrite E; left; reflexivity |].
  destruct (H p Hin) as [Hz | Hfil]; [lra | contradiction].
Qed.

Lemma allPrompts_nonempty prompts s : allPrompts prompts s <> [].
Proof.
  unfold allPrompts. destruct (prompts ++ userWPs s); cbn; discriminate.
Qed.

Lemma in_allPrompts wp prompts s :
  In wp (allPrompts prompts s) ->
  In wp prompts \/ In wp (userWPs s) \/ wp = silence.
Proof.
  unfold allPrompts.
  destruct (Nat.eqb (length (prompts ++ userWPs s)) 0); intros H;
    repeat (apply in_app_or in H as [H | H]); auto.
  destruct H as [<- | []]. auto.
Qed.

Lemma setSessionPrompts_func_sentPrompts env prompts s :
  sentPrompts (snd (setSessionPrompts_func (env, prompts) s)) =
    if negb (session s) || connectionError s then []
    else [allPrompts prompts s].
Proof.
  destruct (session s) eqn:Hs, (connectionError s) eqn:Hc; cbn [negb orb];
    try (unfold setSessionPrompts_func; rewrite Hs, Hc; reflexivity).
  apply setSessionPrompts_func_sent; assumption.
Qed.

Lemma setSessionPrompts_sent env prompts s sent :
  In sent (sentPrompts (snd (setSessionPrompts env prompts s))) ->
  sent = allPrompts prompts s.
Proof.
  unfold setSessionPrompts, Throttle.throttle.
  destruct (200 <=? dateNow env - setSessionPrompts_lastCall s)%Z;
    [| intros []].
  pose proof (setSessionPrompts_func_sentPrompts env prompts s) as H.
  destruct (setSessionPrompts_func (env, prompts) s) as [s1 e1].
  cbn [snd] in *. rewrite H.
  destruct (negb (session s) || connectionError s); [intros [] |].
  intros [<- | []]. reflexivity.
Qed.

(** C4.  A prompt set that is sent is never empty; and when the agent
    supplies no prompt and every user prompt has weight 0 or a text the
    service has filtered, what is sent is the single filler prompt
    ["silence"] of weight 0.01. *)
Theorem empty_set_substitution env prompts s sent :
  In sent (sentPrompts (snd (setSessionPrompts env prompts s))) ->
  sent <> [] /\
  (prompts = [] ->
   (forall p, In p (map_values (userPrompts s)) ->
              (weight p == 0)%Q \/ text p ∈ filteredPrompts s) ->
   sent = [{| wp_text := "silence"; wp_weight := 1 # 100 |}]).
Proof.
  intros Hin. apply setSessionPrompts_sent in Hin as ->.
  split; [apply allPrompts_nonempty |].
  intros -> Hmuted. unfold allPrompts. rewrite (userWPs_nil s Hmuted).
  reflexivity.
Qed.

Lemma empty_set_substitution_witness :
  hd [] (sentPrompts
           (snd (setSessionPrompts (Samples.envAt 1000 0) [] Samples.muted)))
  = [{| wp_text := "silence"; wp_weight := 1 # 100 |}].
Proof.
  apply (empty_set_substitution (Samples.envAt 1000 0) [] Samples.muted).
  - vm_compute. left. reflexivity.
  - reflexivity.
  - intros p [<- | [<- | []]].
    + left. reflexivity.
    + right. vm_compute. reflexivity.
Defined.

(** ** Filtered prompts *)

Section Filtered.
Variable decodeAudioData : string -> option AudioBuffer.
Variable NumberOfString : string -> Value.
Variable t : string.
(** [Q] is asked of the agent's prompt lists and [P] follows for every
    prompt set sent once [t] has been filtered. *)
Variable P Q : list WeightedPrompt -> Prop.
Hypothesis Q_nil : Q [].
Hypothesis P_sent :
  forall prompts s, Q prompts -> t ∈ filteredPrompts s ->
                    P (allPrompts prompts s).

Local Abbreviation filtered :=
  (fun s => t ∈ filteredPrompts s /\ Q (currentLyriaPrompts s)).









End Filtered.




(** ** A send that fails *)

(** The prompt channel: the rejection is caught, a notice of at most 100
    characters of the message is shown and playback is paused. *)
Lemma prompt_send_failure_pauses env prompts message s :
  session s = true -> connectionError s = false ->
  setWeightedPrompts env = RejectedWith message ->
  let r := setSessionPrompts_func (env, prompts) s in
  thrown (snd r) = [] /\
  toasts (snd r) =
    [("Error setting prompts: " ++ substring 0 100 message)%string] /\
  In SessionPause (snd r) /\
  playbackState (fst r) = paused /\
  nextStartTime (fst r) = 0%Q.
Proof.
  intros Hs Hc Hrej. unfold setSessionPrompts_func. rewrite Hs, Hc, Hrej.
  cbn [negb orb]. unfold andThen, emit, dispatchToast, emit, internalPauseAudio.
  rewrite Hs, Hc. cbn. repeat split. auto 10.
Qed.

(** C6 fails on the configuration channel: the rejection is caught and a
    notice is shown, but playback is not paused.  Here the element is
    playing when [setMusicGenerationConfig] is rejected, and it goes on
    playing. *)
Lemma config_send_failure_does_not_pause :
  let env := {| dateNow := 1000; currentTime := 5;
                connect := Resolved;
                setWeightedPrompts := Resolved;
                setMusicGenerationConfig := RejectedWith "WebSocket is closed";
                mcp := None |} in
  let r := updateLyriaConfig env Settings.defaultConfig (Samples.playingAt 7) in
  snd r = [ SetMusicGenerationConfig Settings.defaultConfig;
            ShowToast "Error setting Lyria config: WebSocket is closed" ] /\
  playbackState (fst r) = playing /\
  nextStartTime (fst r) = 7%Q.
Proof. repeat split. Qed.

(** No failure of a configuration send changes the playback state. *)
Lemma updateLyriaConfig_keeps_playbackState env config s :
  playbackState (fst (updateLyriaConfig env config s)) = playbackState s /\
  ~ In SessionPause (snd (updateLyriaConfig env config s)).
Proof.
  unfold updateLyriaConfig, Throttle.throttle, updateLyriaConfig_func.
  destruct (200 <=? dateNow env - updateLyriaConfig_lastCall s)%Z;
    [| split; [reflexivity | intros []]].
  destruct (negb (session s) || connectionError s);
    [split; [reflexivity | intros []] |].
  unfold andThen, emit, skip, dispatchToast, emit.
  destruct (setMusicGenerationConfig env); cbn; split; try reflexivity;
    intros H; repeat (destruct H as [H | H]; [discriminate H |]); exact H.
Qed.

(** ** Auto and manual fields of the settings *)

Section AutoFields.
Variable NumberOfString : string -> Value.

Local Abbreviation handleInputChange :=
  (Settings.handleInputChange NumberOfString).

Lemma get_insert_eq (cfg : gmap string Value) k v :
  Settings.get (<[k := v]> cfg) k = v.
Proof. unfold Settings.get. rewrite lookup_insert_eq. reflexivity. Qed.

Lemma get_insert_ne (cfg : gmap string Value) k k' v :
  k <> k' -> Settings.get (<[k := v]> cfg) k' = Settings.get cfg k'.
Proof. intros H. unfold Settings.get. rewrite lookup_insert_ne by exact H. reflexivity. Qed.

Lemma dispatch_density c :
  Settings.get (Settings.dispatchSettingsChange c) "density" =
    if Settings.autoDensity c then VUndefined
    else Settings.get (Settings.config c) "density".
Proof.
  unfold Settings.dispatchSettingsChange.
  destruct (Settings.autoDensity c), (Settings.autoBrightness c);
    rewrite ?(get_insert_ne _ "brightness" "density") by discriminate;
    rewrite ?get_insert_eq; reflexivity.
Qed.

Lemma dispatch_brightness c :
  Settings.get (Settings.dispatchSettingsChange c) "brightness" =
    if Settings.autoBrightness c then VUndefined
    else Settings.get (Settings.config c) "brightness".
Proof.
  unfold Settings.dispatchSettingsChange.
  destruct (Settings.autoDensity c), (Settings.autoBrightness c);
    rewrite ?get_insert_eq;
    rewrite ?(get_insert_ne _ "density" "brightness") by discriminate;
    reflexivity.
Qed.

Lemma dispatch_omits_auto_fields c :
  Settings.omits_auto_fields c (Settings.dispatchSettingsChange c).
Proof.
  split; intros H; [rewrite dispatch_density | rewrite dispatch_brightness];
    rewrite H; reflexivity.
Qed.

Lemma handleInputChange_dispatches target c :
  snd (handleInputChange target c) =
    Settings.dispatchSettingsChange (fst (handleInputChange target c)).
Proof. reflexivity. Qed.

Lemma resetToDefaults_dispatches c :
  snd (Settings.resetToDefaults c) =
    Settings.dispatchSettingsChange (fst (Settings.resetToDefaults c)).
Proof. reflexivity. Qed.

(** What the agent's configuration leaves in auto mode, it does not set. *)
Lemma setConfig_omits_auto_fields newConfig c :
  Settings.omits_auto_fields (Settings.setConfig newConfig c) newConfig.
Proof.
  unfold Settings.omits_auto_fields, Settings.setConfig.
  destruct (Settings.get newConfig "density") eqn:Ed,
           (Settings.get newConfig "brightness") eqn:Eb;
    cbn; split; intros H; try reflexivity; discriminate H.
Qed.

(** The steps of a round trip, on the density field. *)
Lemma density_manual c :
  fst (handleInputChange (Settings.checkbox "auto-density" false) c) =
    Settings.set_config
      (<["density" := nullish (Settings.lastDefinedDensity c) (VNumber (1 # 2))]>
         (Settings.config c))
      (Settings.set_autoDensity false c).
Proof. reflexivity. Qed.

Lemma density_auto c :
  fst (handleInputChange (Settings.checkbox "auto-density" true) c) =
    Settings.set_config (<["density" := VUndefined]> (Settings.config c))
      (Settings.set_autoDensity true c).
Proof. reflexivity. Qed.

Lemma density_slider v x c :
  v <> "" -> NumberOfString v = VNumber x ->
  fst (handleInputChange (Settings.slider "density" v) c) =
    Settings.set_config
      (if Settings.autoDensity c then Settings.config c
       else <["density" := VNumber x]> (Settings.config c))
      (Settings.set_lastDefinedDensity (VNumber x) c).
Proof.
  intros Hv Hx. unfold Settings.handleInputChange, Settings.slider.
  cbn [Settings.id Settings.type Settings.value String.eqb Ascii.eqb Bool.eqb
       orb andb].
  apply String.eqb_neq in Hv. rewrite Hv, Hx. cbn [Settings.defined fst].
  cbn [Settings.Number]. destruct (Settings.autoDensity c) eqn:E; cbn; rewrite E;
    reflexivity.
Qed.

Lemma brightness_manual c :
  fst (handleInputChange (Settings.checkbox "auto-brightness" false) c) =
    Settings.set_config
      (<["brightness" :=
           nullish (Settings.lastDefinedBrightness c) (VNumber (1 # 2))]>
         (Settings.config c))
      (Settings.set_autoBrightness false c).
Proof. reflexivity. Qed.

Lemma brightness_auto c :
  fst (handleInputChange (Settings.checkbox "auto-brightness" true) c) =
    Settings.set_config (<["brightness" := VUndefined]> (Settings.config c))
      (Settings.set_autoBrightness true c).
Proof. reflexivity. Qed.

Lemma brightness_slider v x c :
  v <> "" -> NumberOfString v = VNumber x ->
  fst (handleInputChange (Settings.slider "brightness" v) c) =
    Settings.set_config
      (if Settings.autoBrightness c then Settings.config c
       else <["brightness" := VNumber x]> (Settings.config c))
      (Settings.set_lastDefinedBrightness (VNumber x) c).
Proof.
  intros Hv Hx. unfold Settings.handleInputChange, Settings.slider.
  cbn [Settings.id Settings.type Settings.value String.eqb Ascii.eqb Bool.eqb
       orb andb].
  apply String.eqb_neq in Hv. rewrite Hv, Hx. cbn [Settings.defined fst].
  cbn [Settings.Number]. destruct (Settings.autoBrightness c) eqn:E; cbn;
    rewrite E; reflexivity.
Qed.
End AutoFields.

(** ** Configurations sent to the service *)

Lemma sentConfigs_app t1 t2 :
  sentConfigs (t1 ++ t2) = sentConfigs t1 ++ sentConfigs t2.
Proof.
  induction t1 as [| e t1 IH]; [reflexivity |].
  destruct e; cbn; rewrite ?IH; reflexivity.
Qed.

Lemma quiet_skip : quiet skip.
Proof. intros s. split; reflexivity. Qed.

Lemma quiet_emit e :
  (forall cfg, e <> SetMusicGenerationConfig cfg) -> quiet (emit e).
Proof.
  intros H s. split; [reflexivity |]. destruct e; try reflexivity.
  exfalso. exact (H _ eq_refl).
Qed.

Lemma quiet_modify f :
  (forall s, settingsController (f s) = settingsController s) ->
  quiet (modify f).
Proof. intros H s. split; [apply H | reflexivity]. Qed.

Lemma quiet_andThen a b : quiet a -> quiet b -> quiet (a >>> b).
Proof.
  intros Ha Hb s. rewrite andThen_fst, andThen_snd, sentConfigs_app.
  destruct (Ha s) as [Ha1 Ha2]. destruct (Hb (fst (a s))) as [Hb1 Hb2].
  rewrite Ha2, Hb2, Hb1, Ha1. split; reflexivity.
Qed.

Lemma quiet_throttle {A} get set (func : A -> Act) delay now args :
  (forall v s, settingsController (set v s) = settingsController s) ->
  quiet (func args) ->
  quiet (Throttle.throttle get set func delay now args).
Proof.
  intros Hset Hf s. unfold Throttle.throttle.
  destruct (delay <=? now - get s)%Z; [| split; reflexivity].
  destruct (Hf s) as [H1 H2]. destruct (func args s) as [s1 e1].
  cbn [fst snd] in *. rewrite Hset. split; assumption.
Qed.

Ltac quiet_branch s :=
  match goal with
  | |- settingsController (fst (?a s)) = settingsController s /\ _ =>
      let K := fresh "K" in
      assert (K : quiet a); [| exact (K s)]
  end.

Ltac quiet_step :=
  lazymatch goal with
  | |- quiet (_ >>> _) => apply quiet_andThen
  | |- quiet skip => apply quiet_skip
  | |- quiet (emit _) => apply quiet_emit; discriminate
  | |- quiet (dispatchToast _) => apply quiet_emit; discriminate
  | |- quiet (modify _) => apply quiet_modify; reflexivity
  end.
Ltac quiet_auto := repeat quiet_step.

Lemma quiet_internalPauseAudio env : quiet (internalPauseAudio env).
Proof.
  intros s. unfold internalPauseAudio.
  destruct (negb (session s) || connectionError s); quiet_branch s; quiet_auto.
Qed.

Lemma quiet_internalLoadAudio env : quiet (internalLoadAudio env).
Proof.
  intros s. unfold internalLoadAudio.
  destruct (negb (session s) || connectionError s); quiet_branch s; quiet_auto.
Qed.

Lemma quiet_internalStopAudio : quiet internalStopAudio.
Proof.
  intros s. unfold internalStopAudio.
  destruct (negb (session s)); quiet_branch s; quiet_auto.
Qed.

Lemma quiet_connectToSession env : quiet (connectToSession env).
Proof. unfold connectToSession. destruct (connect env); quiet_auto. Qed.

Lemma quiet_setSessionPrompts env prompts : quiet (setSessionPrompts env prompts).
Proof.
  apply quiet_throttle; [reflexivity |]. intros s. unfold setSessionPrompts_func.
  destruct (negb (session s) || connectionError s); quiet_branch s; quiet_auto.
  destruct (setWeightedPrompts env); quiet_auto. apply quiet_internalPauseAudio.
Qed.

Lemma quiet_sends_only cfg a : quiet a -> sends_only cfg a.
Proof.
  intros H s. destruct (H s) as [H1 H2]. split; [exact H1 |].
  rewrite H2. intros c [].
Qed.

Lemma sends_only_andThen cfg a b :
  sends_only cfg a -> sends_only cfg b -> sends_only cfg (a >>> b).
Proof.
  intros Ha Hb s. rewrite andThen_fst, andThen_snd, sentConfigs_app.
  destruct (Ha s) as [Ha1 Ha2]. destruct (Hb (fst (a s))) as [Hb1 Hb2].
  split; [congruence |]. intros c Hin. apply in_app_or in Hin as [Hin | Hin]; auto.
Qed.

Lemma sends_only_updateLyriaConfig env config :
  sends_only config (updateLyriaConfig env config).
Proof.
  intros s. unfold updateLyriaConfig, Throttle.throttle, updateLyriaConfig_func.
  destruct (200 <=? dateNow env - updateLyriaConfig_lastCall s)%Z;
    [| split; [reflexivity | intros c []]].
  destruct (negb (session s) || connectionError s);
    [split; [reflexivity | intros c []] |].
  unfold andThen, emit, skip, dispatchToast, emit.
  destruct (setMusicGenerationConfig env); cbn; split; try reflexivity;
    intros c [<- | []]; reflexivity.
Qed.

Lemma sends_only_handleSettingsChanged env detail :
  sends_only detail (handleSettingsChanged env detail).
Proof.
  unfold handleSettingsChanged. apply sends_only_andThen.
  - apply sends_only_updateLyriaConfig.
  - apply quiet_sends_only. quiet_auto.
Qed.

(** After a quiet handler, and before one. *)
Lemma respects_auto_after a b : quiet a -> respects_auto b -> respects_auto (a >>> b).
Proof.
  intros Ha Hb s cfg sc. rewrite andThen_fst, andThen_snd, sentConfigs_app.
  destruct (Ha s) as [_ ->]. cbn [app]. apply Hb.
Qed.

Lemma respects_auto_before a b : respects_auto a -> quiet b -> respects_auto (a >>> b).
Proof.
  intros Ha Hb s cfg sc. rewrite andThen_fst, andThen_snd, sentConfigs_app.
  destruct (Hb (fst (a s))) as [Hb1 Hb2]. rewrite Hb1, Hb2, app_nil_r.
  apply Ha.
Qed.

Lemma quiet_respects_auto a : quiet a -> respects_auto a.
Proof. intros H s cfg sc. destruct (H s) as [_ ->]. intros []. Qed.

Ltac respects_branch s :=
  cbv beta iota;
  match goal with
  | |- forall cfg sc, In cfg (sentConfigs (snd (?a s))) -> _ =>
      let K := fresh "K" in
      assert (K : respects_auto a); [| exact (K s)]
  end.

(** The settings element is replaced by [sc], then [cfg] may be sent. *)
Lemma respects_auto_replace sc cfg a :
  Settings.omits_auto_fields sc cfg -> sends_only cfg a ->
  respects_auto (modify (set_settingsController (Some sc)) >>> a).
Proof.
  intros Hom Ha s c sc'. rewrite andThen_fst, andThen_snd. cbn [modify fst snd app].
  destruct (Ha (set_settingsController (Some sc) s)) as [H1 H2].
  intros Hin Hsc. rewrite H1 in Hsc. cbn in Hsc. injection Hsc as <-.
  rewrite (H2 c Hin). exact Hom.
Qed.

Lemma respects_auto_updateLyriaPrompts env promptAndConfig :
  respects_auto (updateLyriaPrompts env promptAndConfig).
Proof.
  unfold updateLyriaPrompts.
  apply respects_auto_after; [quiet_auto |].
  apply respects_auto_after; [apply quiet_setSessionPrompts |].
  intros s. destruct (settingsController s) as [sc |] eqn:E,
    (mcp_config promptAndConfig) as [config |]; respects_branch s;
    try (apply quiet_respects_auto, quiet_skip).
  apply (respects_auto_replace _ config).
  - apply setConfig_omits_auto_fields.
  - apply sends_only_updateLyriaConfig.
Qed.

Lemma respects_auto_settingsInput NumberOfString env target :
  respects_auto (settingsInput NumberOfString env target).
Proof.
  intros s. unfold settingsInput. destruct (settingsController s) as [sc |];
    [| respects_branch s; apply quiet_respects_auto, quiet_skip].
  pose proof (handleInputChange_dispatches NumberOfString target sc) as Hd.
  destruct (Settings.handleInputChange NumberOfString target sc)
    as [sc' detail]. cbn [fst snd] in Hd. subst detail. respects_branch s.
  apply (respects_auto_replace _ (Settings.dispatchSettingsChange sc')).
  - apply dispatch_omits_auto_fields.
  - apply sends_only_handleSettingsChanged.
Qed.

Lemma respects_auto_handleReset_rest env : respects_auto (handleReset_rest env).
Proof.
  unfold handleReset_rest.
  apply respects_auto_after; [apply quiet_internalPauseAudio |].
  intros s. destruct (negb (session s)); respects_branch s;
    [apply quiet_respects_auto; quiet_auto |].
  apply respects_auto_after; [quiet_auto |].
  intros s1. destruct (settingsController s1) as [sc |];
    [| respects_branch s1; apply quiet_respects_auto; quiet_auto].
  pose proof (resetToDefaults_dispatches sc) as Hd.
  destruct (Settings.resetToDefaults sc) as [sc' detail].
  cbn [fst snd] in Hd. subst detail. respects_branch s1.
  apply (respects_auto_replace _ (Settings.dispatchSettingsChange sc'));
    [apply dispatch_omits_auto_fields |].
  apply sends_only_andThen; [apply sends_only_handleSettingsChanged |].
  apply quiet_sends_only. quiet_auto.
Qed.

Lemma respects_auto_handleReset env : respects_auto (handleReset env).
Proof.
  intros s. unfold handleReset.
  destruct (connectionError s); respects_branch s;
    [| apply respects_auto_handleReset_rest].
  apply respects_auto_after; [apply quiet_connectToSession |].
  intros s1. destruct (connectionError s1); respects_branch s1;
    [apply quiet_respects_auto; quiet_auto
    | apply respects_auto_handleReset_rest].
Qed.

Lemma respects_auto_handlePlayPause env : respects_auto (handlePlayPause env).
Proof.
  intros s. unfold handlePlayPause.
  destruct (playbackState s); try destruct (connectionError s);
    respects_branch s;
    try (apply quiet_respects_auto; first
           [ apply quiet_internalPauseAudio | apply quiet_internalLoadAudio
           | apply quiet_internalStopAudio ]).
  all: apply respects_auto_after; [apply quiet_connectToSession |];
    intros s1; destruct (negb (connectionError s1)); respects_branch s1;
    [| apply quiet_respects_auto, quiet_skip];
    apply respects_auto_before; [| apply quiet_internalLoadAudio];
    destruct (mcp env);
    [ apply respects_auto_updateLyriaPrompts
    | apply quiet_respects_auto, quiet_setSessionPrompts ].
Qed.

Lemma quiet_scheduleChunk env audioBuffer : quiet (scheduleChunk env audioBuffer).
Proof.
  unfold scheduleChunk. apply quiet_andThen; intros s.
  - destruct (Qeq_bool (nextStartTime s) 0); quiet_branch s; quiet_auto.
  - destruct (Qltb (nextStartTime s) (currentTime env)); quiet_branch s;
      quiet_auto.
Qed.

Lemma quiet_onmessage decodeAudioData env e :
  quiet (onmessage decodeAudioData env e).
Proof.
  unfold onmessage. apply quiet_andThen; [| apply quiet_andThen].
  - destruct (setupComplete e); quiet_auto.
  - destruct (filteredPrompt e); quiet_auto.
  - destruct (audioChunks e) as [chunks |]; [| quiet_auto].
    intros s. destruct (playbackState s); destruct chunks as [| chunk chunks];
      try destruct (decodeAudioData (data chunk)); quiet_branch s; quiet_auto;
      apply quiet_scheduleChunk.
Qed.

Lemma quiet_resendPrompts env :
  quiet (fun s => setSessionPrompts env (currentLyriaPrompts s) s).
Proof. intros s. apply quiet_setSessionPrompts. Qed.

Lemma quiet_storeUserPrompts : quiet storeUserPrompts.
Proof. intros s. split; reflexivity. Qed.

(** Every handler sends only configurations that omit the auto fields. *)
Lemma respects_auto_handle decodeAudioData NumberOfString env ev :
  respects_auto (handle decodeAudioData NumberOfString env ev).
Proof.
  destruct ev; cbn [handle].
  - intros s cfg sc. unfold firstRender.
    destruct (settingsController s); cbn; intros [].
  - unfold firstUpdated.
    apply respects_auto_after; [apply quiet_connectToSession |].
    destruct (mcp env);
      [apply respects_auto_updateLyriaPrompts
      | apply quiet_respects_auto, quiet_skip].
  - apply quiet_respects_auto, quiet_onmessage.
  - apply quiet_respects_auto. unfold onerror. quiet_auto.
    apply quiet_internalStopAudio.
  - apply quiet_respects_auto. unfold onclose.
    destruct wasClean; cbn [negb]; quiet_auto. apply quiet_internalStopAudio.
  - apply quiet_respects_auto. intros s. unfold timeout. destruct t.
    + destruct (playbackState s); quiet_branch s; quiet_auto.
    + destruct (negb (connectionError s)); quiet_branch s; quiet_auto.
      apply quiet_internalLoadAudio.
  - apply respects_auto_updateLyriaPrompts.
  - intros s. unfold playAudio. destruct (playbackState s); respects_branch s;
      try apply respects_auto_handlePlayPause;
      apply quiet_respects_auto, quiet_skip.
  - apply quiet_respects_auto. intros s. unfold pauseAudio.
    destruct (playbackState s); quiet_branch s; quiet_auto;
      apply quiet_internalPauseAudio.
  - apply respects_auto_handlePlayPause.
  - apply respects_auto_handleReset.
  - apply quiet_respects_auto. intros s. unfold handleUserPromptChanged.
    destruct (map_get _ _); quiet_branch s; quiet_auto;
      [apply quiet_resendPrompts | apply quiet_storeUserPrompts].
  - apply quiet_respects_auto. intros s. unfold handleAddUserPrompt.
    quiet_branch s. quiet_auto;
      [apply quiet_resendPrompts | apply quiet_storeUserPrompts].
  - apply quiet_respects_auto. intros s. unfold handleUserPromptRemoved.
    destruct (map_get _ _); quiet_branch s; quiet_auto;
      [apply quiet_resendPrompts | apply quiet_storeUserPrompts].
  - apply respects_auto_settingsInput.
Qed.

Section RoundTrip.
Variable NumberOfString : string -> Value.

Local Abbreviation change := (Settings.handleInputChange NumberOfString).

(** From any state in manual mode that remembers [x]: back to auto nothing
    is sent for the field, back to manual [x] is sent again. *)
Lemma density_restored x c :
  Settings.autoDensity c = false ->
  Settings.lastDefinedDensity c = VNumber x ->
  let r3 := change (Settings.checkbox "auto-density" true) c in
  let r4 := change (Settings.checkbox "auto-density" false) (fst r3) in
  Settings.get (snd r3) "density" = VUndefined /\
  Settings.get (snd r4) "density" = VNumber x.
Proof.
  intros Ha Hl r3 r4. subst r3 r4.
  rewrite !handleInputChange_dispatches, !dispatch_density.
  rewrite density_manual, density_auto. cbn. rewrite get_insert_eq, Hl.
  split; reflexivity.
Qed.

Lemma brightness_restored x c :
  Settings.autoBrightness c = false ->
  Settings.lastDefinedBrightness c = VNumber x ->
  let r3 := change (Settings.checkbox "auto-brightness" true) c in
  let r4 := change (Settings.checkbox "auto-brightness" false) (fst r3) in
  Settings.get (snd r3) "brightness" = VUndefined /\
  Settings.get (snd r4) "brightness" = VNumber x.
Proof.
  intros Ha Hl r3 r4. subst r3 r4.
  rewrite !handleInputChange_dispatches, !dispatch_brightness.
  rewrite brightness_manual, brightness_auto. cbn. rewrite get_insert_eq, Hl.
  split; reflexivity.
Qed.

(** C8.  For density and for brightness: switch the field to manual and
    set it to the value X of the slider, switch back to auto, switch to
    manual again; the configuration sent after the last step carries X
    again, and the one sent while in auto carries no value for the field.
    More generally no configuration that is dispatched by the settings
    element or sent to the service by any handler carries a value for a
    field that is in auto mode at that point. *)
Theorem auto_manual_round_trip v x c :
  v <> "" -> NumberOfString v = VNumber x ->
  (let r1 := change (Settings.checkbox "auto-density" false) c in
   let r2 := change (Settings.slider "density" v) (fst r1) in
   let r3 := change (Settings.checkbox "auto-density" true) (fst r2) in
   let r4 := change (Settings.checkbox "auto-density" false) (fst r3) in
   Settings.get (snd r2) "density" = VNumber x /\
   Settings.get (snd r3) "density" = VUndefined /\
   Settings.get (snd r4) "density" = VNumber x) /\
  (let r1 := change (Settings.checkbox "auto-brightness" false) c in
   let r2 := change (Settings.slider "brightness" v) (fst r1) in
   let r3 := change (Settings.checkbox "auto-brightness" true) (fst r2) in
   let r4 := change (Settings.checkbox "auto-brightness" false) (fst r3) in
   Settings.get (snd r2) "brightness" = VNumber x /\
   Settings.get (snd r3) "brightness" = VUndefined /\
   Settings.get (snd r4) "brightness" = VNumber x) /\
  (forall target c',
      Settings.omits_auto_fields (fst (change target c'))
        (snd (change target c'))) /\
  (forall c',
      Settings.omits_auto_fields (fst (Settings.resetToDefaults c'))
        (snd (Settings.resetToDefaults c'))) /\
  (forall decodeAudioData env ev,
      respects_auto (handle decodeAudioData NumberOfString env ev)).
Proof.
  intros Hv Hx. split; [| split; [| split; [| split]]].
  - intros r1 r2 r3 r4.
    assert (H2 : Settings.autoDensity (fst r2) = false /\
                 Settings.lastDefinedDensity (fst r2) = VNumber x /\
                 Settings.get (Settings.config (fst r2)) "density" = VNumber x).
    { subst r2 r1. rewrite (density_slider NumberOfString v x _ Hv Hx).
      rewrite density_manual. cbn. rewrite get_insert_eq. auto. }
    destruct H2 as (Ha & Hl & Hc).
    destruct (density_restored x (fst r2) Ha Hl) as [H3 H4].
    split; [| split; assumption].
    change (snd r2) with (Settings.dispatchSettingsChange (fst r2)).
    rewrite dispatch_density, Ha. exact Hc.
  - intros r1 r2 r3 r4.
    assert (H2 : Settings.autoBrightness (fst r2) = false /\
                 Settings.lastDefinedBrightness (fst r2) = VNumber x /\
                 Settings.get (Settings.config (fst r2)) "brightness"
                   = VNumber x).
    { subst r2 r1. rewrite (brightness_slider NumberOfString v x _ Hv Hx).
      rewrite brightness_manual. cbn. rewrite get_insert_eq. auto. }
    destruct H2 as (Ha & Hl & Hc).
    destruct (brightness_restored x (fst r2) Ha Hl) as [H3 H4].
    split; [| split; assumption].
    change (snd r2) with (Settings.dispatchSettingsChange (fst r2)).
    rewrite dispatch_brightness, Ha. exact Hc.
  - intros target c'. rewrite handleInputChange_dispatches.
    apply dispatch_omits_auto_fields.
  - intros c'. rewrite resetToDefaults_dispatches.
    apply dispatch_omits_auto_fields.
  - intros decodeAudioData env ev. apply respects_auto_handle.
Qed.
End RoundTrip.

Lemma auto_manual_round_trip_witness :
  let change := Settings.handleInputChange Samples.NumberOfString in
  let r1 := change (Settings.checkbox "auto-density" false) Settings.initial in
  let r2 := change (Settings.slider "density" "0.8") (fst r1) in
  let r3 := change (Settings.checkbox "auto-density" true) (fst r2) in
  let r4 := change (Settings.checkbox "auto-density" false) (fst r3) in
  Settings.get (snd r2) "density" = VNumber (4 # 5) /\
  Settings.get (snd r3) "density" = VUndefined /\
  Settings.get (snd r4) "density" = VNumber (4 # 5).
Proof.
  exact (proj1 (auto_manual_round_trip Samples.NumberOfString "0.8" (4 # 5)
                  Settings.initial ltac:(discriminate) eq_refl)).
Defined.

(** * Further properties *)

(** ** The connection flag and the transport *)

Ltac fields_direct :=
  let s := fresh "s" in
  let H := fresh "H" in
  intros s H; split; [| apply Forall_sends_True];
  unfold stopped_on_error, idle_without_session in *;
  destruct s as [? ? ses nst st ? ce ? ? ? ?];
  destruct ses, ce, st; cbn in *;
  repeat match goal with
         | |- context [if ?c then _ else _] => destruct c; cbn in *
         end;
  intuition congruence.

Lemma stopped_on_error_internalPauseAudio env :
  keeps stopped_on_error (sends (fun _ => True)) (internalPauseAudio env).
Proof. unfold internalPauseAudio, andThen, emit, modify, skip. fields_direct. Qed.

Lemma stopped_on_error_internalLoadAudio env :
  keeps stopped_on_error (sends (fun _ => True)) (internalLoadAudio env).
Proof.
  unfold internalLoadAudio, andThen, emit, modify, skip, dispatchToast, emit.
  fields_direct.
Qed.

Lemma stopped_on_error_internalStopAudio :
  keeps stopped_on_error (sends (fun _ => True)) internalStopAudio.
Proof. unfold internalStopAudio, andThen, emit, modify, skip. fields_direct. Qed.

Lemma stopped_on_error_connectToSession env :
  keeps stopped_on_error (sends (fun _ => True)) (connectToSession env).
Proof.
  unfold connectToSession, andThen, emit, modify, skip, dispatchToast, emit.
  destruct (connect env); fields_direct.
Qed.

Lemma stopped_on_error_onmessage decodeAudioData env e :
  keeps stopped_on_error (sends (fun _ => True))
    (onmessage decodeAudioData env e).
Proof.
  unfold onmessage, scheduleChunk, andThen, emit, modify, skip, dispatchToast,
    emit.
  destruct (setupComplete e), (filteredPrompt e),
    (audioChunks e) as [[| chunk chunks] |];
    try destruct (decodeAudioData (data chunk)); fields_direct.
Qed.

Lemma stopped_on_error_loadingToPlaying env :
  keeps stopped_on_error (sends (fun _ => True)) (timeout env LoadingToPlaying).
Proof. unfold timeout, modify, skip. fields_direct. Qed.

Lemma stopped_on_error_onerror :
  keeps stopped_on_error (sends (fun _ => True)) onerror.
Proof.
  unfold onerror, internalStopAudio, andThen, emit, modify, skip, dispatchToast,
    emit.
  fields_direct.
Qed.

Lemma stopped_on_error_onclose wasClean :
  keeps stopped_on_error (sends (fun _ => True)) (onclose wasClean).
Proof.
  unfold onclose, internalStopAudio, andThen, emit, modify, skip, dispatchToast,
    emit.
  destruct wasClean; fields_direct.
Qed.

Lemma stopped_on_error_handle decodeAudioData NumberOfString env ev :
  keeps stopped_on_error (sends (fun _ => True))
    (handle decodeAudioData NumberOfString env ev).
Proof.
  pose proof stopped_on_error_internalPauseAudio.
  pose proof stopped_on_error_internalLoadAudio.
  pose proof stopped_on_error_internalStopAudio.
  pose proof stopped_on_error_connectToSession.
  pose proof stopped_on_error_loadingToPlaying.
  destruct ev; cbn [handle];
    [ apply I_firstRender
    | apply I_firstUpdated with (C := fun _ => True)
    | apply stopped_on_error_onmessage
    | apply stopped_on_error_onerror
    | apply stopped_on_error_onclose
    | apply I_timeout
    | apply I_updateLyriaPrompts with (C := fun _ => True)
    | apply I_playAudio with (C := fun _ => True)
    | apply I_pauseAudio
    | apply I_handlePlayPause with (C := fun _ => True)
    | apply I_handleReset
    | apply I_handleUserPromptChanged with (C := fun _ => True)
    | apply I_handleAddUserPrompt with (C := fun _ => True)
    | apply I_handleUserPromptRemoved with (C := fun _ => True)
    | apply I_settingsInput ];
    try assumption; try exact Logic.I; auto.
Qed.

(** X2.  In every state the element can reach, a connection that is
    flagged as failed is not played into: playback is stopped. *)
Theorem flagged_connection_is_stopped decodeAudioData NumberOfString s :
  reachable decodeAudioData NumberOfString s ->
  connectionError s = true ->
  playbackState s = stopped.
Proof.
  intros Hreach. assert (H : stopped_on_error s).
  { induction Hreach as [stored nextId | s env ev _ IH].
    - split; [reflexivity |]. intros _. split; reflexivity.
    - apply stopped_on_error_handle, IH. }
  exact (proj1 H).
Qed.

Lemma flagged_connection_is_stopped_witness :
  let env := Samples.envAt 1000 0 in
  let s := fst (run Samples.decodeAudioData Samples.NumberOfString
                  [ (env, FirstUpdated);
                    (env, Message {| setupComplete := true;
                                     filteredPrompt := None;
                                     audioChunks := None |});
                    (env, PlayPause);
                    (env, Close false) ]
                  (initial [] 0)) in
  playbackState s = stopped.
Proof.
  intros env s.
  apply (flagged_connection_is_stopped Samples.decodeAudioData
           Samples.NumberOfString s).
  - apply reachable_run, reachable_initial.
  - reflexivity.
Defined.

Ltac session_direct :=
  let s := fresh "s" in
  let H := fresh "H" in
  intros s H; split; [| apply Forall_sends_True];
  destruct s as [? ? ses nst st ? ce ? ? ? ?];
  destruct ses, ce, st; cbn in *;
  repeat match goal with
         | |- context [if ?c then _ else _] => destruct c; cbn in *
         end;
  congruence.

Lemma session_kept_handle decodeAudioData NumberOfString env ev :
  keeps (fun s => session s = true) (sends (fun _ => True))
    (handle decodeAudioData NumberOfString env ev).
Proof.
  apply I_handle with (C := fun _ => True);
    try (intros; exact Logic.I); try (intros ? ? H; exact H).
  - intros ? ? _ H; exact H.
  - intros env'. unfold internalPauseAudio, andThen, emit, modify, skip.
    session_direct.
  - intros env'.
    unfold internalLoadAudio, andThen, emit, modify, skip, dispatchToast, emit.
    session_direct.
  - unfold internalStopAudio, andThen, emit, modify, skip. session_direct.
  - intros env'.
    unfold connectToSession, andThen, emit, modify, skip, dispatchToast, emit.
    destruct (connect env'); session_direct.
  - intros env' e.
    unfold onmessage, scheduleChunk, andThen, emit, modify, skip,
      dispatchToast, emit.
    destruct (setupComplete e), (filteredPrompt e),
      (audioChunks e) as [[| chunk chunks] |];
      try destruct (decodeAudioData (data chunk)); session_direct.
  - intros env'. unfold timeout, modify, skip. session_direct.
Qed.

(** X3.  Once a session has been stored, no handler ever drops it: the
    element keeps the handle through errors, closes, failed reconnections
    and resets. *)
Theorem session_is_never_dropped decodeAudioData NumberOfString l s :
  session s = true ->
  session (fst (run decodeAudioData NumberOfString l s)) = true.
Proof.
  intros Hs.
  apply (keeps_run decodeAudioData NumberOfString
           (fun s => session s = true) (sends (fun _ => True)) l);
    [| exact Hs].
  intros env ev _. apply session_kept_handle.
Qed.

Lemma session_is_never_dropped_witness :
  let failing := {| dateNow := 5000; currentTime := 3;
                    connect := RejectedWith "network down";
                    setWeightedPrompts := Resolved;
                    setMusicGenerationConfig := Resolved;
                    mcp := None |} in
  session (fst (run Samples.decodeAudioData Samples.NumberOfString
                  [ (Samples.envAt 1000 0, Error);
                    (failing, PlayPause);
                    (failing, Reset) ]
                  Samples.connected)) = true.
Proof.
  intros failing.
  apply (session_is_never_dropped Samples.decodeAudioData
           Samples.NumberOfString).
  reflexivity.
Defined.

(** ** Chunks that arrive while paused or stopped *)

(** X1.  While the element is paused or stopped the audio of a message is
    ignored before it is decoded: nothing is scheduled, nothing is thrown
    even for a payload that would not decode, and the fields are those the
    message would have left without its audio. *)
Theorem audio_is_ignored_when_not_playing decodeAudioData env e s :
  playbackState s = paused \/ playbackState s = stopped ->
  let r := onmessage decodeAudioData env e s in
  r = onmessage decodeAudioData env (withoutAudio e) s /\
  scheduled (snd r) = [] /\
  thrown (snd r) = [] /\
  playbackState (fst r) = playbackState s /\
  nextStartTime (fst r) = nextStartTime s.
Proof.
  intros Hst r. subst r. rewrite (onmessage_gated _ env e s Hst).
  destruct (onmessage_withoutAudio decodeAudioData env e s)
    as (Hp & Hn & Hsch & Hth & _).
  repeat split; assumption.
Qed.

Lemma audio_is_ignored_when_not_playing_witness :
  let s := set_nextStartTime 4 (set_playbackState paused Samples.connected) in
  let r := onmessage Samples.decodeAudioData (Samples.envAt 0 9)
             (Samples.audioMessage "%%%") s in
  scheduled (snd r) = [] /\ thrown (snd r) = [] /\
  playbackState (fst r) = paused /\ nextStartTime (fst r) = 4%Q.
Proof.
  intros s r.
  destruct (audio_is_ignored_when_not_playing Samples.decodeAudioData
              (Samples.envAt 0 9) (Samples.audioMessage "%%%") s)
    as (_ & H1 & H2 & H3 & H4); [left; reflexivity |].
  repeat split; assumption.
Defined.

(** ** The play button *)

(** X6.  With a usable session the button toggles: from [playing] it
    pauses (pause sent, gain ramped to 0, cursor reset), from [paused] or
    [stopped] it loads (output resumed, play sent, gain ramped to 1), and
    from [loading] it stops (stop sent, cursor reset). *)
Theorem play_button_toggles env s :
  usable s ->
  let r := handlePlayPause env s in
  match playbackState s with
  | playing =>
      playbackState (fst r) = paused /\ nextStartTime (fst r) = 0%Q /\
      snd r = [ SessionPause;
                GainRamp 0 (currentTime env) (currentTime env + (1 # 10)) ]
  | paused | stopped =>
      playbackState (fst r) = loading /\
      nextStartTime (fst r) = nextStartTime s /\
      snd r = [ ContextResume; SessionPlay;
                GainRamp 1 (currentTime env) (currentTime env + (1 # 10)) ]
  | loading =>
      playbackState (fst r) = stopped /\ nextStartTime (fst r) = 0%Q /\
      snd r = [ SessionStop ]
  end.
Proof.
  intros [Hs Hc] r. subst r. unfold handlePlayPause.
  destruct (playbackState s) eqn:E; rewrite ?Hc;
    unfold internalPauseAudio, internalLoadAudio, internalStopAudio;
    rewrite Hs, ?Hc; cbn; repeat split.
Qed.

Lemma play_button_toggles_witness :
  let r := handlePlayPause (Samples.envAt 0 5) (Samples.playingAt 7) in
  playbackState (fst r) = paused /\ nextStartTime (fst r) = 0%Q /\
  snd r = [ SessionPause; GainRamp 0 5 (5 + (1 # 10)) ].
Proof.
  exact (play_button_toggles (Samples.envAt 0 5) (Samples.playingAt 7)
           (conj eq_refl eq_refl)).
Defined.

(** X4.  Pressing play while the connection is flagged, when the new
    connection is refused: the failure is caught, the element is stopped
    and stays flagged, the notice carries at most the first 100 characters
    of the message, and neither play nor any prompt set is sent. *)
Theorem play_with_refused_connection env message s :
  playbackState s = paused \/ playbackState s = stopped ->
  connectionError s = true ->
  connect env = RejectedWith message ->
  let r := handlePlayPause env s in
  playbackState (fst r) = stopped /\
  connectionError (fst r) = true /\
  session (fst r) = session s /\
  toasts (snd r) =
    [("Failed to connect to Lyria: " ++ substring 0 100 message)%string] /\
  thrown (snd r) = [] /\
  sentPrompts (snd r) = [] /\
  ~ In SessionPlay (snd r).
Proof.
  intros Hst Hc Hrej r. subst r. unfold handlePlayPause, connectToSession.
  rewrite Hrej. destruct Hst as [-> | ->]; rewrite Hc; cbn;
    repeat split;
    try (intros H; repeat (destruct H as [H | H]; [discriminate H |]);
         exact H).
Qed.

Lemma play_with_refused_connection_witness :
  let env := {| dateNow := 5000; currentTime := 3;
                connect := RejectedWith "network down";
                setWeightedPrompts := Resolved;
                setMusicGenerationConfig := Resolved;
                mcp := None |} in
  let r := handlePlayPause env (initial [] 0) in
  playbackState (fst r) = stopped /\
  toasts (snd r) = ["Failed to connect to Lyria: network down"].
Proof.
  intros env r.
  destruct (play_with_refused_connection env "network down" (initial [] 0))
    as (H1 & _ & _ & H2 & _); [right; reflexivity | reflexivity | reflexivity |].
  split; assumption.
Defined.



(** ** The user prompts *)

Lemma map_get_set_eq {V} k (v : V) m : map_get k (map_set k v m) = Some v.
Proof.
  induction m as [| [k' v'] m IH]; cbn.
  - rewrite String.eqb_refl. reflexivity.
  - destruct (String.eqb k k') eqn:E; cbn; rewrite ?String.eqb_refl, ?E; auto.
Qed.

Lemma map_get_set_ne {V} k k' (v : V) m :
  k <> k' -> map_get k' (map_set k v m) = map_get k' m.
Proof.
  intros Hne. induction m as [| [k0 v0] m IH]; cbn.
  - apply String.eqb_neq in Hne. rewrite String.eqb_sym, Hne. reflexivity.
  - destruct (String.eqb k k0) eqn:E; cbn.
    + apply String.eqb_eq in E. subst k0.
      apply String.eqb_neq in Hne. rewrite String.eqb_sym, Hne. reflexivity.
    + rewrite IH. reflexivity.
Qed.

Lemma map_set_absent {V} k (v : V) m :
  map_get k m = None -> map_set k v m = m ++ [(k, v)].
Proof.
  induction m as [| [k' v'] m IH]; cbn; [reflexivity |].
  destruct (String.eqb k k'); [discriminate |].
  intros H. rewrite IH by exact H. reflexivity.
Qed.

Lemma map_set_keys {V} k (v p : V) m :
  map_get k m = Some p -> map fst (map_set k v m) = map fst m.
Proof.
  induction m as [| [k' v'] m IH]; cbn; [discriminate |].
  destruct (String.eqb k k') eqn:E; cbn.
  - apply String.eqb_eq in E. subst k'. reflexivity.
  - intros H. rewrite IH by exact H. reflexivity.
Qed.

Lemma map_set_values {V} k (v : V) m : In v (map_values (map_set k v m)).
Proof.
  unfold map_values. induction m as [| [k' v'] m IH]; cbn; [auto |].
  destruct (String.eqb k k'); cbn; auto.
Qed.

Lemma map_get_keys {V} k (m : list (string * V)) :
  map_get k m = None -> ~ In k (map fst m).
Proof.
  induction m as [| [k' v'] m IH]; cbn; [auto |].
  destruct (String.eqb k k') eqn:E; [discriminate |].
  apply String.eqb_neq in E. intros H [Heq | Hin]; [congruence | exact (IH H Hin)].
Qed.

Lemma map_get_delete_eq {V} k (m : list (string * V)) :
  List.NoDup (map fst m) -> map_get k (map_delete k m) = None.
Proof.
  induction m as [| [k' v'] m IH]; cbn; [reflexivity |].
  intros Hnd. inversion Hnd as [| ? ? Hnot Hnd']; subst.
  destruct (String.eqb k k') eqn:E; cbn.
  - apply String.eqb_eq in E. subst k'.
    destruct (map_get k m) eqn:G; [| reflexivity].
    exfalso. apply Hnot. clear -G.
    induction m as [| [k0 v0] m IH]; cbn in *; [discriminate |].
    destruct (String.eqb k k0) eqn:E.
    + apply String.eqb_eq in E. left. symmetry. exact E.
    + right. apply IH, G.
  - rewrite E. apply IH, Hnd'.
Qed.

Lemma map_get_delete_ne {V} k k' (m : list (string * V)) :
  k <> k' -> map_get k' (map_delete k m) = map_get k' m.
Proof.
  intros Hne. induction m as [| [k0 v0] m IH]; cbn; [reflexivity |].
  destruct (String.eqb k k0) eqn:E; cbn.
  - apply String.eqb_eq in E. subst k0.
    apply String.eqb_neq in Hne. rewrite String.eqb_sym, Hne. reflexivity.
  - rewrite IH. reflexivity.
Qed.

(** A call on the prompt channel touches the transport at most, never the
    prompts. *)
Lemma setSessionPrompts_fields env prompts s :
  let s' := fst (setSessionPrompts env prompts s) in
  userPrompts s' = userPrompts s /\
  nextUserPromptId s' = nextUserPromptId s /\
  filteredPrompts s' = filteredPrompts s /\
  currentLyriaPrompts s' = currentLyriaPrompts s /\
  settingsController s' = settingsController s.
Proof.
  unfold setSessionPrompts, Throttle.throttle, setSessionPrompts_func.
  destruct (200 <=? dateNow env - setSessionPrompts_lastCall s)%Z;
    [| cbn; auto 6].
  destruct (negb (session s) || connectionError s) eqn:G; [cbn; auto 6 |].
  unfold andThen, emit, skip, dispatchToast, emit, internalPauseAudio.
  destruct (setWeightedPrompts env); cbn; [auto 6 |].
  rewrite G. cbn. auto 6.
Qed.

Lemma setSessionPrompts_open env prompts s :
  usable s ->
  (200 <= dateNow env - setSessionPrompts_lastCall s)%Z ->
  sentPrompts (snd (setSessionPrompts env prompts s)) = [allPrompts prompts s].
Proof.
  intros [Hs Hc] Hopen. unfold setSessionPrompts.
  rewrite throttle_fired by exact Hopen. cbn [snd].
  apply setSessionPrompts_func_sent; assumption.
Qed.

(** An edit or a removal that names a prompt that is not in the map does
    nothing at all. *)
Lemma unknown_prompt env detail promptIdToRemove s :
  map_get (promptId detail) (userPrompts s) = None ->
  map_get promptIdToRemove (userPrompts s) = None ->
  handleUserPromptChanged env detail s = (s, []) /\
  handleUserPromptRemoved env promptIdToRemove s = (s, []).
Proof.
  intros H1 H2. unfold handleUserPromptChanged, handleUserPromptRemoved.
  rewrite H1, H2. split; reflexivity.
Qed.

(** X7.  Events that name a prompt after it has been removed are ignored:
    once [handleUserPromptRemoved] has run for an id, an edit or a second
    removal for that id changes no field, sends nothing and stores
    nothing. *)
Theorem stale_prompt_events_are_ignored env env2 detail promptIdToRemove s :
  unique_keys (userPrompts s) ->
  promptId detail = promptIdToRemove ->
  let s' := fst (handleUserPromptRemoved env promptIdToRemove s) in
  handleUserPromptChanged env2 detail s' = (s', []) /\
  handleUserPromptRemoved env2 promptIdToRemove s' = (s', []).
Proof.
  intros Hu Hid s'.
  assert (Hgone : map_get promptIdToRemove (userPrompts s') = None).
  { subst s'. unfold handleUserPromptRemoved.
    destruct (map_get promptIdToRemove (userPrompts s)) as [prompt |] eqn:G;
      [| exact G].
    rewrite !andThen_fst. cbn [modify fst].
    set (s1 := set_userPrompts _ s).
    destruct (setSessionPrompts_fields env (currentLyriaPrompts s1) s1)
      as (H & _).
    unfold storeUserPrompts, emit. cbn [fst]. cbn zeta in H. rewrite H.
    apply map_get_delete_eq, Hu. }
  apply unknown_prompt; [rewrite Hid |]; exact Hgone.
Qed.

Lemma stale_prompt_events_are_ignored_witness :
  let s' := fst (handleUserPromptRemoved (Samples.envAt 1000 0) "userprompt-0"
                   Samples.jamming) in
  handleUserPromptChanged (Samples.envAt 1050 0)
    {| promptId := "userprompt-0"; color := "#9900ff"; text := "Thrash";
       weight := 2; isTextEditable := Some true |} s' = (s', []).
Proof.
  intros s'.
  refine (proj1 (stale_prompt_events_are_ignored (Samples.envAt 1000 0)
                   (Samples.envAt 1050 0)
                   {| promptId := "userprompt-0"; color := "#9900ff";
                      text := "Thrash"; weight := 2;
                      isTextEditable := Some true |}
                   "userprompt-0" Samples.jamming _ eq_refl)).
  repeat constructor. intros [].
Defined.

Lemma userWPs_ext s s' :
  userPrompts s' = userPrompts s -> filteredPrompts s' = filteredPrompts s ->
  userWPs s' = userWPs s.
Proof. intros H1 H2. unfold userWPs. rewrite H1, H2. reflexivity. Qed.

Lemma double_small z : (0 <= z <= 2 ^ 53)%Z -> double z = z.
Proof.
  intros [H0 H1]. unfold double.
  destruct (Z.eq_dec z (2 ^ 53)%Z) as [-> | Hne]; [reflexivity |].
  replace (Z.log2 (Z.abs z) - 52 <=? 0)%Z with true; [reflexivity |].
  symmetry. apply Z.leb_le. rewrite Z.abs_eq by exact H0.
  destruct (Z.eq_dec z 0%Z) as [-> | Hz]; [cbn; lia |].
  assert (Z.log2 z < 53)%Z; [| lia].
  apply Z.log2_lt_pow2; lia.
Qed.

(** At 2^53 the counter stays where it is: the sum is rounded back. *)
Lemma double_stops : double (2 ^ 53 + 1) = (2 ^ 53)%Z.
Proof. reflexivity. Qed.

(** X8.  Adding a prompt under an id that is not in use appends it, at
    weight 0, stores the map, and leaves what the service hears
    unchanged: a prompt set sent by the handler is the one the element
    would have sent before.  The counter becomes the double nearest to
    its successor; while it is below 2^53 that is the successor, and the
    following prompt gets a different key. *)
Theorem added_prompt_is_silent env r newColor s :
  let newId := ("userprompt-" ++ pretty (nextUserPromptId s))%string in
  let res := handleAddUserPrompt env r newColor s in
  map_get newId (userPrompts s) = None ->
  userPrompts (fst res) =
    userPrompts s ++
      [ (newId, {| promptId := newId; color := newColor;
                   text := nth r PROMPT_TEXT_PRESETS "";
                   weight := 0; isTextEditable := Some true |}) ] /\
  nextUserPromptId (fst res) = double (nextUserPromptId s + 1) /\
  ((0 <= nextUserPromptId s < 2 ^ 53)%Z ->
   nextUserPromptId (fst res) = (nextUserPromptId s + 1)%Z /\
   ("userprompt-" ++ pretty (nextUserPromptId (fst res)))%string <> newId) /\
  (forall sent, In sent (sentPrompts (snd res)) ->
                sent = allPrompts (currentLyriaPrompts s) s) /\
  In (StoreUserPrompts (userPrompts (fst res))) (snd res).
Proof.
  intros newId res Hfresh. subst res. unfold handleAddUserPrompt.
  fold newId. rewrite !andThen_fst, !andThen_snd. cbn [modify fst snd app].
  rewrite (map_set_absent _ _ _ Hfresh).
  set (new := {| promptId := newId; color := newColor;
                 text := nth r PROMPT_TEXT_PRESETS "";
                 weight := 0; isTextEditable := Some true |}).
  set (s1 := set_userPrompts (userPrompts s ++ [(newId, new)])
               (set_nextUserPromptId (double (nextUserPromptId s + 1)) s)).
  destruct (setSessionPrompts_fields env (currentLyriaPrompts s1) s1)
    as (Hu & Hn & _).
  unfold storeUserPrompts, emit. cbn [fst snd]. rewrite Hu, Hn.
  split; [reflexivity |]. split; [reflexivity |]. split; [| split].
  - intros Hb. subst s1. cbn [nextUserPromptId set_userPrompts
                                set_nextUserPromptId].
    rewrite double_small by lia. split; [reflexivity |].
    subst newId. intros Heq. apply String.app_inj in Heq.
    apply pretty_Z_inj in Heq. lia.
  - intros sent Hin. rewrite sentPrompts_app in Hin.
    apply in_app_or in Hin as [Hin | []].
    apply setSessionPrompts_sent in Hin. subst sent.
    unfold allPrompts. replace (userWPs s1) with (userWPs s); [reflexivity |].
    unfold userWPs, s1, map_values. cbn. rewrite List.map_app, List.filter_app, List.map_app.
    cbn. rewrite app_nil_r. reflexivity.
  - apply in_or_app. right. left. reflexivity.
Qed.

Lemma added_prompt_is_silent_witness :
  let res := handleAddUserPrompt (Samples.envAt 1000 0) 5 "#5200ff"
               Samples.jamming in
  nextUserPromptId (fst res) = 2%Z /\
  ("userprompt-" ++ pretty (nextUserPromptId (fst res)))%string
    <> "userprompt-1" /\
  In (StoreUserPrompts (userPrompts (fst res))) (snd res).
Proof.
  intros res.
  destruct (added_prompt_is_silent (Samples.envAt 1000 0) 5 "#5200ff"
              Samples.jamming eq_refl) as (_ & _ & H3 & _ & H5).
  destruct H3 as [H3 H4]; [cbn; lia |].
  split; [exact H3 |]. split; [exact H4 | exact H5].
Defined.

Lemma map_get_delete_None {V} k k' (m : list (string * V)) :
  map_get k' m = None -> map_get k' (map_delete k m) = None.
Proof.
  induction m as [| [k0 v0] m IH]; cbn; [reflexivity |].
  destruct (String.eqb k' k0) eqn:E'; [discriminate |].
  intros H. destruct (String.eqb k k0); cbn; [exact H |].
  rewrite E'. apply IH, H.
Qed.

Lemma map_set_keys_in {V} k k' (v : V) (m : list (string * V)) :
  k <> k' -> In k' (map fst (map_set k v m)) -> In k' (map fst m).
Proof.
  intros Hne. induction m as [| [k1 v1] m IH]; cbn.
  - intros [H | []]. contradiction.
  - destruct (String.eqb k k1); cbn.
    + intros [H | H]; [contradiction | right; exact H].
    + intros [H | H]; [left; exact H | right; apply IH, H].
Qed.

Lemma map_set_unique (k : string) (v : Prompt) m :
  unique_keys m -> unique_keys (map_set k v m).
Proof.
  unfold unique_keys. induction m as [| [k0 v0] m IH]; cbn.
  - intros _. constructor; [intros [] | constructor].
  - intros Hnd. inversion Hnd as [| ? ? Hnot Hnd']; subst.
    destruct (String.eqb k k0) eqn:E; cbn.
    + apply String.eqb_eq in E. subst k0. exact Hnd.
    + constructor; [| apply IH, Hnd'].
      intros Hin. apply Hnot. apply String.eqb_neq in E.
      exact (map_set_keys_in _ _ _ _ E Hin).
Qed.

Lemma map_delete_keys {V} k k' (m : list (string * V)) :
  In k' (map fst (map_delete k m)) -> In k' (map fst m).
Proof.
  induction m as [| [k0 v0] m IH]; cbn; [auto |].
  destruct (String.eqb k k0); cbn; [auto |].
  intros [-> | H]; [left; reflexivity | right; apply IH, H].
Qed.

Lemma map_delete_unique k (m : list (string * Prompt)) :
  unique_keys m -> unique_keys (map_delete k m).
Proof.
  unfold unique_keys. induction m as [| [k0 v0] m IH]; cbn; [auto |].
  intros Hnd. inversion Hnd as [| ? ? Hnot Hnd']; subst.
  destruct (String.eqb k k0); cbn; [exact Hnd' |].
  constructor; [| apply IH, Hnd'].
  intros Hin. apply Hnot. exact (map_delete_keys _ _ _ Hin).
Qed.

Lemma map_delete_values {V} k (v : V) (m : list (string * V)) :
  In v (map_values (map_delete k m)) -> In v (map_values m).
Proof.
  unfold map_values. induction m as [| [k0 v0] m IH]; cbn; [auto |].
  destruct (String.eqb k k0); cbn; [auto |].
  intros [-> | H]; [left; reflexivity | right; apply IH, H].
Qed.

(** *** The ids of the prompts *)

Ltac numbered_direct :=
  let s := fresh "s" in
  let H := fresh "H" in
  intros s H; split; [| apply Forall_sends_True];
  unfold numbered, fresh_ids in *;
  destruct s as [? ? ses nst st ? ce ? ? ? ?];
  destruct ses, ce, st; cbn in *;
  repeat match goal with
         | |- context [if ?c then _ else _] => destruct c; cbn in *
         end;
  exact H.

Lemma numbered_resend env (s0 s : PromptDj) :
  userPrompts s = userPrompts s0 -> nextUserPromptId s = nextUserPromptId s0 ->
  let s' := fst (((fun s => setSessionPrompts env (currentLyriaPrompts s) s) >>>
                  storeUserPrompts) s) in
  userPrompts s' = userPrompts s0 /\ nextUserPromptId s' = nextUserPromptId s0.
Proof.
  intros Hu Hn. cbn zeta. rewrite andThen_fst.
  unfold storeUserPrompts, emit. cbn [fst].
  destruct (setSessionPrompts_fields env (currentLyriaPrompts s) s)
    as (Hu' & Hn' & _).
  rewrite Hu', Hn'. split; assumption.
Qed.

Lemma numbered_handleUserPromptChanged n env detail :
  keeps (numbered n) (sends (fun _ => True))
    (handleUserPromptChanged env detail).
Proof.
  intros s (Hf & Hu & Hc). split; [| apply Forall_sends_True].
  unfold handleUserPromptChanged.
  destruct (map_get (promptId detail) (userPrompts s)) as [prompt |] eqn:G;
    [| repeat split; assumption].
  rewrite andThen_fst. cbn [modify fst].
  set (m := map_set _ _ _).
  destruct (numbered_resend env (set_userPrompts m s) (set_userPrompts m s)
              eq_refl eq_refl) as [H1 H2].
  cbn zeta in H1, H2. unfold numbered, fresh_ids. rewrite H1, H2. cbn.
  split; [| split; [apply map_set_unique, Hu | exact Hc]].
  intros k Hk. subst m. rewrite map_get_set_ne; [apply Hf, Hk |].
  intros Heq. specialize (Hf k Hk). rewrite <- Heq, G in Hf. discriminate.
Qed.

(** Below 2^53 an added prompt moves the counter on by one, past the key
    it has just used. *)
Lemma numbered_handleAddUserPrompt n env r newColor s :
  (0 <= n < 2 ^ 53)%Z -> numbered n s ->
  numbered (n + 1) (fst (handleAddUserPrompt env r newColor s)).
Proof.
  intros Hb (Hf & Hu & Hc).
  unfold handleAddUserPrompt.
  rewrite !andThen_fst. cbn [modify fst].
  set (m := map_set _ _ _).
  set (s1 := set_userPrompts m _).
  pose proof (numbered_resend env s1 s1 eq_refl eq_refl) as H.
  cbn zeta in H. rewrite andThen_fst in H. destruct H as [H1 H2].
  unfold numbered, fresh_ids. rewrite H1, H2. subst s1. cbn.
  rewrite Hc, double_small by lia.
  split; [| split; [apply map_set_unique, Hu | reflexivity]].
  intros k Hk. subst m. rewrite map_get_set_ne; [apply Hf; lia |].
  intros Heq. apply String.app_inj in Heq.
  apply pretty_Z_inj in Heq. lia.
Qed.

Lemma numbered_handleUserPromptRemoved n env promptIdToRemove :
  keeps (numbered n) (sends (fun _ => True))
    (handleUserPromptRemoved env promptIdToRemove).
Proof.
  intros s (Hf & Hu & Hc). split; [| apply Forall_sends_True].
  unfold handleUserPromptRemoved.
  destruct (map_get promptIdToRemove (userPrompts s)) as [prompt |] eqn:G;
    [| repeat split; assumption].
  rewrite andThen_fst. cbn [modify fst].
  set (m := map_delete _ _).
  destruct (numbered_resend env (set_userPrompts m s) (set_userPrompts m s)
              eq_refl eq_refl) as [H1 H2].
  cbn zeta in H1, H2. unfold numbered, fresh_ids. rewrite H1, H2. cbn.
  split; [| split; [apply map_delete_unique, Hu | exact Hc]].
  intros k Hk. subst m. apply map_get_delete_None, Hf, Hk.
Qed.

(** Every handler but the one that adds a prompt leaves the map's keys
    numbered as they were, and the counter where it was. *)
Lemma numbered_handle decodeAudioData NumberOfString n env ev :
  is_add ev = false ->
  keeps (numbered n) (sends (fun _ => True))
    (handle decodeAudioData NumberOfString env ev).
Proof.
  intros Hadd.
  assert (Hp : forall env, keeps (numbered n) (sends (fun _ => True))
                             (internalPauseAudio env)).
  { intros env'. unfold internalPauseAudio, andThen, emit, modify, skip.
    numbered_direct. }
  assert (Hl : forall env, keeps (numbered n) (sends (fun _ => True))
                             (internalLoadAudio env)).
  { intros env'.
    unfold internalLoadAudio, andThen, emit, modify, skip, dispatchToast, emit.
    numbered_direct. }
  assert (Hs : keeps (numbered n) (sends (fun _ => True)) internalStopAudio).
  { unfold internalStopAudio, andThen, emit, modify, skip. numbered_direct. }
  assert (Hc : forall env, keeps (numbered n) (sends (fun _ => True))
                             (connectToSession env)).
  { intros env'.
    unfold connectToSession, andThen, emit, modify, skip, dispatchToast, emit.
    destruct (connect env'); numbered_direct. }
  assert (Ht : forall env, keeps (numbered n) (sends (fun _ => True))
                             (timeout env LoadingToPlaying)).
  { intros env'. unfold timeout, modify, skip. numbered_direct. }
  destruct ev; cbn [handle]; try discriminate Hadd;
    [ apply I_firstRender
    | apply I_firstUpdated with (C := fun _ => True)
    |
    | unfold onerror, internalStopAudio, andThen, emit, modify, skip,
        dispatchToast, emit; numbered_direct
    | unfold onclose, internalStopAudio, andThen, emit, modify, skip,
        dispatchToast, emit; destruct wasClean; numbered_direct
    | apply I_timeout
    | apply I_updateLyriaPrompts with (C := fun _ => True)
    | apply I_playAudio with (C := fun _ => True)
    | apply I_pauseAudio
    | apply I_handlePlayPause with (C := fun _ => True)
    | apply I_handleReset
    | apply numbered_handleUserPromptChanged
    | apply numbered_handleUserPromptRemoved
    | apply I_settingsInput ];
    try assumption; try exact Logic.I; auto.
  unfold onmessage, scheduleChunk, andThen, emit, modify, skip, dispatchToast,
    emit.
  destruct (setupComplete e), (filteredPrompt e),
    (audioChunks e) as [[| chunk chunks] |];
    try destruct (decodeAudioData (data chunk)); numbered_direct.
Qed.

Lemma numbered_run decodeAudioData NumberOfString l : forall n s,
  (0 <= n)%Z -> (n + adds l <= 2 ^ 53)%Z -> numbered n s ->
  numbered (n + adds l) (fst (run decodeAudioData NumberOfString l s)).
Proof.
  assert (Hadds : forall l, (0 <= adds l)%Z).
  { intros l'. induction l' as [| [env ev] l' IH]; cbn [adds]; [lia |].
    destruct (is_add ev); lia. }
  induction l as [| [env ev] l IH]; intros n s H0 Hb Hn; cbn [run adds] in *.
  - unfold skip. cbn. replace (n + 0)%Z with n by lia. exact Hn.
  - rewrite andThen_fst. specialize (Hadds l).
    destruct (is_add ev) eqn:E.
    + replace (n + (1 + adds l))%Z with (n + 1 + adds l)%Z by lia.
      apply IH; [lia | lia |].
      destruct ev; try discriminate E. cbn [handle].
      apply numbered_handleAddUserPrompt; [lia | exact Hn].
    + replace (n + (0 + adds l))%Z with (n + adds l)%Z by lia.
      apply IH; [lia | lia |].
      apply (numbered_handle decodeAudioData NumberOfString n env ev E s Hn).
Qed.

(** X9.  The id of the next prompt is never in use, as long as the
    counter has not reached 2^53.  If the counter is ahead of every
    numbered key of the map (as the constructor leaves it), the map holds
    each key once, and the prompts a run of handlers adds do not take the
    counter beyond 2^53, then after the run the counter has moved on by
    the number of prompts added, it is still ahead of every numbered key,
    and the map still holds each key once: the prompt a later add creates
    never replaces one that is there. *)
Theorem prompt_ids_stay_fresh decodeAudioData NumberOfString l s :
  fresh_ids s -> unique_keys (userPrompts s) ->
  (0 <= nextUserPromptId s)%Z ->
  (nextUserPromptId s + adds l <= 2 ^ 53)%Z ->
  let s' := fst (run decodeAudioData NumberOfString l s) in
  fresh_ids s' /\ unique_keys (userPrompts s') /\
  nextUserPromptId s' = (nextUserPromptId s + adds l)%Z /\
  map_get ("userprompt-" ++ pretty (nextUserPromptId s'))%string
    (userPrompts s') = None.
Proof.
  intros Hf Hu H0 Hb s'.
  assert (H : numbered (nextUserPromptId s + adds l) s').
  { apply numbered_run; [exact H0 | exact Hb |].
    split; [exact Hf |]. split; [exact Hu | reflexivity]. }
  destruct H as (H1 & H2 & H3).
  split; [exact H1 |]. split; [exact H2 |]. split; [exact H3 |].
  apply H1. lia.
Qed.

Lemma prompt_ids_stay_fresh_witness :
  let env := Samples.envAt 1000 0 in
  let s' := fst (run Samples.decodeAudioData Samples.NumberOfString
                   [ (env, AddUserPrompt 5 "#9900ff");
                     (env, AddUserPrompt 11 "#5200ff");
                     (env, UserPromptRemoved "userprompt-1");
                     (env, AddUserPrompt 0 "#5200ff") ]
                   Samples.connected) in
  nextUserPromptId s' = 3%Z /\
  map_get ("userprompt-" ++ pretty (nextUserPromptId s'))%string
    (userPrompts s') = None.
Proof.
  intros env s'.
  refine (proj2 (proj2 (prompt_ids_stay_fresh Samples.decodeAudioData
                          Samples.NumberOfString _ Samples.connected
                          _ _ _ _))).
  - intros n _. reflexivity.
  - constructor.
  - cbn. lia.
  - cbn. lia.
Defined.

(** *** Edits and removals *)

Lemma userWPs_in p s :
  In p (map_values (userPrompts s)) ->
  (0 < weight p)%Q -> text p ∉ filteredPrompts s ->
  In {| wp_text := text p; wp_weight := weight p |} (userWPs s).
Proof.
  intros Hin Hw Hf. unfold userWPs.
  apply in_map_iff. exists p. split; [reflexivity |].
  apply filter_In. split; [exact Hin |].
  apply andb_true_iff. split; [apply Qltb_lt, Hw |].
  apply negb_true_iff, bool_decide_eq_false. exact Hf.
Qed.

Lemma allPrompts_user prompts wp s :
  In wp (userWPs s) -> In wp (allPrompts prompts s).
Proof.
  intros Hin. unfold allPrompts.
  destruct (Nat.eqb (length (prompts ++ userWPs s)) 0);
    [apply in_or_app; left |]; apply in_or_app; right; exact Hin.
Qed.

(** Where the entries of a prompt set come from. *)
Lemma allPrompts_origin prompts wp s :
  In wp (allPrompts prompts s) ->
  In wp prompts \/ wp = silence \/
  exists p, In p (map_values (userPrompts s)) /\
            wp = {| wp_text := text p; wp_weight := weight p |} /\
            (0 < weight p)%Q /\ text p ∉ filteredPrompts s.
Proof.
  intros H. apply in_allPrompts in H as [H | [H | H]]; auto.
  right. right. apply in_userWPs, H.
Qed.

(** X10.  An edit of a prompt that is in the map, with a usable session
    and the prompt channel open: the prompt takes the text, weight and
    colour of the event and keeps its id and its place; no other prompt
    changes; exactly one prompt set is sent, which has the edited prompt
    when its weight is positive and its text not filtered, and whose
    entries come from the agent, from the prompts of the map with a
    positive weight and an unfiltered text, or are the filler; and the map
    is stored. *)
Theorem edited_prompt_reaches_service env detail prompt s :
  usable s ->
  (200 <= dateNow env - setSessionPrompts_lastCall s)%Z ->
  map_get (promptId detail) (userPrompts s) = Some prompt ->
  let res := handleUserPromptChanged env detail s in
  let updatedPrompt :=
    {| promptId := promptId prompt; color := color detail;
       text := text detail; weight := weight detail;
       isTextEditable := isTextEditable detail |} in
  map_get (promptId detail) (userPrompts (fst res)) = Some updatedPrompt /\
  map fst (userPrompts (fst res)) = map fst (userPrompts s) /\
  (forall k, k <> promptId detail ->
             map_get k (userPrompts (fst res)) = map_get k (userPrompts s)) /\
  (exists sent,
      sentPrompts (snd res) = [sent] /\
      ((0 < weight detail)%Q -> text detail ∉ filteredPrompts s ->
       In {| wp_text := text detail; wp_weight := weight detail |} sent) /\
      (forall wp, In wp sent ->
         In wp (currentLyriaPrompts s) \/ wp = silence \/
         exists p, In p (map_values (userPrompts (fst res))) /\
                   wp = {| wp_text := text p; wp_weight := weight p |} /\
                   (0 < weight p)%Q /\ text p ∉ filteredPrompts s)) /\
  In (StoreUserPrompts (userPrompts (fst res))) (snd res).
Proof.
  intros Hus Hopen G res updatedPrompt. subst res.
  unfold handleUserPromptChanged. rewrite G. fold updatedPrompt.
  rewrite !andThen_fst, !andThen_snd. cbn [modify fst snd app].
  set (m := map_set (promptId detail) updatedPrompt (userPrompts s)).
  set (s1 := set_userPrompts m s).
  destruct (setSessionPrompts_fields env (currentLyriaPrompts s1) s1)
    as (Hu & _ & _ & _).
  unfold storeUserPrompts, emit. cbn [fst snd]. rewrite Hu.
  change (userPrompts s1) with m.
  split; [apply map_get_set_eq |].
  split; [exact (map_set_keys _ _ _ _ G) |].
  split; [intros k Hk; apply map_get_set_ne; congruence |].
  split; [| apply in_or_app; right; left; reflexivity].
  exists (allPrompts (currentLyriaPrompts s) s1).
  rewrite sentPrompts_app. cbn [sentPrompts]. rewrite app_nil_r.
  split; [| split].
  - apply (setSessionPrompts_open env (currentLyriaPrompts s1) s1);
      [exact Hus | exact Hopen].
  - intros Hw Hf. apply allPrompts_user.
    apply (userWPs_in updatedPrompt s1); [apply map_set_values | exact Hw |
                                          exact Hf].
  - intros wp Hin. exact (allPrompts_origin _ _ s1 Hin).
Qed.

Lemma edited_prompt_reaches_service_witness :
  let res := handleUserPromptChanged (Samples.envAt 1000 0)
               {| promptId := "userprompt-0"; color := "#9900ff";
                  text := "Neo Soul"; weight := 3 # 2;
                  isTextEditable := Some true |} Samples.jamming in
  exists sent, sentPrompts (snd res) = [sent] /\
               In {| wp_text := "Neo Soul"; wp_weight := 3 # 2 |} sent.
Proof.
  intros res.
  destruct (edited_prompt_reaches_service (Samples.envAt 1000 0)
              {| promptId := "userprompt-0"; color := "#9900ff";
                 text := "Neo Soul"; weight := 3 # 2;
                 isTextEditable := Some true |} Samples.funk Samples.jamming)
    as (_ & _ & _ & (sent & H1 & H2 & _) & _);
    [split; reflexivity | vm_compute; discriminate | reflexivity |].
  exists sent. split; [exact H1 |]. apply H2; [reflexivity |].
  vm_compute. intros H. discriminate H.
Defined.

(** X11.  The removal of a prompt that is in the map, with a usable
    session and the prompt channel open: the prompt is gone, no other
    prompt changes, the counter stays where it is (the id is not given
    again), exactly one prompt set is sent, whose entries come from the
    agent, from the prompts that are left, or are the filler, and the map
    is stored. *)
Theorem removed_prompt_is_gone env promptIdToRemove prompt s :
  usable s ->
  (200 <= dateNow env - setSessionPrompts_lastCall s)%Z ->
  unique_keys (userPrompts s) ->
  map_get promptIdToRemove (userPrompts s) = Some prompt ->
  let res := handleUserPromptRemoved env promptIdToRemove s in
  map_get promptIdToRemove (userPrompts (fst res)) = None /\
  (forall k, k <> promptIdToRemove ->
             map_get k (userPrompts (fst res)) = map_get k (userPrompts s)) /\
  nextUserPromptId (fst res) = nextUserPromptId s /\
  (exists sent,
      sentPrompts (snd res) = [sent] /\
      (forall wp, In wp sent ->
         In wp (currentLyriaPrompts s) \/ wp = silence \/
         exists p, In p (map_values (userPrompts (fst res))) /\
                   wp = {| wp_text := text p; wp_weight := weight p |} /\
                   (0 < weight p)%Q /\ text p ∉ filteredPrompts s)) /\
  In (StoreUserPrompts (userPrompts (fst res))) (snd res).
Proof.
  intros Hus Hopen Hnd G res. subst res.
  unfold handleUserPromptRemoved. rewrite G.
  rewrite !andThen_fst, !andThen_snd. cbn [modify fst snd app].
  set (m := map_delete promptIdToRemove (userPrompts s)).
  set (s1 := set_userPrompts m s).
  destruct (setSessionPrompts_fields env (currentLyriaPrompts s1) s1)
    as (Hu & Hn & _).
  unfold storeUserPrompts, emit. cbn [fst snd]. rewrite Hu, Hn.
  change (userPrompts s1) with m.
  split; [apply map_get_delete_eq, Hnd |].
  split; [intros k Hk; apply map_get_delete_ne; congruence |].
  split; [reflexivity |].
  split; [| apply in_or_app; right; left; reflexivity].
  exists (allPrompts (currentLyriaPrompts s) s1).
  rewrite sentPrompts_app. cbn [sentPrompts]. rewrite app_nil_r.
  split.
  - apply (setSessionPrompts_open env (currentLyriaPrompts s1) s1);
      [exact Hus | exact Hopen].
  - intros wp Hin. exact (allPrompts_origin _ _ s1 Hin).
Qed.

Lemma removed_prompt_is_gone_witness :
  let res := handleUserPromptRemoved (Samples.envAt 1000 0) "userprompt-0"
               Samples.jamming in
  map_get "userprompt-0" (userPrompts (fst res)) = None /\
  nextUserPromptId (fst res) = 1%Z.
Proof.
  intros res.
  destruct (removed_prompt_is_gone (Samples.envAt 1000 0) "userprompt-0"
              Samples.funk Samples.jamming)
    as (H1 & _ & H3 & _ & _);
    [split; reflexivity | vm_compute; discriminate
    | repeat constructor; intros [] | reflexivity |].
  split; [exact H1 | exact H3].
Defined.

(** ** Reset *)

Lemma internalPauseAudio_usable env s :
  usable s ->
  internalPauseAudio env s =
    (set_nextStartTime 0 (set_playbackState paused s),
     [ SessionPause;
       GainRamp 0 (currentTime env) (currentTime env + (1 # 10)) ]).
Proof.
  intros [Hs Hc]. unfold internalPauseAudio. rewrite Hs, Hc. reflexivity.
Qed.


Lemma updateLyriaConfig_open env config s :
  usable s ->
  (200 <= dateNow env - updateLyriaConfig_lastCall s)%Z ->
  updateLyriaConfig env config s =
    (set_updateLyriaConfig_lastCall (dateNow env) s,
     SetMusicGenerationConfig config :: configNotice env).
Proof.
  intros [Hs Hc] Hopen. unfold updateLyriaConfig.
  rewrite throttle_fired by exact Hopen.
  unfold updateLyriaConfig_func, configNotice. rewrite Hs, Hc. cbn [negb orb].
  unfold andThen, emit, skip, dispatchToast, emit.
  destruct (setMusicGenerationConfig env); reflexivity.
Qed.




(** ** The agent's output and the settings *)

Lemma setSessionPrompts_config_side env prompts s :
  let r := setSessionPrompts env prompts s in
  settingsController (fst r) = settingsController s /\
  updateLyriaConfig_lastCall (fst r) = updateLyriaConfig_lastCall s /\
  currentLyriaPrompts (fst r) = currentLyriaPrompts s /\
  session (fst r) = session s /\
  connectionError (fst r) = connectionError s /\
  sentConfigs (snd r) = [].
Proof.
  unfold setSessionPrompts, Throttle.throttle, setSessionPrompts_func.
  destruct (200 <=? dateNow env - setSessionPrompts_lastCall s)%Z;
    [| cbn; auto 7].
  destruct (negb (session s) || connectionError s) eqn:G; [cbn; auto 7 |].
  unfold andThen, emit, skip, dispatchToast, emit, internalPauseAudio.
  destruct (setWeightedPrompts env); cbn; [auto 7 |].
  rewrite G. cbn. auto 7.
Qed.

Lemma updateLyriaConfig_settings env config s :
  settingsController (fst (updateLyriaConfig env config s)) =
    settingsController s /\
  currentLyriaPrompts (fst (updateLyriaConfig env config s)) =
    currentLyriaPrompts s /\
  forall c, In c (sentConfigs (snd (updateLyriaConfig env config s))) ->
            c = config.
Proof.
  unfold updateLyriaConfig, Throttle.throttle, updateLyriaConfig_func.
  destruct (200 <=? dateNow env - updateLyriaConfig_lastCall s)%Z;
    [| cbn; intuition].
  destruct (negb (session s) || connectionError s); [cbn; intuition |].
  unfold andThen, emit, skip, dispatchToast, emit.
  destruct (setMusicGenerationConfig env); cbn; intuition.
Qed.

(** [updateLyriaPrompts] with the settings rendered: the agent's prompts
    are kept, its configuration is merged into the form with
    [setConfig], and no other configuration is sent. *)
Lemma updateLyriaPrompts_settings env promptAndConfig config sc s :
  settingsController s = Some sc ->
  mcp_config promptAndConfig = Some config ->
  let r := updateLyriaPrompts env promptAndConfig s in
  settingsController (fst r) = Some (Settings.setConfig config sc) /\
  currentLyriaPrompts (fst r) = weightedPrompts promptAndConfig /\
  (forall c, In c (sentConfigs (snd r)) -> c = config) /\
  ((dateNow env - updateLyriaConfig_lastCall s < 200)%Z ->
   sentConfigs (snd r) = []).
Proof.
  intros Hsc Hcfg r. subst r. unfold updateLyriaPrompts.
  rewrite !andThen_fst, !andThen_snd, !sentConfigs_app.
  cbn [modify fst snd sentConfigs app].
  set (s1 := set_currentLyriaPrompts (weightedPrompts promptAndConfig) s).
  destruct (setSessionPrompts_config_side env
              (weightedPrompts promptAndConfig) s1)
    as (H1 & H2 & H3 & _ & _ & H6).
  cbn zeta in H1, H2, H3, H6. rewrite H6. cbn [app].
  set (s2 := fst (setSessionPrompts env (weightedPrompts promptAndConfig) s1))
    in *.
  change (settingsController s1) with (settingsController s) in H1.
  rewrite H1, Hsc, Hcfg.
  rewrite !andThen_fst, !andThen_snd, !sentConfigs_app.
  cbn [modify fst snd sentConfigs app].
  set (s3 := set_settingsController (Some (Settings.setConfig config sc)) s2).
  destruct (updateLyriaConfig_settings env config s3) as (K1 & K2 & K3).
  rewrite K1, K2. split; [reflexivity |]. split; [exact H3 |].
  split; [exact K3 |].
  intros Hclosed. unfold updateLyriaConfig.
  rewrite throttle_dropped; [reflexivity |].
  change (updateLyriaConfig_lastCall s3) with (updateLyriaConfig_lastCall s2).
  rewrite H2. exact Hclosed.
Qed.

(** X13.  A reset inside the dashboard, with a usable session, the
    settings rendered and the configuration channel open.  The form's
    defaults are sent (density and brightness on auto, temperature 1.1);
    the dashboard's listener then hands its own defaults to
    [updateLyriaPrompts], which writes them into the form (density 0.3 and
    brightness 0.5 in manual mode, temperature 0.8), but their send falls
    into the throttle window that the first send has just opened and is
    dropped.  So the only configuration the service receives is the
    form's, while the form shows the dashboard's. *)
Theorem reset_leaves_form_ahead_of_service env sc s :
  usable s ->
  settingsController s = Some sc ->
  (200 <= dateNow env - updateLyriaConfig_lastCall s)%Z ->
  let r := Dashboard.handleReset env s in
  let detail := snd (Settings.resetToDefaults sc) in
  sentConfigs (snd r) = [detail] /\
  Settings.get detail "density" = VUndefined /\
  Settings.get detail "brightness" = VUndefined /\
  Settings.get detail "temperature" = VNumber (11 # 10) /\
  currentLyriaPrompts (fst r) = weightedPrompts Dashboard.resetDefaults /\
  exists sc2,
    settingsController (fst r) = Some sc2 /\
    Settings.autoDensity sc2 = false /\
    Settings.get (Settings.config sc2) "density" = VNumber (3 # 10) /\
    Settings.autoBrightness sc2 = false /\
    Settings.get (Settings.config sc2) "brightness" = VNumber (5 # 10) /\
    Settings.get (Settings.config sc2) "temperature" = VNumber (8 # 10).
Proof.
  intros Hus Hsc Hopen r detail.
  pose (sc' := fst (Settings.resetToDefaults sc)).
  pose (s1 := set_updateLyriaConfig_lastCall (dateNow env)
                (set_settingsController (Some sc')
                   (set_nextStartTime 0 (set_playbackState paused s)))).
  pose (d := Dashboard.handleResetMcpMusicalDefaults env s1).
  assert (Hr : r =
    (fst d,
     [ SessionPause;
       GainRamp 0 (currentTime env) (currentTime env + (1 # 10));
       SessionResetContext;
       SetMusicGenerationConfig detail ] ++
     configNotice env ++
     [ UserLyriaConfigOverride detail; ResetMcpMusicalDefaults ] ++
     snd d ++ [ SetTimeout ResumeAfterReset 100 ])).
  { subst r. unfold Dashboard.handleReset. rewrite (proj2 Hus).
    unfold Dashboard.handleReset_rest, andThen at 1.
    rewrite (internalPauseAudio_usable env s Hus).
    cbn [session set_nextStartTime set_playbackState]. rewrite (proj1 Hus).
    cbn [negb]. unfold andThen at 1. unfold emit at 1.
    change (settingsController
              (set_nextStartTime 0 (set_playbackState paused s)))
      with (settingsController s).
    rewrite Hsc.
    subst d s1 sc' detail.
    destruct (Settings.resetToDefaults sc) as [sc' detail].
    cbn [fst snd]. unfold andThen at 1. unfold modify at 1.
    unfold handleSettingsChanged.
    unfold andThen at 1. unfold andThen at 1.
    rewrite updateLyriaConfig_open;
      [| destruct Hus; split; assumption | exact Hopen].
    unfold andThen, emit.
    destruct (Dashboard.handleResetMcpMusicalDefaults env _) as [s2 e2].
    cbn [fst snd app]. rewrite <- !app_assoc. reflexivity. }
  assert (Hd : settingsController (fst d) =
                 Some (Settings.setConfig
                         (<["temperature" := VNumber (8 # 10)]>
                            (<["topK" := VNumber 40]>
                               (<["guidance" := VNumber 3]>
                                  (<["density" := VNumber (3 # 10)]>
                                     (<["brightness" := VNumber (5 # 10)]>
                                        ∅))))) sc') /\
               currentLyriaPrompts (fst d) =
                 weightedPrompts Dashboard.resetDefaults /\
               sentConfigs (snd d) = []).
  { subst d. unfold Dashboard.handleResetMcpMusicalDefaults.
    rewrite andThen_fst, andThen_snd, sentConfigs_app.
    unfold dispatchToast, emit. cbn [fst snd sentConfigs app].
    destruct (updateLyriaPrompts_settings env Dashboard.resetDefaults _ sc' s1
                eq_refl eq_refl) as (H1 & H2 & _ & H4).
    cbn zeta in H1, H2, H4.
    split; [exact H1 |]. split; [exact H2 |].
    apply H4. cbn. lia. }
  destruct Hd as (Hd1 & Hd2 & Hd3).
  rewrite Hr. cbn [fst snd].
  split.
  { rewrite !sentConfigs_app, Hd3. cbn [sentConfigs app].
    unfold configNotice. destruct (setMusicGenerationConfig env); reflexivity. }
  split; [reflexivity |]. split; [reflexivity |]. split; [reflexivity |].
  split; [exact Hd2 |].
  eexists. split; [exact Hd1 |].
  subst sc'. unfold Settings.resetToDefaults. cbn [fst].
  repeat split; vm_compute; reflexivity.
Qed.

Lemma reset_leaves_form_ahead_of_service_witness :
  let r := Dashboard.handleReset (Samples.envAt 1000 3) Samples.jamming in
  sentConfigs (snd r) = [snd (Settings.resetToDefaults Settings.initial)].
Proof.
  intros r.
  destruct (reset_leaves_form_ahead_of_service (Samples.envAt 1000 3)
              Settings.initial Samples.jamming)
    as (H1 & _);
    [split; reflexivity | reflexivity | vm_compute; discriminate |].
  exact H1.
Defined.

(** ** Play and pause as the dashboard asks for them *)

(** X14.  [playAudio] and [pauseAudio], which the dashboard calls when the
    simulation starts and stops, can be repeated: with a usable session a
    second [playAudio] does nothing after the first, which has left the
    element loading or playing; a second [pauseAudio] does nothing after
    the first, which has left it paused or stopped. *)
Theorem play_and_pause_can_be_repeated env env2 s :
  usable s ->
  let played := fst (playAudio env s) in
  let halted := fst (pauseAudio env s) in
  playAudio env2 played = (played, []) /\
  (playbackState played = loading \/ playbackState played = playing) /\
  pauseAudio env2 halted = (halted, []) /\
  (playbackState halted = paused \/ playbackState halted = stopped).
Proof.
  intros [Hs Hc] played halted. subst played halted.
  unfold playAudio, pauseAudio, handlePlayPause, internalLoadAudio,
    internalPauseAudio.
  destruct (playbackState s) eqn:E; rewrite ?Hc, ?Hs; cbn; rewrite ?E;
    repeat split; auto.
Qed.

Lemma play_and_pause_can_be_repeated_witness :
  let played := fst (playAudio (Samples.envAt 0 0) Samples.connected) in
  playAudio (Samples.envAt 50 0) played = (played, []) /\
  playbackState played = loading.
Proof.
  intros played.
  destruct (play_and_pause_can_be_repeated (Samples.envAt 0 0)
              (Samples.envAt 50 0) Samples.connected)
    as (H1 & _); [split; reflexivity |].
  split; [exact H1 | reflexivity].
Defined.

(** ** What un-ticking auto restores *)

(** X15.  Un-ticking an auto box sends the value the form remembers for
    the field.  After a reset nothing is remembered and 0.5 is sent.  After
    the agent has set the field, the form is in manual mode with the
    agent's value, and ticking and un-ticking the box sends that value
    again. *)
Theorem unticking_auto_restores NumberOfString newConfig d b c :
  Settings.get newConfig "density" = VNumber d ->
  Settings.get newConfig "brightness" = VNumber b ->
  let change := Settings.handleInputChange NumberOfString in
  let fresh := fst (Settings.resetToDefaults c) in
  let fed := Settings.setConfig newConfig c in
  Settings.get (snd (change (Settings.checkbox "auto-density" false) fresh))
    "density" = VNumber (1 # 2) /\
  Settings.get (snd (change (Settings.checkbox "auto-brightness" false) fresh))
    "brightness" = VNumber (1 # 2) /\
  Settings.get (Settings.dispatchSettingsChange fed) "density" = VNumber d /\
  Settings.get (Settings.dispatchSettingsChange fed) "brightness" =
    VNumber b /\
  Settings.get
    (snd (change (Settings.checkbox "auto-density" false)
            (fst (change (Settings.checkbox "auto-density" true) fed))))
    "density" = VNumber d /\
  Settings.get
    (snd (change (Settings.checkbox "auto-brightness" false)
            (fst (change (Settings.checkbox "auto-brightness" true) fed))))
    "brightness" = VNumber b.
Proof.
  intros Hd Hb change fresh fed.
  assert (Fd : Settings.autoDensity fed = false /\
               Settings.lastDefinedDensity fed = VNumber d /\
               Settings.get (Settings.config fed) "density" = VNumber d).
  { subst fed. unfold Settings.setConfig. rewrite Hd, Hb. cbn.
    repeat split. unfold Settings.get in *. rewrite lookup_union.
    destruct (newConfig !! "density") as [v |] eqn:E; cbn in Hd;
      [| discriminate Hd].
    subst v. destruct (Settings.config c !! "density"); reflexivity. }
  assert (Fb : Settings.autoBrightness fed = false /\
               Settings.lastDefinedBrightness fed = VNumber b /\
               Settings.get (Settings.config fed) "brightness" = VNumber b).
  { subst fed. unfold Settings.setConfig. rewrite Hd, Hb. cbn.
    repeat split. unfold Settings.get in *. rewrite lookup_union.
    destruct (newConfig !! "brightness") as [v |] eqn:E; cbn in Hb;
      [| discriminate Hb].
    subst v. destruct (Settings.config c !! "brightness"); reflexivity. }
  destruct Fd as (Fd1 & Fd2 & Fd3). destruct Fb as (Fb1 & Fb2 & Fb3).
  split; [| split; [| split; [| split; [| split]]]].
  - subst change fresh. rewrite handleInputChange_dispatches, dispatch_density.
    rewrite density_manual. cbn. apply get_insert_eq.
  - subst change fresh.
    rewrite handleInputChange_dispatches, dispatch_brightness.
    rewrite brightness_manual. cbn. apply get_insert_eq.
  - rewrite dispatch_density, Fd1. exact Fd3.
  - rewrite dispatch_brightness, Fb1. exact Fb3.
  - exact (proj2 (density_restored NumberOfString d fed Fd1 Fd2)).
  - exact (proj2 (brightness_restored NumberOfString b fed Fb1 Fb2)).
Qed.

Lemma unticking_auto_restores_witness :
  Settings.get
    (snd (Settings.handleInputChange Samples.NumberOfString
            (Settings.checkbox "auto-density" false)
            (fst (Settings.handleInputChange Samples.NumberOfString
                    (Settings.checkbox "auto-density" true)
                    (Settings.setConfig
                       (default ∅ (mcp_config Dashboard.resetDefaults))
                       Settings.initial)))))
    "density" = VNumber (3 # 10).
Proof.
  destruct (unticking_auto_restores Samples.NumberOfString
              (default ∅ (mcp_config Dashboard.resetDefaults))
              (3 # 10) (5 # 10) Settings.initial)
    as (_ & _ & _ & _ & H & _); [reflexivity | reflexivity |].
  exact H.
Defined.

(** ** The colour of a new prompt *)

Lemma includes_In l x : includes l x = true <-> In x l.
Proof.
  unfold includes. rewrite existsb_exists. split.
  - intros (y & Hin & Heq). apply String.eqb_eq in Heq. subst y. exact Hin.
  - intros Hin. exists x. split; [exact Hin | apply String.eqb_refl].
Qed.

(** A random number of [[0, 1)] picks an element of a list that has
    one. *)
Lemma pick_In random l :
  (random < 1)%Q -> l <> [] -> In (Palette.pick random l) l.
Proof.
  intros Hr Hl. unfold Palette.pick. apply nth_In.
  assert (Hn : (0 < length l)%nat) by (destruct l; [congruence | cbn; lia]).
  set (n := Z.of_nat (length l)).
  assert (Hlt : (Qfloor (random * inject_Z n) < n)%Z).
  { rewrite Zlt_Qlt.
    apply Qle_lt_trans with (random * inject_Z n)%Q; [apply Qfloor_le |].
    assert (0 < inject_Z n)%Q.
    { change 0%Q with (inject_Z 0). rewrite <- Zlt_Qlt. subst n. lia. }
    nra. }
  subst n. lia.
Qed.

(** X16.  The colour of a new prompt is one of the palette, and as long
    as some colour of the palette is not in use it is one that no prompt
    of the map has; the prompt that is added carries it. *)
Theorem new_prompt_gets_unused_color env r random s :
  (random < 1)%Q ->
  let newColor :=
    Palette.getUnusedRandomColor random (Palette.usedColors s) in
  let res := handleAddUserPrompt env r newColor s in
  In newColor Palette.COLORS /\
  ((exists c, In c Palette.COLORS /\ ~ In c (Palette.usedColors s)) ->
   forall p, In p (map_values (userPrompts s)) -> color p <> newColor) /\
  exists p, In p (map_values (userPrompts (fst res))) /\
            color p = newColor /\ weight p = 0%Q.
Proof.
  intros Hr newColor res.
  set (availableColors :=
         List.filter (fun c => negb (includes (Palette.usedColors s) c))
           Palette.COLORS).
  assert (Hpick : availableColors <> [] -> In newColor availableColors).
  { intros Hne. subst newColor. unfold Palette.getUnusedRandomColor.
    fold availableColors.
    destruct availableColors as [| c l] eqn:E; [congruence |].
    cbn [length Nat.eqb]. apply pick_In; [exact Hr | discriminate]. }
  split; [| split].
  - destruct availableColors as [| c l] eqn:E.
    + subst newColor. unfold Palette.getUnusedRandomColor.
      fold availableColors. rewrite E. cbn [length Nat.eqb].
      apply pick_In; [exact Hr | discriminate].
    + assert (Hin : In newColor availableColors)
        by (rewrite E; apply Hpick; discriminate).
      subst availableColors. apply filter_In in Hin. exact (proj1 Hin).
  - intros (c & Hc & Hfree) p Hp Heq.
    assert (Hin : In newColor availableColors).
    { apply Hpick. intros Hnil.
      assert (Hca : In c availableColors).
      { subst availableColors. apply filter_In. split; [exact Hc |].
        apply negb_true_iff. destruct (includes _ c) eqn:I; [| reflexivity].
        apply includes_In in I. contradiction. }
      rewrite Hnil in Hca. exact Hca. }
    subst availableColors. apply filter_In in Hin as [_ Hin].
    apply negb_true_iff in Hin.
    assert (Hused : includes (Palette.usedColors s) newColor = true).
    { apply includes_In. unfold Palette.usedColors. rewrite <- Heq.
      apply in_map. exact Hp. }
    congruence.
  - subst res. unfold handleAddUserPrompt.
    rewrite !andThen_fst. cbn [modify fst].
    set (m := map_set _ _ _).
    set (s1 := set_userPrompts m _).
    destruct (setSessionPrompts_fields env (currentLyriaPrompts s1) s1)
      as (Hu & _).
    unfold storeUserPrompts, emit. cbn [fst]. cbn zeta in Hu. rewrite Hu.
    eexists. split; [apply map_set_values |]. split; reflexivity.
Qed.

Lemma new_prompt_gets_unused_color_witness :
  let newColor :=
    Palette.getUnusedRandomColor (1 # 3) (Palette.usedColors Samples.jamming) in
  In newColor Palette.COLORS /\ newColor <> "#9900ff".
Proof.
  intros newColor.
  destruct (new_prompt_gets_unused_color (Samples.envAt 1000 0) 5 (1 # 3)
              Samples.jamming)
    as (H1 & H2 & _); [reflexivity |].
  split; [exact H1 |].
  intros Heq. refine (H2 _ Samples.funk _ (eq_sym Heq)).
  - exists "#5200ff". split; [right; left; reflexivity |].
    intros [H | []]. discriminate H.
  - left. reflexivity.
Defined.

(** ** A user override on its way through the dashboard *)

Lemma get_union (a b : gmap string Value) k :
  Settings.get (a ∪ b) k =
    match a !! k with Some v => v | None => Settings.get b k end.
Proof.
  unfold Settings.get. rewrite lookup_union.
  destruct (a !! k), (b !! k); reflexivity.
Qed.

Lemma dispatch_lookup c k :
  Settings.dispatchSettingsChange c !! k =
    if String.eqb k "brightness" then
      if Settings.autoBrightness c then Some VUndefined
      else if Settings.autoDensity c
           then (<["density" := VUndefined]> (Settings.config c)) !! k
           else Settings.config c !! k
    else if String.eqb k "density" then
      if Settings.autoDensity c then Some VUndefined
      else Settings.config c !! k
    else Settings.config c !! k.
Proof.
  unfold Settings.dispatchSettingsChange.
  destruct (String.eqb k "brightness") eqn:Eb.
  - apply String.eqb_eq in Eb. subst k.
    destruct (Settings.autoBrightness c), (Settings.autoDensity c);
      rewrite ?lookup_insert_eq; reflexivity.
  - apply String.eqb_neq in Eb.
    destruct (String.eqb k "density") eqn:Ed.
    + apply String.eqb_eq in Ed. subst k.
      destruct (Settings.autoBrightness c), (Settings.autoDensity c);
        rewrite ?(lookup_insert_ne _ "brightness" "density") by discriminate;
        rewrite ?lookup_insert_eq; reflexivity.
    + apply String.eqb_neq in Ed.
      destruct (Settings.autoBrightness c), (Settings.autoDensity c);
        rewrite ?(lookup_insert_ne _ "brightness" k) by congruence;
        rewrite ?(lookup_insert_ne _ "density" k) by congruence;
        reflexivity.
Qed.

Lemma setConfig_fields newConfig c :
  Settings.config (Settings.setConfig newConfig c) =
    newConfig ∪ Settings.config c /\
  Settings.autoDensity (Settings.setConfig newConfig c) =
    (if Settings.defined (Settings.get newConfig "density") then false
     else Settings.autoDensity c) /\
  Settings.autoBrightness (Settings.setConfig newConfig c) =
    (if Settings.defined (Settings.get newConfig "brightness") then false
     else Settings.autoBrightness c).
Proof.
  unfold Settings.setConfig.
  destruct (Settings.defined (Settings.get newConfig "density")),
           (Settings.defined (Settings.get newConfig "brightness"));
    repeat split.
Qed.

(** X20.  A change of the settings on its way through the dashboard.  The
    dashboard merges the detail of the event over the agent's
    configuration.  When the merged configuration is handed to the form
    with [setConfig] (as [updateLyriaPrompts] does), what the form
    sends from then on agrees with it on every field: the user's values,
    and every field the user has on auto, are as the form dispatched
    them. *)
Theorem override_agrees_with_form sc current_prompt k :
  let detail := Settings.dispatchSettingsChange sc in
  let current_prompt' :=
    Dashboard.handleUserLyriaConfigOverride detail current_prompt in
  exists merged,
    mcp_config current_prompt' = Some merged /\
    weightedPrompts current_prompt' = weightedPrompts current_prompt /\
    (forall v, detail !! k = Some v -> Settings.get merged k = v) /\
    Settings.get
      (Settings.dispatchSettingsChange (Settings.setConfig merged sc)) k =
      Settings.get merged k.
Proof.
  intros detail current_prompt'.
  set (old := default ∅ (mcp_config current_prompt)).
  exists (detail ∪ old).
  split; [reflexivity |]. split; [reflexivity |]. split.
  { intros v Hv. rewrite get_union, Hv. reflexivity. }
  destruct (setConfig_fields (detail ∪ old) sc) as (Hcfg & Hd & Hb).
  assert (Hnone : (detail ∪ old) !! k = None ->
                  detail !! k = None).
  { rewrite lookup_union. destruct (detail !! k), (old !! k);
      cbn; congruence. }
  pose proof (dispatch_lookup sc k) as Hl. fold detail in Hl.
  unfold Settings.get at 1. rewrite dispatch_lookup, Hcfg, Hd, Hb.
  destruct (String.eqb k "brightness") eqn:Eb.
  - apply String.eqb_eq in Eb. subst k.
    unfold Settings.get at 1 2 3.
    rewrite ?(lookup_insert_ne _ "density" "brightness") by discriminate.
    rewrite (lookup_union (detail ∪ old)).
    destruct ((detail ∪ old) !! "brightness") as [v |] eqn:E.
    + destruct v; cbn; try reflexivity;
        destruct (Settings.autoBrightness sc); try reflexivity;
        destruct (Settings.defined _); try reflexivity;
        destruct (Settings.autoDensity sc);
        rewrite ?(lookup_insert_ne _ "density" "brightness") by discriminate;
        rewrite ?lookup_union, ?E;
        destruct (Settings.config sc !! "brightness"); reflexivity.
    + specialize (Hnone eq_refl). rewrite Hnone in Hl. cbn.
      destruct (Settings.autoBrightness sc); [discriminate Hl |].
      destruct (Settings.autoDensity sc);
        rewrite ?(lookup_insert_ne _ "density" "brightness") in Hl
          by discriminate;
        rewrite <- Hl;
        destruct (Settings.defined _);
        rewrite ?(lookup_insert_ne _ "density" "brightness") by discriminate;
        rewrite ?lookup_union, ?E; reflexivity.
  - destruct (String.eqb k "density") eqn:Ed.
    + apply String.eqb_eq in Ed. subst k.
      unfold Settings.get at 1 2.
      rewrite (lookup_union (detail ∪ old)).
      destruct ((detail ∪ old) !! "density") as [v |] eqn:E.
      * destruct v; cbn; try reflexivity;
          destruct (Settings.autoDensity sc); try reflexivity;
          destruct (Settings.config sc !! "density"); reflexivity.
      * specialize (Hnone eq_refl). rewrite Hnone in Hl. cbn.
        destruct (Settings.autoDensity sc); [discriminate Hl |].
        rewrite <- Hl. reflexivity.
    + unfold Settings.get. rewrite lookup_union.
      destruct ((detail ∪ old) !! k) as [v |] eqn:E.
      * destruct (Settings.config sc !! k); reflexivity.
      * specialize (Hnone eq_refl). rewrite Hnone in Hl. rewrite <- Hl.
        reflexivity.
Qed.

Lemma override_agrees_with_form_witness :
  exists merged,
    mcp_config
      (Dashboard.handleUserLyriaConfigOverride
         (Settings.dispatchSettingsChange Settings.initial)
         Dashboard.resetDefaults) = Some merged /\
    Settings.get merged "density" = VUndefined.
Proof.
  destruct (override_agrees_with_form Settings.initial Dashboard.resetDefaults
              "density") as (merged & H1 & _ & H3 & _).
  exists merged. split; [exact H1 |].
  apply H3. vm_compute. reflexivity.
Defined.

(** ** The musical agent *)

(** The configuration the musical agent returns. *)
Lemma musical_config input :
  exists bpm d b,
    mcp_config (Agents.executeMusicalAgent input) =
      Some (<["bpm" := VNumber bpm]>
              (<["density" := VNumber d]>
                 (<["brightness" := VNumber b]>
                    (<["temperature" := VNumber 1]>
                       (<["guidance" := VNumber (35 # 10)]>
                          (<["topK" := VNumber 50]>
                             (<["muteDrums" :=
                                  VBoolean
                                    (includes
                                       (Agents.risk_factors
                                          (Agents.context_analysis input))
                                       "high_fatigue")]> ∅))))))) /\
    (1 # 10 <= d)%Q /\ (d <= 8 # 10)%Q /\
    (3 # 10 <= b)%Q /\ (b <= 7 # 10)%Q /\
    (includes (Agents.risk_factors (Agents.context_analysis input))
       "high_fatigue" = true ->
     (d <= 6 # 10)%Q /\ (b <= 5 # 10)%Q) /\
    (includes (Agents.risk_factors (Agents.context_analysis input))
       "high_fatigue" = false ->
     (2 # 10 <= d)%Q).
Proof.
  unfold Agents.executeMusicalAgent.
  destruct (Agents.workout_phase (Agents.context_analysis input));
    destruct (includes (Agents.opportunities (Agents.context_analysis input))
                "increase_intensity");
    destruct (includes (Agents.risk_factors (Agents.context_analysis input))
                "high_fatigue");
    try destruct (Qltb 2 (Agents.hr_zone (Agents.processed_metrics input)));
    cbn [mcp_config];
    (eexists _, _, _; split; [reflexivity |]);
    repeat split;
    try match goal with K : false = true |- _ => discriminate K
                      | K : true = false |- _ => discriminate K end;
    try (intros K; discriminate K);
    try (intros _; split); vm_compute; intros; discriminate.
Qed.

Lemma musical_prompts input :
  exists wp l,
    weightedPrompts (Agents.executeMusicalAgent input) = wp :: l /\
    wp_weight wp = 1%Q.
Proof.
  unfold Agents.executeMusicalAgent.
  destruct (Agents.workout_phase (Agents.context_analysis input));
    destruct (includes (Agents.opportunities (Agents.context_analysis input))
                "increase_intensity");
    destruct (includes (Agents.risk_factors (Agents.context_analysis input))
                "high_fatigue");
    destruct (Nat.ltb 0 (length (Agents.style_preferences input)));
    cbn [weightedPrompts app]; eexists _, _; split; reflexivity.
Qed.

Lemma musical_lookup bpm d b m :
  let config : gmap string Value :=
    <["bpm" := VNumber bpm]>
      (<["density" := VNumber d]>
         (<["brightness" := VNumber b]>
            (<["temperature" := VNumber 1]>
               (<["guidance" := VNumber (35 # 10)]>
                  (<["topK" := VNumber 50]>
                     (<["muteDrums" := VBoolean m]> ∅)))))) in
  config !! "density" = Some (VNumber d) /\
  config !! "brightness" = Some (VNumber b) /\
  config !! "muteDrums" = Some (VBoolean m).
Proof.
  cbn zeta. repeat split;
    repeat (rewrite lookup_insert_ne by discriminate);
    apply lookup_insert_eq.
Qed.

(** X17.  What a cycle of the agents does to the element.  The prompt
    list of the musical agent starts with a prompt of weight 1, so the
    prompt set built from it never needs the filler.  Its configuration
    always sets density (between 0.1 and 0.8) and brightness (between 0.3
    and 0.7); so, handed to [updateLyriaPrompts] with the settings rendered,
    it takes both fields of the form out of auto mode, whatever the user
    had chosen, and writes its values into the form; a configuration that
    is sent carries these values. *)
Theorem agent_output_forces_manual env input sc s :
  settingsController s = Some sc ->
  let out := Agents.executeMusicalAgent input in
  let r := updateLyriaPrompts env out s in
  currentLyriaPrompts (fst r) = weightedPrompts out /\
  (forall s', allPrompts (weightedPrompts out) s' =
              weightedPrompts out ++ userWPs s') /\
  exists sc' d b,
    settingsController (fst r) = Some sc' /\
    Settings.autoDensity sc' = false /\
    Settings.autoBrightness sc' = false /\
    Settings.get (Settings.config sc') "density" = VNumber d /\
    (1 # 10 <= d)%Q /\ (d <= 8 # 10)%Q /\
    Settings.get (Settings.config sc') "brightness" = VNumber b /\
    (3 # 10 <= b)%Q /\ (b <= 7 # 10)%Q /\
    (forall c, In c (sentConfigs (snd r)) ->
               Settings.get c "density" = VNumber d /\
               Settings.get c "brightness" = VNumber b).
Proof.
  intros Hsc out r.
  destruct (musical_config input)
    as (bpm & d & b & Hcfg & Hd1 & Hd2 & Hb1 & Hb2 & _).
  fold out in Hcfg.
  destruct (musical_lookup bpm d b
              (includes (Agents.risk_factors (Agents.context_analysis input))
                 "high_fatigue")) as (Ld & Lb & _).
  cbn zeta in Ld, Lb.
  set (config := <["bpm" := VNumber bpm]> _) in *.
  destruct (updateLyriaPrompts_settings env out config sc s Hsc Hcfg)
    as (H1 & H2 & H3 & _).
  fold r in H1, H2, H3.
  split; [exact H2 |]. split.
  { intros s'. destruct (musical_prompts input) as (wp & l & Hw & _).
    fold out in Hw. unfold allPrompts. rewrite Hw. reflexivity. }
  destruct (setConfig_fields config sc) as (Kc & Kd & Kb).
  assert (Gd : Settings.get config "density" = VNumber d)
    by (unfold Settings.get; rewrite Ld; reflexivity).
  assert (Gb : Settings.get config "brightness" = VNumber b)
    by (unfold Settings.get; rewrite Lb; reflexivity).
  exists (Settings.setConfig config sc), d, b.
  split; [exact H1 |].
  split; [rewrite Kd, Gd; reflexivity |].
  split; [rewrite Kb, Gb; reflexivity |].
  split; [rewrite Kc, get_union, Ld; reflexivity |].
  split; [exact Hd1 |]. split; [exact Hd2 |].
  split; [rewrite Kc, get_union, Lb; reflexivity |].
  split; [exact Hb1 |]. split; [exact Hb2 |].
  intros c Hc. rewrite (H3 c Hc). split; assumption.
Qed.

Lemma agent_output_forces_manual_witness :
  let out :=
    Agents.executeMusicalAgent
      {| Agents.context_analysis :=
           {| Agents.workout_phase := Agents.main;
              Agents.energy_level := Agents.moderate;
              Agents.adaptation_needed := false;
              Agents.risk_factors := [];
              Agents.opportunities := [] |};
         Agents.processed_metrics :=
           {| Agents.heart_rate_bpm := 135; Agents.hr_zone := 3;
              Agents.cadence_spm := 160;
              Agents.user_fatigue_score := 3 # 10;
              Agents.session_minute := 5;
              Agents.current_mood := "focused";
              Agents.trend_direction := "stable" |};
         Agents.style_preferences := ["Trip Hop"; "Funk"];
         Agents.total_cycles := 3 |} in
  let r := updateLyriaPrompts (Samples.envAt 1000 0) out Samples.jamming in
  exists sc', settingsController (fst r) = Some sc' /\
              Settings.autoDensity sc' = false /\
              Settings.autoBrightness sc' = false.
Proof.
  intros out r.
  destruct (agent_output_forces_manual (Samples.envAt 1000 0)
              {| Agents.context_analysis :=
                   {| Agents.workout_phase := Agents.main;
                      Agents.energy_level := Agents.moderate;
                      Agents.adaptation_needed := false;
                      Agents.risk_factors := [];
                      Agents.opportunities := [] |};
                 Agents.processed_metrics :=
                   {| Agents.heart_rate_bpm := 135; Agents.hr_zone := 3;
                      Agents.cadence_spm := 160;
                      Agents.user_fatigue_score := 3 # 10;
                      Agents.session_minute := 5;
                      Agents.current_mood := "focused";
                      Agents.trend_direction := "stable" |};
                 Agents.style_preferences := ["Trip Hop"; "Funk"];
                 Agents.total_cycles := 3 |}
              Settings.initial Samples.jamming eq_refl)
    as (_ & _ & sc' & d & b & H1 & H2 & H3 & _).
  exists sc'. split; [exact H1 |]. split; assumption.
Defined.

(** ** From the context to the music *)

(** X18.  The context agent and the musical agent, one after the other, as
    a cycle runs them on the same metrics.  When the fatigue score is above
    the threshold the context agent reports the risk and asks for an
    adaptation, and the musical agent mutes the drums and keeps density at
    most 0.6 and brightness at most 0.5; otherwise the drums are not muted
    and density is at least 0.2. *)
Theorem fatigue_thins_the_music pm threshold running styles n :
  let ctx :=
    Agents.executeContextAgent
      {| Agents.ca_processed_metrics := pm;
         Agents.fatigue_threshold := threshold;
         Agents.simulation_running := running |} in
  let out :=
    Agents.executeMusicalAgent
      {| Agents.context_analysis := ctx;
         Agents.processed_metrics := pm;
         Agents.style_preferences := styles;
         Agents.total_cycles := n |} in
  exists config d b,
    mcp_config out = Some config /\
    Settings.get config "density" = VNumber d /\
    Settings.get config "brightness" = VNumber b /\
    ((threshold < Agents.user_fatigue_score pm)%Q ->
     In "high_fatigue" (Agents.risk_factors ctx) /\
     Agents.adaptation_needed ctx = true /\
     Settings.get config "muteDrums" = VBoolean true /\
     (d <= 6 # 10)%Q /\ (b <= 5 # 10)%Q) /\
    ((Agents.user_fatigue_score pm <= threshold)%Q ->
     ~ In "high_fatigue" (Agents.risk_factors ctx) /\
     Settings.get config "muteDrums" = VBoolean false /\
     (2 # 10 <= d)%Q).
Proof.
  intros ctx out.
  assert (Hrisk : includes (Agents.risk_factors ctx) "high_fatigue" =
                    Qltb threshold (Agents.user_fatigue_score pm) /\
                  (Qltb threshold (Agents.user_fatigue_score pm) = true ->
                   Agents.adaptation_needed ctx = true)).
  { subst ctx. unfold Agents.executeContextAgent.
    cbn [Agents.ca_processed_metrics Agents.fatigue_threshold
         Agents.simulation_running Agents.risk_factors
         Agents.adaptation_needed].
    destruct (Qltb threshold (Agents.user_fatigue_score pm));
      destruct (Qltb 4 (Agents.hr_zone pm) && _); split; try reflexivity;
      intros K; try discriminate K; reflexivity. }
  destruct Hrisk as [Hrisk Hneed].
  destruct (musical_config
              {| Agents.context_analysis := ctx;
                 Agents.processed_metrics := pm;
                 Agents.style_preferences := styles;
                 Agents.total_cycles := n |})
    as (bpm & d & b & Hcfg & _ & _ & _ & _ & Hhigh & Hlow).
  fold out in Hcfg. cbn [Agents.context_analysis] in Hcfg, Hhigh, Hlow.
  destruct (musical_lookup bpm d b
              (includes (Agents.risk_factors ctx) "high_fatigue"))
    as (Ld & Lb & Lm).
  cbn zeta in Ld, Lb, Lm.
  set (config := <["bpm" := VNumber bpm]> _) in *.
  exists config, d, b.
  split; [exact Hcfg |].
  split; [unfold Settings.get; rewrite Ld; reflexivity |].
  split; [unfold Settings.get; rewrite Lb; reflexivity |].
  split.
  - intros Hlt. apply Qltb_lt in Hlt. rewrite Hlt in Hrisk.
    split; [apply includes_In, Hrisk |].
    split; [apply Hneed, Hlt |].
    split; [unfold Settings.get; rewrite Lm, Hrisk; reflexivity |].
    apply Hhigh, Hrisk.
  - intros Hle. apply Qltb_ge in Hle. rewrite Hle in Hrisk.
    split.
    + intros Hin. apply includes_In in Hin. congruence.
    + split; [unfold Settings.get; rewrite Lm, Hrisk; reflexivity |].
      apply Hlow, Hrisk.
Qed.

(** ** Clamped values *)

Lemma Math_max_ge x y : (x <= Math_max x y)%Q /\ (y <= Math_max x y)%Q.
Proof.
  unfold Math_max. destruct (Qltb x y) eqn:E.
  - apply Qltb_lt in E. split; lra.
  - apply Qltb_ge in E. split; lra.
Qed.

Lemma Math_max_le x y z : (x <= z)%Q -> (y <= z)%Q -> (Math_max x y <= z)%Q.
Proof. unfold Math_max. destruct (Qltb x y); auto. Qed.

Lemma Math_min_le x y : (Math_min x y <= x)%Q /\ (Math_min x y <= y)%Q.
Proof.
  unfold Math_min. destruct (Qltb y x) eqn:E.
  - apply Qltb_lt in E. split; lra.
  - apply Qltb_ge in E. split; lra.
Qed.

Lemma Math_min_ge x y z : (z <= x)%Q -> (z <= y)%Q -> (z <= Math_min x y)%Q.
Proof. unfold Math_min. destruct (Qltb y x); auto. Qed.

(** The clamp [Math.max(lo, Math.min(hi, x))]. *)
Lemma clamp_range lo hi x :
  (lo <= hi)%Q ->
  (lo <= Math_max lo (Math_min hi x))%Q /\
  (Math_max lo (Math_min hi x) <= hi)%Q.
Proof.
  intros H. split; [apply Math_max_ge |].
  apply Math_max_le; [exact H | apply Math_min_le].
Qed.

Lemma clamp_inside lo hi x :
  (lo <= x)%Q -> (x <= hi)%Q -> (Math_max lo (Math_min hi x) == x)%Q.
Proof.
  intros H1 H2. unfold Math_max, Math_min.
  destruct (Qltb x hi) eqn:E1.
  - destruct (Qltb lo x) eqn:E2; [reflexivity |].
    apply Qltb_ge in E2. lra.
  - apply Qltb_ge in E1.
    destruct (Qltb lo hi) eqn:E2; [lra |].
    apply Qltb_ge in E2. lra.
Qed.

Lemma fatigue_thins_the_music_witness :
  let pm :=
    {| Agents.heart_rate_bpm := 158; Agents.hr_zone := 4;
       Agents.cadence_spm := 170; Agents.user_fatigue_score := 9 # 10;
       Agents.session_minute := 12; Agents.current_mood := "fatigued";
       Agents.trend_direction := "stable" |} in
  let ctx :=
    Agents.executeContextAgent
      {| Agents.ca_processed_metrics := pm;
         Agents.fatigue_threshold := 8 # 10;
         Agents.simulation_running := true |} in
  let out :=
    Agents.executeMusicalAgent
      {| Agents.context_analysis := ctx;
         Agents.processed_metrics := pm;
         Agents.style_preferences := ["Trip Hop"];
         Agents.total_cycles := 7 |} in
  exists config,
    mcp_config out = Some config /\
    Settings.get config "muteDrums" = VBoolean true.
Proof.
  intros pm ctx out.
  destruct (fatigue_thins_the_music pm (8 # 10) true ["Trip Hop"] 7%nat)
    as (config & d & b & H1 & _ & _ & H4 & _).
  exists config. split; [exact H1 |].
  apply H4. reflexivity.
Defined.

(** ** A flagged connection is not used *)

Ltac held_step :=
  lazymatch goal with
  | |- keeps _ _ (_ >>> _) => apply keeps_andThen
  | |- keeps _ _ skip => apply keeps_skip
  | |- keeps _ _ (emit _) => apply keeps_emit; exact Logic.I
  | |- keeps _ _ (dispatchToast _) => apply keeps_emit; exact Logic.I
  | |- keeps _ _ (modify _) =>
      apply keeps_modify;
      first [ intros ? ?; reflexivity
            | let H := fresh in intros ? H; exact H ]
  end.
Ltac held := repeat held_step.

Lemma held_internalPauseAudio env :
  keeps flagged held_back (internalPauseAudio env).
Proof.
  intros s H. unfold internalPauseAudio. rewrite H, orb_true_r.
  keeps_branch s H. held.
Qed.

Lemma held_internalLoadAudio env :
  keeps flagged held_back (internalLoadAudio env).
Proof.
  intros s H. unfold internalLoadAudio. rewrite H, orb_true_r.
  keeps_branch s H. held.
Qed.

Lemma held_internalStopAudio : keeps flagged held_back internalStopAudio.
Proof.
  intros s H. unfold internalStopAudio.
  destruct (negb (session s)); keeps_branch s H; held.
Qed.

Lemma held_connectToSession env :
  keeps flagged held_back (connectToSession env).
Proof. unfold connectToSession. destruct (connect env); held. Qed.

Lemma held_setSessionPrompts env prompts :
  keeps flagged held_back (setSessionPrompts env prompts).
Proof.
  apply keeps_throttle; [intros v s H; exact H |].
  intros s H. unfold setSessionPrompts_func. rewrite H, orb_true_r.
  keeps_branch s H. held.
Qed.

Lemma held_updateLyriaConfig env config :
  keeps flagged held_back (updateLyriaConfig env config).
Proof.
  apply keeps_throttle; [intros v s H; exact H |].
  intros s H. unfold updateLyriaConfig_func. rewrite H, orb_true_r.
  keeps_branch s H. held.
Qed.

Lemma held_handleSettingsChanged env detail :
  keeps flagged held_back (handleSettingsChanged env detail).
Proof.
  unfold handleSettingsChanged. apply keeps_andThen;
    [apply held_updateLyriaConfig | held].
Qed.

Lemma held_updateLyriaPrompts env promptAndConfig :
  keeps flagged held_back (updateLyriaPrompts env promptAndConfig).
Proof.
  unfold updateLyriaPrompts. apply keeps_andThen; [held |].
  apply keeps_andThen; [apply held_setSessionPrompts |].
  intros s H.
  destruct (settingsController s), (mcp_config promptAndConfig);
    keeps_branch s H; held.
  apply held_updateLyriaConfig.
Qed.

Lemma held_resend env :
  keeps flagged held_back
    ((fun s => setSessionPrompts env (currentLyriaPrompts s) s) >>>
     storeUserPrompts).
Proof.
  apply keeps_andThen.
  - intros s H. exact (held_setSessionPrompts env _ s H).
  - intros s H. unfold storeUserPrompts. keeps_branch s H. held.
Qed.

Lemma held_handlePlayPause env : keeps flagged held_back (handlePlayPause env).
Proof.
  intros s H. unfold handlePlayPause. rewrite H.
  destruct (playbackState s); keeps_branch s H;
    try apply held_internalPauseAudio; try apply held_internalStopAudio.
  all: apply keeps_andThen; [apply held_connectToSession |].
  all: intros s1 H1; rewrite H1; cbn [negb]; keeps_branch s1 H1; held.
Qed.

Lemma held_handleReset env : keeps flagged held_back (handleReset env).
Proof.
  intros s H. unfold handleReset. rewrite H. keeps_branch s H.
  apply keeps_andThen; [apply held_connectToSession |].
  intros s1 H1. rewrite H1. keeps_branch s1 H1. held.
Qed.

Lemma held_onmessage decodeAudioData env e :
  setupComplete e = false ->
  keeps flagged held_back (onmessage decodeAudioData env e).
Proof.
  intros He. unfold onmessage. rewrite He.
  apply keeps_andThen; [held |]. apply keeps_andThen.
  - destruct (filteredPrompt e); held.
  - destruct (audioChunks e) as [[| chunk chunks] |]; [| | held].
    + intros s H. destruct (playbackState s); keeps_branch s H; held.
    + destruct (decodeAudioData (data chunk)) as [audioBuffer |];
        intros s H; destruct (playbackState s); keeps_branch s H; held.
      all: unfold scheduleChunk; apply keeps_andThen; intros s1 H1.
      all: try (destruct (Qeq_bool (nextStartTime s1) 0);
                keeps_branch s1 H1; held).
      all: destruct (Qltb (nextStartTime s1) (currentTime env));
        keeps_branch s1 H1; held.
Qed.

Lemma held_handle decodeAudioData NumberOfString env ev :
  before_setup ev ->
  keeps flagged held_back (handle decodeAudioData NumberOfString env ev).
Proof.
  destruct ev; cbn [handle before_setup]; intros Hev.
  - intros s H. unfold firstRender.
    destruct (settingsController s); keeps_branch s H; held.
  - unfold firstUpdated. apply keeps_andThen; [apply held_connectToSession |].
    destruct (mcp env); [apply held_updateLyriaPrompts | held].
  - apply held_onmessage, Hev.
  - unfold onerror. held. apply held_internalStopAudio.
  - unfold onclose. destruct wasClean; cbn [negb]; held.
    apply held_internalStopAudio.
  - intros s H. unfold timeout. destruct t.
    + destruct (playbackState s); keeps_branch s H; held.
    + rewrite H. cbn [negb]. keeps_branch s H. held.
  - apply held_updateLyriaPrompts.
  - intros s H. unfold playAudio.
    destruct (playbackState s); keeps_branch s H; held;
      apply held_handlePlayPause.
  - intros s H. unfold pauseAudio.
    destruct (playbackState s); keeps_branch s H; held;
      apply held_internalPauseAudio.
  - apply held_handlePlayPause.
  - apply held_handleReset.
  - intros s H. unfold handleUserPromptChanged.
    destruct (map_get (promptId detail) (userPrompts s)); keeps_branch s H;
      [| held].
    apply keeps_andThen; [held | apply held_resend].
  - intros s H. unfold handleAddUserPrompt. keeps_branch s H.
    apply keeps_andThen; [held |]. apply keeps_andThen; [held |].
    apply held_resend.
  - intros s H. unfold handleUserPromptRemoved.
    destruct (map_get promptIdToRemove (userPrompts s)); keeps_branch s H;
      [| held].
    apply keeps_andThen; [held | apply held_resend].
  - intros s H. unfold settingsInput.
    destruct (settingsController s) as [sc |];
      [destruct (Settings.handleInputChange NumberOfString target sc)
         as [sc' detail] |];
      keeps_branch s H; held.
    apply held_handleSettingsChanged.
Qed.

Lemma held_back_trace t :
  Forall held_back t ->
  sentPrompts t = [] /\ sentConfigs t = [] /\
  ~ In SessionPlay t /\ ~ In SessionPause t /\ ~ In SessionResetContext t.
Proof.
  induction 1 as [| e t He _ IH]; [cbn; intuition |].
  destruct IH as (I1 & I2 & I3 & I4 & I5).
  destruct e; cbn in He |- *; try contradiction;
    repeat split; try assumption;
    intros [K | K]; try discriminate K; auto.
Qed.

(** X21.  While the connection is flagged as failed (from the constructor
    on, and after an error or an unclean close) and until the service
    confirms a setup, the element asks nothing of it but a new connection
    and a stop: whatever the handlers that run, no prompt set and no
    configuration is sent, and neither play, pause nor a reset of the
    context; the flag stays.  In particular the prompts and the
    configuration that [firstUpdated] hands over right after connecting
    are not sent. *)
Theorem flagged_connection_is_not_used decodeAudioData NumberOfString l s :
  connectionError s = true ->
  Forall (fun c => before_setup (snd c)) l ->
  let r := run decodeAudioData NumberOfString l s in
  connectionError (fst r) = true /\
  sentPrompts (snd r) = [] /\ sentConfigs (snd r) = [] /\
  ~ In SessionPlay (snd r) /\ ~ In SessionPause (snd r) /\
  ~ In SessionResetContext (snd r).
Proof.
  intros Hc Hl r.
  destruct (keeps_run decodeAudioData NumberOfString flagged held_back l)
    with (s := s) as [H1 H2]; [| exact Hc |].
  - intros env ev Hin. apply held_handle.
    rewrite List.Forall_forall in Hl. exact (Hl _ Hin).
  - split; [exact H1 |]. apply held_back_trace, H2.
Qed.

Lemma flagged_connection_is_not_used_witness :
  let env :=
    {| dateNow := 1000; currentTime := 0; connect := Resolved;
       setWeightedPrompts := Resolved; setMusicGenerationConfig := Resolved;
       mcp := Some {| weightedPrompts := [Samples.ambient];
                      mcp_config :=
                        mcp_config Dashboard.resetDefaults |} |} in
  let r := run Samples.decodeAudioData Samples.NumberOfString
             [ (env, FirstRender); (env, FirstUpdated); (env, PlayPause) ]
             (initial [] 0) in
  sentPrompts (snd r) = [] /\ sentConfigs (snd r) = [] /\
  ~ In SessionPlay (snd r).
Proof.
  intros env r.
  destruct (flagged_connection_is_not_used Samples.decodeAudioData
              Samples.NumberOfString
              [ (env, FirstRender); (env, FirstUpdated); (env, PlayPause) ]
              (initial [] 0))
    as (_ & H1 & H2 & H3 & _);
    [reflexivity | repeat constructor |].
  split; [exact H1 |]. split; [exact H2 | exact H3].
Defined.

(** ** The weight slider *)

Lemma Qdiv_range x h :
  (0 < h)%Q -> (0 <= x)%Q -> (x <= h)%Q ->
  (0 <= x / h)%Q /\ (x / h <= 1)%Q.
Proof.
  intros Hh H0 H1. split.
  - apply Qle_shift_div_l; [exact Hh | lra].
  - apply Qle_shift_div_r; [exact Hh | lra].
Qed.

(** X22.  The value of a weight slider stays between 0 and 2.  A turn of
    the wheel moves it by 0.005 per unit against the direction of the
    scroll and clamps it, so scrolling down never raises it and scrolling
    up never lowers it.  A pointer position on a track of positive height
    gives a value between 0 and 2: 2 at or above the top of the track, 0
    at or below its bottom. *)
Theorem slider_value_stays_in_range deltaY value clientY containerBounds v0 :
  (0 <= value)%Q -> (value <= 2)%Q ->
  (0 < Slider.height containerBounds)%Q ->
  (exists w, Slider.handleWheel deltaY (Slider.Finite value) =
               Slider.Finite w /\
             (0 <= w)%Q /\ (w <= 2)%Q /\
             ((0 <= deltaY)%Q -> (w <= value)%Q) /\
             ((deltaY <= 0)%Q -> (value <= w)%Q)) /\
  (exists w, Slider.updateValueFromPosition clientY (Some containerBounds) v0 =
               (Slider.Finite w, Some (Slider.Finite w)) /\
             (0 <= w)%Q /\ (w <= 2)%Q /\
             ((clientY <= Slider.top containerBounds)%Q -> (w == 2)%Q) /\
             ((Slider.top containerBounds + Slider.height containerBounds
               <= clientY)%Q -> (w == 0)%Q)).
Proof.
  intros Hv0 Hv2 Hh. split.
  - eexists. split; [reflexivity |].
    set (x := (value + deltaY * - (5 # 1000))%Q).
    destruct (clamp_range 0 2 x) as [Hlo Hhi]; [lra |].
    split; [exact Hlo |]. split; [exact Hhi |].
    split; intros Hd.
    + apply Math_max_le; [exact Hv0 |].
      apply Qle_trans with x; [apply Math_min_le | subst x; lra].
    + apply Qle_trans with (Math_min 2 x); [| apply Math_max_ge].
      apply Math_min_ge; [exact Hv2 | subst x; lra].
  - unfold Slider.updateValueFromPosition.
    set (h := Slider.height containerBounds) in *.
    set (y := (clientY - Slider.top containerBounds)%Q).
    destruct (Qeq_bool h 0) eqn:E.
    { apply Qeq_bool_iff in E. lra. }
    eexists. split; [reflexivity |].
    set (x := Math_max 0 (Math_min h y)).
    destruct (clamp_range 0 h y) as [Hlo Hhi]; [lra |]. fold x in Hlo, Hhi.
    destruct (Qdiv_range x h Hh Hlo Hhi) as [D0 D1].
    split; [lra |]. split; [lra |]. split.
    + intros Htop.
      assert (Hx : (x == 0)%Q).
      { apply Qle_antisym; [| exact Hlo].
        subst x. apply Math_max_le; [lra |].
        apply Qle_trans with y; [apply Math_min_le | subst y; lra]. }
      rewrite Hx. unfold Qdiv. rewrite Qmult_0_l. lra.
    + intros Hbot.
      assert (Hx : (x == h)%Q).
      { apply Qle_antisym; [exact Hhi |].
        subst x. apply Qle_trans with (Math_min h y); [| apply Math_max_ge].
        apply Math_min_ge; [lra | subst y; lra]. }
      rewrite Hx. field. lra.
Qed.

Lemma slider_value_stays_in_range_witness :
  exists w,
    Slider.handleWheel 1000 (Slider.Finite (3 # 2)) = Slider.Finite w /\
    (0 <= w)%Q.
Proof.
  destruct (slider_value_stays_in_range 1000 (3 # 2) 40
              {| Slider.top := 100; Slider.height := 200 |} Slider.NaN)
    as ((w & H1 & H2 & _) & _);
    try (vm_compute; discriminate); try reflexivity.
  exists w. split; assumption.
Defined.
